(** * vimView: catalog, mutation and undo engine of the image viewer

    A shallow embedding of [src/vimView/widgets/image_viewer.py] and
    [src/vimView/workers/thumbnail_worker.py].

    - a [pathlib.Path] is the list of its parts after the root ([Path]);
      a string becomes a path as [pathlib] parses it ([parse_parts],
      [join_str]);
    - the filesystem is a finite map from paths to nodes ([gmap]); it
      takes the parts of a path as the names of entries (the kernel's
      resolution of [..] and of symbolic links is not modelled);
    - the filesystem, the threads, the filmstrip's item objects and the
      widget's attributes are the fields of the record [World];
    - a method is a function from the world (filesystem and widget) to an
      outcome that says whether the method returned or raised;
    - Python's list operations ([l[i]], [l[i] = x], [pop], [insert],
      [index], [remove]) are written out with their out-of-range behaviour. *)

From Stdlib Require Import Ascii String ZArith Lia.
From stdpp Require Import base list sorting gmap strings pretty.

Local Open Scope string_scope.

(** ** Lexicographic comparison, as Python compares sequences *)

Fixpoint lex_cmp {A : Type} (cmp : A -> A -> comparison) (x y : list A) : comparison :=
  match x, y with
  | [], [] => Eq
  | [], _ :: _ => Lt
  | _ :: _, [] => Gt
  | a :: x', b :: y' =>
      match cmp a b with
      | Eq => lex_cmp cmp x' y'
      | c => c
      end
  end.

(** ** Strings: the [str] methods the viewer uses (ASCII model) *)

Definition ascii_cmp (a b : ascii) : comparison :=
  N.compare (N_of_ascii a) (N_of_ascii b).

(** [s1 < s2] on [str]: code points, position by position. *)
Definition str_cmp (s t : string) : comparison :=
  lex_cmp ascii_cmp (list_ascii_of_string s) (list_ascii_of_string t).

(** [c.lower()] on one ASCII character. *)
Definition lower_char (c : ascii) : ascii :=
  let n := N_of_ascii c in
  if ((65 <=? n) && (n <=? 90))%N then ascii_of_N (n + 32) else c.

(** [s.lower()] *)
Fixpoint lower (s : string) : string :=
  match s with
  | EmptyString => EmptyString
  | String c r => String (lower_char c) (lower r)
  end.

(** [s.startswith(p)] *)
Fixpoint startswith (s p : string) : bool :=
  match p, s with
  | EmptyString, _ => true
  | String _ _, EmptyString => false
  | String a p', String b s' => Ascii.eqb a b && startswith s' p'
  end.

(** [needle in hay] *)
Fixpoint str_in (needle hay : string) : bool :=
  startswith hay needle ||
  match hay with
  | EmptyString => false
  | String _ r => str_in needle r
  end.

(** [s.rfind(".")], counted from offset [i]; [None] is Python's [-1]. *)
Fixpoint rfind_dot (s : string) (i : nat) : option nat :=
  match s with
  | EmptyString => None
  | String c r =>
      match rfind_dot r (S i) with
      | Some j => Some j
      | None => if Ascii.eqb c "." then Some i else None
      end
  end.

(** [str.isspace] on one ASCII character. *)
Definition is_space (c : ascii) : bool :=
  let n := N_of_ascii c in
  (((9 <=? n) && (n <=? 13)) || ((28 <=? n) && (n <=? 32)))%N.

Fixpoint lstrip (s : string) : string :=
  match s with
  | String c r => if is_space c then lstrip r else s
  | EmptyString => EmptyString
  end.

Fixpoint rstrip (s : string) : string :=
  match s with
  | EmptyString => EmptyString
  | String c r =>
      match rstrip r with
      | EmptyString => if is_space c then EmptyString else String c EmptyString
      | r' => String c r'
      end
  end.

(** [s.strip()] *)
Definition strip (s : string) : string := rstrip (lstrip s).

(** ** Paths: [pathlib.Path] as the list of its parts *)

Abbreviation Path := (list string).

(** [p.name] *)
Definition name (p : Path) : string := List.last p "".

(** [p.parent] *)
Definition parent (p : Path) : Path := List.removelast p.

(** [d / n] for a single component [n] (a file name without separator). *)
Definition joinpath (d : Path) (n : string) : Path := (d ++ [n])%list.

(** [s.split("/")]: the pieces between the separators. *)
Fixpoint split_slash (s : string) : list string :=
  match s with
  | EmptyString => [EmptyString]
  | String c r =>
      match split_slash r with
      | piece :: rest =>
          if Ascii.eqb c "/" then EmptyString :: piece :: rest
          else String c piece :: rest
      | [] => [String c EmptyString]
      end
  end.

(** The parts of [PurePosixPath(s)] after the root: the pieces of [s]
    without the empty ones and without [.]; a piece [..] stays. *)
Definition parse_parts (s : string) : Path :=
  filter (fun piece => piece <> EmptyString /\ piece <> ".") (split_slash s).

(** [d / s] for a string [s]: a string that starts with a separator is an
    absolute path and replaces [d]; otherwise its parts follow those of
    [d].  (A root written with exactly two slashes is the root, as it is
    for the kernel.) *)
Definition join_str (d : Path) (s : string) : Path :=
  if startswith s "/" then parse_parts s else (d ++ parse_parts s)%list.

(** The position at which [PurePath.suffix] and [PurePath.stem] split a
    name: the last dot, when it is neither the first nor the last
    character. *)
Definition split_at (n : string) : option nat :=
  match rfind_dot n 0 with
  | Some i => if (0 <? i)%nat && (i <? String.length n - 1)%nat then Some i else None
  | None => None
  end.

(** [PurePath(n).suffix] *)
Definition suffix_of (n : string) : string :=
  match split_at n with
  | Some i => substring i (String.length n - i) n
  | None => ""
  end.

(** [PurePath(n).stem] *)
Definition stem_of (n : string) : string :=
  match split_at n with
  | Some i => substring 0 i n
  | None => n
  end.

Definition suffix (p : Path) : string := suffix_of (name p).
Definition stem (p : Path) : string := stem_of (name p).

(** [p < q] on paths: the parts are compared as lists of strings. *)
Definition path_cmp (p q : Path) : comparison := lex_cmp str_cmp p q.

Definition path_le (p q : Path) : Prop := path_cmp p q <> Gt.

Global Instance path_le_dec : RelDecision path_le.
Proof. intros p q. unfold path_le. destruct (path_cmp p q); [left|left|right]; congruence. Defined.

(** ** Python lists: indexing with the out-of-range behaviour written out *)

(** The position an index denotes: [0 <= i < len] as it is, [-len <= i < 0]
    from the end, anything else is an [IndexError] ([None]). *)
Definition norm_index {A} (l : list A) (i : Z) : option nat :=
  let n := Z.of_nat (length l) in
  if ((0 <=? i) && (i <? n))%Z then Some (Z.to_nat i)
  else if ((- n <=? i) && (i <? 0))%Z then Some (Z.to_nat (n + i))
  else None.

(** [l[i]] *)
Definition py_get {A} (l : list A) (i : Z) : option A :=
  match norm_index l i with
  | Some k => l !! k
  | None => None
  end.

(** [l[i] = x] *)
Definition py_set {A} (l : list A) (i : Z) (x : A) : option (list A) :=
  match norm_index l i with
  | Some k => Some (<[k := x]> l)
  | None => None
  end.

(** [l.pop(i)]: the element and the shortened list. *)
Definition py_pop {A} (l : list A) (i : Z) : option (A * list A) :=
  match norm_index l i with
  | Some k =>
      match l !! k with
      | Some x => Some (x, delete k l)
      | None => None
      end
  | None => None
  end.

(** [l.insert(i, x)]: never raises, the position is clamped into
    [0 .. len]. *)
Definition py_insert {A} (l : list A) (i : Z) (x : A) : list A :=
  let n := Z.of_nat (length l) in
  let j := Z.to_nat (if (i <? 0)%Z then Z.max 0 (n + i) else Z.min i n) in
  (take j l ++ x :: drop j l)%list.

(** [l.index(x)]: first position of [x]; [None] is the [ValueError]. *)
Fixpoint py_index `{EqDecision A} (l : list A) (x : A) : option nat :=
  match l with
  | [] => None
  | y :: l' => if decide (y = x) then Some 0%nat else S <$> py_index l' x
  end.

(** [x in l] *)
Definition py_in `{EqDecision A} (x : A) (l : list A) : bool :=
  bool_decide (x ∈ l).

(** [l.remove(x)] for an [x] known to be in [l]: drops the first
    occurrence. *)
Fixpoint py_remove `{EqDecision A} (l : list A) (x : A) : list A :=
  match l with
  | [] => []
  | y :: l' => if decide (y = x) then l' else y :: py_remove l' x
  end.

(** [l.pop()] on the undo stack: the last element and the rest. *)
Fixpoint pop_last {A} (l : list A) : option (list A * A) :=
  match l with
  | [] => None
  | [x] => Some ([], x)
  | x :: l' =>
      match pop_last l' with
      | Some (r, y) => Some (x :: r, y)
      | None => None
      end
  end.

(** [max(0, min(i, n - 1))] *)
Definition clamp_index (i n : Z) : Z := Z.max 0 (Z.min i (n - 1)).

(** ** The filesystem *)

(** A decoded preview ([QPixmap]), identified by a number. *)
Definition pixmap := nat.

(** What a file holds: its bytes (a number standing for them) and what
    [QImageReader.read] makes of them, [None] when the image is null. *)
Record content := { file_id : nat; decoded : option pixmap }.

Inductive node :=
  | File (c : content)
  | Dir.

Global Instance content_eq_dec : EqDecision content.
Proof. solve_decision. Defined.

Global Instance node_eq_dec : EqDecision node.
Proof. solve_decision. Defined.

Abbreviation FS := (gmap (list string) node).

(** The exceptions the modelled calls raise. *)
Inductive exn :=
  | FileNotFoundError
  | FileExistsError
  | NotADirectoryError
  | IsADirectoryError
  | ShutilError
  | IndexError
  | ValueError
  | AttributeError.

Global Instance exn_eq_dec : EqDecision exn.
Proof. solve_decision. Defined.

(** The node at a path; the root (no parts) is always a directory. *)
Definition node_at (fs : FS) (p : Path) : option node :=
  match p with
  | [] => Some Dir
  | _ => fs !! p
  end.

(** [p.exists()] *)
Definition exists_ (fs : FS) (p : Path) : bool :=
  match node_at fs p with Some _ => true | None => false end.

(** [p.is_dir()] *)
Definition is_dir (fs : FS) (p : Path) : bool :=
  match node_at fs p with Some Dir => true | _ => false end.

(** [p.mkdir(exist_ok=True)] *)
Definition mkdir (fs : FS) (p : Path) : exn + FS :=
  match node_at fs p with
  | Some Dir => inr fs
  | Some (File _) => inl FileExistsError
  | None =>
      match node_at fs (parent p) with
      | Some Dir => inr (<[p := Dir]> fs)
      | Some (File _) => inl NotADirectoryError
      | None => inl FileNotFoundError
      end
  end.

(** [p.mkdir(parents=True, exist_ok=True)], one part after the other from
    the directory [base]. *)
Fixpoint mkdir_parents_from (fs : FS) (base : Path) (rest : list string) : exn + FS :=
  match rest with
  | [] => inr fs
  | c :: rest' =>
      let q := joinpath base c in
      match node_at fs q with
      | Some Dir => mkdir_parents_from fs q rest'
      | Some (File _) =>
          inl (match rest' with [] => FileExistsError | _ => NotADirectoryError end)
      | None => mkdir_parents_from (<[q := Dir]> fs) q rest'
      end
  end.

Definition mkdir_parents (fs : FS) (p : Path) : exn + FS :=
  mkdir_parents_from fs [] p.

(** Moving a directory takes what is below it along. *)
Definition move_tree (fs : FS) (src dst : Path) : FS :=
  let below := filter (fun kv => src `prefix_of` kv.1) fs in
  let rest := filter (fun kv => ~ src `prefix_of` kv.1) fs in
  list_to_map
    ((fun kv => ((dst ++ drop (length src) kv.1)%list, kv.2)) <$> map_to_list below)
  ∪ rest.

(** [os.rename(src, dst)] on POSIX: a file replaces an existing file, a
    directory is moved only to a free name. *)
Definition os_rename (fs : FS) (src dst : Path) : exn + FS :=
  match fs !! src with
  | None => inl FileNotFoundError
  | Some (File c) =>
      match node_at fs (parent dst) with
      | None => inl FileNotFoundError
      | Some (File _) => inl NotADirectoryError
      | Some Dir =>
          match node_at fs dst with
          | Some Dir => inl IsADirectoryError
          | _ => inr (<[dst := File c]> (delete src fs))
          end
      end
  | Some Dir =>
      match node_at fs (parent dst) with
      | None => inl FileNotFoundError
      | Some (File _) => inl NotADirectoryError
      | Some Dir =>
          match node_at fs dst with
          | Some (File _) => inl NotADirectoryError
          | Some Dir => inl FileExistsError
          | None => inr (move_tree fs src dst)
          end
      end
  end.

(** [shutil.move(src, dst)]: into [dst] when that is a directory,
    otherwise a rename. *)
Definition shutil_move (fs : FS) (src dst : Path) : exn + FS :=
  if is_dir fs dst then
    let real_dst := joinpath dst (name src) in
    if exists_ fs real_dst then inl ShutilError else os_rename fs src real_dst
  else os_rename fs src dst.

(** [d.iterdir()]: the entries directly in [d], files and directories
    alike, in the order the map lists them (the caller sorts). *)
Definition iterdir (fs : FS) (d : Path) : list Path :=
  (map_to_list (filter (fun kv => parent kv.1 = d /\ kv.1 <> []) fs)).*1.

(** ** The viewer widget and its worker threads *)

Inductive ViewerMode := NORMAL | CONFIRM | QUICK_MOVE | RENAME | SEARCH.

(** An entry of [undo_stack]; the dict's ["action"] key is the
    constructor. *)
Inductive action :=
  | rename_inplace (old_path new_path : Path) (index : Z)
  | move (old_path new_path : Path) (index : Z)
  | delete_ (old_path trash_path : Path) (index : Z).

(** What the user is told: [show_animated_overlay(text)] or a [print] of
    a caught exception. *)
Inductive note :=
  | Overlay (text : string)
  | Printed (text : string) (e : exn).

Global Instance ViewerMode_eq_dec : EqDecision ViewerMode.
Proof. solve_decision. Defined.

Global Instance action_eq_dec : EqDecision action.
Proof. solve_decision. Defined.

Global Instance note_eq_dec : EqDecision note.
Proof. solve_decision. Defined.

(** A [ThumbnailWorker]: its copy of the path list, the stop flag, how far
    [run] has come, and whether [run] has returned. *)
Record ThumbnailWorker := {
  image_paths : list Path;
  is_running : bool;
  position : nat;
  finished : bool
}.

Global Instance ThumbnailWorker_eq_dec : EqDecision ThumbnailWorker.
Proof. solve_decision. Defined.

(** A [QListWidgetItem] of the filmstrip: the path it carries as user
    data and its icon.  Items are objects: the filmstrip's rows and
    [filmstrip_item_map] hold references to them. *)
Record QListWidgetItem := { user_data : Path; icon : option pixmap }.

Global Instance QListWidgetItem_eq_dec : EqDecision QListWidgetItem.
Proof. solve_decision. Defined.

(** The filesystem, the threads, the signal queue, the item objects, and
    the attributes of [ImageViewerWidget] that the catalog, mutation and
    undo code uses. *)
Record World := {
  fs : FS;  (* the filesystem *)
  threads : list ThumbnailWorker;  (* the worker thread objects, by reference *)
  queue : list (Path * pixmap);  (* [icon_ready] signals emitted and not yet delivered *)
  items : list QListWidgetItem;  (* the filmstrip's item objects, by reference *)
  directory : option Path;
  all_image_files : list Path;
  image_files : list Path;  (* the filtered list *)
  thumb_cache : gmap Path pixmap;
  filmstrip : list nat;  (* the rows of the [QListWidget]: references into [items] *)
  filmstrip_item_map : gmap Path nat;  (* references into [items] *)
  current_index : Z;
  worker : option nat;  (* reference into [threads] *)
  undo_stack : list action;
  mode : ViewerMode;
  is_search_filtered : bool;
  pre_search_path : option Path;
  trash_dir : option Path;
  notes : list note  (* overlay texts and console lines, oldest first *)
}.

Definition set_fs (x : FS) (w : World) : World :=
  {| fs := x;
     threads := threads w;
     queue := queue w;
     items := items w;
     directory := directory w;
     all_image_files := all_image_files w;
     image_files := image_files w;
     thumb_cache := thumb_cache w;
     filmstrip := filmstrip w;
     filmstrip_item_map := filmstrip_item_map w;
     current_index := current_index w;
     worker := worker w;
     undo_stack := undo_stack w;
     mode := mode w;
     is_search_filtered := is_search_filtered w;
     pre_search_path := pre_search_path w;
     trash_dir := trash_dir w;
     notes := notes w |}.

Definition set_threads (x : list ThumbnailWorker) (w : World) : World :=
  {| fs := fs w;
     threads := x;
     queue := queue w;
     items := items w;
     directory := directory w;
     all_image_files := all_image_files w;
     image_files := image_files w;
     thumb_cache := thumb_cache w;
     filmstrip := filmstrip w;
     filmstrip_item_map := filmstrip_item_map w;
     current_index := current_index w;
     worker := worker w;
     undo_stack := undo_stack w;
     mode := mode w;
     is_search_filtered := is_search_filtered w;
     pre_search_path := pre_search_path w;
     trash_dir := trash_dir w;
     notes := notes w |}.

Definition set_queue (x : list (Path * pixmap)) (w : World) : World :=
  {| fs := fs w;
     threads := threads w;
     queue := x;
     items := items w;
     directory := directory w;
     all_image_files := all_image_files w;
     image_files := image_files w;
     thumb_cache := thumb_cache w;
     filmstrip := filmstrip w;
     filmstrip_item_map := filmstrip_item_map w;
     current_index := current_index w;
     worker := worker w;
     undo_stack := undo_stack w;
     mode := mode w;
     is_search_filtered := is_search_filtered w;
     pre_search_path := pre_search_path w;
     trash_dir := trash_dir w;
     notes := notes w |}.

Definition set_items (x : list QListWidgetItem) (w : World) : World :=
  {| fs := fs w;
     threads := threads w;
     queue := queue w;
     items := x;
     directory := directory w;
     all_image_files := all_image_files w;
     image_files := image_files w;
     thumb_cache := thumb_cache w;
     filmstrip := filmstrip w;
     filmstrip_item_map := filmstrip_item_map w;
     current_index := current_index w;
     worker := worker w;
     undo_stack := undo_stack w;
     mode := mode w;
     is_search_filtered := is_search_filtered w;
     pre_search_path := pre_search_path w;
     trash_dir := trash_dir w;
     notes := notes w |}.

Definition set_directory (x : option Path) (w : World) : World :=
  {| fs := fs w;
     threads := threads w;
     queue := queue w;
     items := items w;
     directory := x;
     all_image_files := all_image_files w;
     image_files := image_files w;
     thumb_cache := thumb_cache w;
     filmstrip := filmstrip w;
     filmstrip_item_map := filmstrip_item_map w;
     current_index := current_index w;
     worker := worker w;
     undo_stack := undo_stack w;
     mode := mode w;
     is_search_filtered := is_search_filtered w;
     pre_search_path := pre_search_path w;
     trash_dir := trash_dir w;
     notes := notes w |}.

Definition set_all_image_files (x : list Path) (w : World) : World :=
  {| fs := fs w;
     threads := threads w;
     queue := queue w;
     items := items w;
     directory := directory w;
     all_image_files := x;
     image_files := image_files w;
     thumb_cache := thumb_cache w;
     filmstrip := filmstrip w;
     filmstrip_item_map := filmstrip_item_map w;
     current_index := current_index w;
     worker := worker w;
     undo_stack := undo_stack w;
     mode := mode w;
     is_search_filtered := is_search_filtered w;
     pre_search_path := pre_search_path w;
     trash_dir := trash_dir w;
     notes := notes w |}.

Definition set_image_files (x : list Path) (w : World) : World :=
  {| fs := fs w;
     threads := threads w;
     queue := queue w;
     items := items w;
     directory := directory w;
     all_image_files := all_image_files w;
     image_files := x;
     thumb_cache := thumb_cache w;
     filmstrip := filmstrip w;
     filmstrip_item_map := filmstrip_item_map w;
     current_index := current_index w;
     worker := worker w;
     undo_stack := undo_stack w;
     mode := mode w;
     is_search_filtered := is_search_filtered w;
     pre_search_path := pre_search_path w;
     trash_dir := trash_dir w;
     notes := notes w |}.

Definition set_thumb_cache (x : gmap Path pixmap) (w : World) : World :=
  {| fs := fs w;
     threads := threads w;
     queue := queue w;
     items := items w;
     directory := directory w;
     all_image_files := all_image_files w;
     image_files := image_files w;
     thumb_cache := x;
     filmstrip := filmstrip w;
     filmstrip_item_map := filmstrip_item_map w;
     current_index := current_index w;
     worker := worker w;
     undo_stack := undo_stack w;
     mode := mode w;
     is_search_filtered := is_search_filtered w;
     pre_search_path := pre_search_path w;
     trash_dir := trash_dir w;
     notes := notes w |}.

Definition set_filmstrip (x : list nat) (w : World) : World :=
  {| fs := fs w;
     threads := threads w;
     queue := queue w;
     items := items w;
     directory := directory w;
     all_image_files := all_image_files w;
     image_files := image_files w;
     thumb_cache := thumb_cache w;
     filmstrip := x;
     filmstrip_item_map := filmstrip_item_map w;
     current_index := current_index w;
     worker := worker w;
     undo_stack := undo_stack w;
     mode := mode w;
     is_search_filtered := is_search_filtered w;
     pre_search_path := pre_search_path w;
     trash_dir := trash_dir w;
     notes := notes w |}.

Definition set_filmstrip_item_map (x : gmap Path nat) (w : World) : World :=
  {| fs := fs w;
     threads := threads w;
     queue := queue w;
     items := items w;
     directory := directory w;
     all_image_files := all_image_files w;
     image_files := image_files w;
     thumb_cache := thumb_cache w;
     filmstrip := filmstrip w;
     filmstrip_item_map := x;
     current_index := current_index w;
     worker := worker w;
     undo_stack := undo_stack w;
     mode := mode w;
     is_search_filtered := is_search_filtered w;
     pre_search_path := pre_search_path w;
     trash_dir := trash_dir w;
     notes := notes w |}.

Definition set_current_index (x : Z) (w : World) : World :=
  {| fs := fs w;
     threads := threads w;
     queue := queue w;
     items := items w;
     directory := directory w;
     all_image_files := all_image_files w;
     image_files := image_files w;
     thumb_cache := thumb_cache w;
     filmstrip := filmstrip w;
     filmstrip_item_map := filmstrip_item_map w;
     current_index := x;
     worker := worker w;
     undo_stack := undo_stack w;
     mode := mode w;
     is_search_filtered := is_search_filtered w;
     pre_search_path := pre_search_path w;
     trash_dir := trash_dir w;
     notes := notes w |}.

Definition set_worker (x : option nat) (w : World) : World :=
  {| fs := fs w;
     threads := threads w;
     queue := queue w;
     items := items w;
     directory := directory w;
     all_image_files := all_image_files w;
     image_files := image_files w;
     thumb_cache := thumb_cache w;
     filmstrip := filmstrip w;
     filmstrip_item_map := filmstrip_item_map w;
     current_index := current_index w;
     worker := x;
     undo_stack := undo_stack w;
     mode := mode w;
     is_search_filtered := is_search_filtered w;
     pre_search_path := pre_search_path w;
     trash_dir := trash_dir w;
     notes := notes w |}.

Definition set_undo_stack (x : list action) (w : World) : World :=
  {| fs := fs w;
     threads := threads w;
     queue := queue w;
     items := items w;
     directory := directory w;
     all_image_files := all_image_files w;
     image_files := image_files w;
     thumb_cache := thumb_cache w;
     filmstrip := filmstrip w;
     filmstrip_item_map := filmstrip_item_map w;
     current_index := current_index w;
     worker := worker w;
     undo_stack := x;
     mode := mode w;
     is_search_filtered := is_search_filtered w;
     pre_search_path := pre_search_path w;
     trash_dir := trash_dir w;
     notes := notes w |}.

Definition set_mode (x : ViewerMode) (w : World) : World :=
  {| fs := fs w;
     threads := threads w;
     queue := queue w;
     items := items w;
     directory := directory w;
     all_image_files := all_image_files w;
     image_files := image_files w;
     thumb_cache := thumb_cache w;
     filmstrip := filmstrip w;
     filmstrip_item_map := filmstrip_item_map w;
     current_index := current_index w;
     worker := worker w;
     undo_stack := undo_stack w;
     mode := x;
     is_search_filtered := is_search_filtered w;
     pre_search_path := pre_search_path w;
     trash_dir := trash_dir w;
     notes := notes w |}.

Definition set_is_search_filtered (x : bool) (w : World) : World :=
  {| fs := fs w;
     threads := threads w;
     queue := queue w;
     items := items w;
     directory := directory w;
     all_image_files := all_image_files w;
     image_files := image_files w;
     thumb_cache := thumb_cache w;
     filmstrip := filmstrip w;
     filmstrip_item_map := filmstrip_item_map w;
     current_index := current_index w;
     worker := worker w;
     undo_stack := undo_stack w;
     mode := mode w;
     is_search_filtered := x;
     pre_search_path := pre_search_path w;
     trash_dir := trash_dir w;
     notes := notes w |}.

Definition set_pre_search_path (x : option Path) (w : World) : World :=
  {| fs := fs w;
     threads := threads w;
     queue := queue w;
     items := items w;
     directory := directory w;
     all_image_files := all_image_files w;
     image_files := image_files w;
     thumb_cache := thumb_cache w;
     filmstrip := filmstrip w;
     filmstrip_item_map := filmstrip_item_map w;
     current_index := current_index w;
     worker := worker w;
     undo_stack := undo_stack w;
     mode := mode w;
     is_search_filtered := is_search_filtered w;
     pre_search_path := x;
     trash_dir := trash_dir w;
     notes := notes w |}.

Definition set_trash_dir (x : option Path) (w : World) : World :=
  {| fs := fs w;
     threads := threads w;
     queue := queue w;
     items := items w;
     directory := directory w;
     all_image_files := all_image_files w;
     image_files := image_files w;
     thumb_cache := thumb_cache w;
     filmstrip := filmstrip w;
     filmstrip_item_map := filmstrip_item_map w;
     current_index := current_index w;
     worker := worker w;
     undo_stack := undo_stack w;
     mode := mode w;
     is_search_filtered := is_search_filtered w;
     pre_search_path := pre_search_path w;
     trash_dir := x;
     notes := notes w |}.

Definition set_notes (x : list note) (w : World) : World :=
  {| fs := fs w;
     threads := threads w;
     queue := queue w;
     items := items w;
     directory := directory w;
     all_image_files := all_image_files w;
     image_files := image_files w;
     thumb_cache := thumb_cache w;
     filmstrip := filmstrip w;
     filmstrip_item_map := filmstrip_item_map w;
     current_index := current_index w;
     worker := worker w;
     undo_stack := undo_stack w;
     mode := mode w;
     is_search_filtered := is_search_filtered w;
     pre_search_path := pre_search_path w;
     trash_dir := trash_dir w;
     notes := x |}.

(** A method returns, or raises out of the method; what it changed before
    raising stays changed. *)
Inductive outcome :=
  | Returned (w : World)
  | Raised (e : exn) (w : World).

Definition world_of (o : outcome) : World :=
  match o with Returned w | Raised _ w => w end.

Definition newline : string := String "010"%char "".

Definition show_animated_overlay (text : string) (w : World) : World :=
  set_notes (notes w ++ [Overlay text])%list w.

(** [print(f"{text}: {e}")] *)
Definition print_failure (text : string) (e : exn) (w : World) : World :=
  set_notes (notes w ++ [Printed text e])%list w.

(** ** workers/thumbnail_worker.py *)

(** [QImageReader(str(p))] with a scaled size, then [read()]: the preview,
    or [None] for a null image.  A preview is identified by the image it
    shows; the scaled size (100 in the worker and in undo, 40 for a
    suggestion) is not modelled. *)
Definition read_scaled (files : FS) (p : Path) : option pixmap :=
  match files !! p with
  | Some (File c) => decoded c
  | _ => None
  end.

(** [ThumbnailWorker(paths)] *)
Definition new_worker (paths : list Path) : ThumbnailWorker :=
  {| image_paths := paths; is_running := true; position := 0; finished := false |}.

(** [ThumbnailWorker.stop] *)
Definition stop (t : ThumbnailWorker) : ThumbnailWorker :=
  {| image_paths := image_paths t; is_running := false;
     position := position t; finished := finished t |}.

(** One turn of the loop of [ThumbnailWorker.run]: the flag is read, and
    either the loop is left or one path is decoded and, when the image is
    not null, [icon_ready] is emitted. *)
Definition worker_step (files : FS) (t : ThumbnailWorker)
  : ThumbnailWorker * option (Path * pixmap) :=
  if finished t then (t, None) else
  match image_paths t !! position t with
  | None =>
      ({| image_paths := image_paths t; is_running := is_running t;
          position := position t; finished := true |}, None)
  | Some p =>
      if is_running t then
        ({| image_paths := image_paths t; is_running := true;
            position := S (position t); finished := false |},
         (fun pix => (p, pix)) <$> read_scaled files p)
      else
        ({| image_paths := image_paths t; is_running := false;
            position := position t; finished := true |}, None)
  end.

(** [run] from where the thread is until it returns, with what it emits
    on the way. *)
Fixpoint run_turns (files : FS) (t : ThumbnailWorker) (turns : nat)
  : ThumbnailWorker * list (Path * pixmap) :=
  match turns with
  | O => (t, [])
  | S k =>
      let '(t1, ev) := worker_step files t in
      let '(t2, evs) := run_turns files t1 k in
      (t2, (option_list ev ++ evs)%list)
  end.

(** [QThread.wait]: the caller blocks until [run] has returned; the turns
    left are at most the paths left plus the one that leaves the loop. *)
Definition wait (files : FS) (t : ThumbnailWorker)
  : ThumbnailWorker * list (Path * pixmap) :=
  run_turns files t (S (length (image_paths t) - position t)).

(** The scheduler lets thread [i] take one turn. *)
Definition thread_turn (i : nat) (w : World) : World :=
  match threads w !! i with
  | Some t =>
      let '(t', ev) := worker_step (fs w) t in
      set_queue (queue w ++ option_list ev)%list (set_threads (<[i := t']> (threads w)) w)
  | None => w
  end.

(** [self.worker.stop(); self.worker.wait()] *)
Definition stop_and_wait (w : World) : World :=
  match worker w with
  | Some i =>
      match threads w !! i with
      | Some t =>
          let '(t', evs) := wait (fs w) (stop t) in
          set_queue (queue w ++ evs)%list (set_threads (<[i := t']> (threads w)) w)
      | None => w
      end
  | None => w
  end.

(** ** widgets/image_viewer.py: display and filmstrip *)

Definition _update_image (w : World) : World :=
  match image_files w with
  | [] => w
  | _ =>
      set_current_index
        (clamp_index (current_index w) (Z.of_nat (length (image_files w)))) w
  end.

(** [item = QListWidgetItem(); item.setData(Qt.UserRole, str(p))] *)
Definition new_item (p : Path) : QListWidgetItem :=
  {| user_data := p; icon := None |}.

(** [item.setData(Qt.UserRole, str(p))] on the item object [r]. *)
Definition setData (r : nat) (p : Path) (w : World) : World :=
  set_items (alter (fun it => {| user_data := p; icon := icon it |}) r (items w)) w.

(** [item.setIcon(QIcon(pix))] on the item object [r]. *)
Definition setIcon (r : nat) (pix : pixmap) (w : World) : World :=
  set_items
    (alter (fun it => {| user_data := user_data it; icon := Some pix |}) r (items w)) w.

(** [self.filmstrip.item(row)]: [None] outside the rows. *)
Definition filmstrip_item (w : World) (row : Z) : option nat :=
  if (0 <=? row)%Z then filmstrip w !! Z.to_nat row else None.

(** [self.filmstrip.takeItem(row)]: nothing is taken outside the rows. *)
Definition takeItem (row : Z) (rows : list nat) : list nat :=
  if (0 <=? row)%Z then delete (Z.to_nat row) rows else rows.

(** [self.filmstrip.insertItem(row, item)]: Qt clamps the row into
    [0 .. count]. *)
Definition insertItem (row : Z) (r : nat) (rows : list nat) : list nat :=
  let j := Z.to_nat (Z.max 0 (Z.min row (Z.of_nat (length rows)))) in
  (take j rows ++ r :: drop j rows)%list.

(** One turn of the loop that fills the filmstrip: a new item for the
    path, added as the last row and bound to the path in
    [filmstrip_item_map]. *)
Definition add_item (w : World) (p : Path) : World :=
  let r := length (items w) in
  set_filmstrip_item_map (<[p := r]> (filmstrip_item_map w))
    (set_filmstrip (filmstrip w ++ [r])%list
       (set_items (items w ++ [new_item p])%list w)).

Definition _rebuild_filmstrip_and_thumbnails (w : World) : World :=
  let w1 := stop_and_wait w in
  let w2 :=
    foldl add_item (set_filmstrip_item_map ∅ (set_filmstrip [] w1)) (image_files w1) in
  let w3 := _update_image w2 in
  match image_files w3 with
  | [] => w3
  | _ =>
      set_worker (Some (length (threads w3)))
        (set_threads (threads w3 ++ [new_worker (image_files w3)])%list w3)
  end.

Definition _apply_thumbnail (path : Path) (pix : pixmap) (w : World) : World :=
  match filmstrip_item_map w !! path with
  | Some r => set_thumb_cache (<[path := pix]> (thumb_cache w)) (setIcon r pix w)
  | None => w
  end.

(** The event loop delivers the oldest queued [icon_ready] signal. *)
Definition deliver (w : World) : World :=
  match queue w with
  | [] => w
  | (p, pix) :: q => _apply_thumbnail p pix (set_queue q w)
  end.

(** ** Directory loading *)

Definition exts : list string :=
  [".png"; ".jpg"; ".jpeg"; ".bmp"; ".gif"; ".webp"].

(** The condition of the generator in [_get_images]. *)
Definition is_image_entry (p : Path) : bool :=
  bool_decide (lower (suffix p) ∈ exts) && negb (startswith (name p) ".").

Definition _get_images (w : World) : list Path :=
  match directory w with
  | None => []
  | Some d =>
      if is_dir (fs w) d
      then merge_sort path_le (filter (fun p => is_image_entry p = true) (iterdir (fs w) d))
      else []
  end.

Definition load_directory (d : Path) (initial_index : Z) (w : World) : outcome :=
  let w1 := set_pre_search_path None (set_is_search_filtered false
              (set_thumb_cache ∅ (set_undo_stack [] (set_directory (Some d) w)))) in
  let trash := joinpath d ".vimview_trash" in
  let w2 := set_trash_dir (Some trash) w1 in
  match mkdir (fs w2) trash with
  | inl e => Raised e w2
  | inr fs' =>
      let w3 := set_fs fs' w2 in
      let w4 := set_all_image_files (_get_images w3) w3 in
      let w5 := set_image_files (all_image_files w4) w4 in
      let w6 :=
        match image_files w5 with
        | [] => set_current_index 0 w5
        | _ => set_current_index
                 (clamp_index initial_index (Z.of_nat (length (image_files w5)))) w5
        end in
      Returned (_rebuild_filmstrip_and_thumbnails (set_mode NORMAL w6))
  end.

(** ** Navigation *)

(** The guard of [keyPressEvent] before the normal-mode bindings, then the
    branch of [keymap["prev"]]. *)
Definition key_prev (w : World) : World :=
  match image_files w with
  | [] => w
  | _ => _update_image (set_current_index (Z.max 0 (current_index w - 1)) w)
  end.

(** The branch of [keymap["next"]]. *)
Definition key_next (w : World) : World :=
  match image_files w with
  | [] => w
  | _ =>
      _update_image
        (set_current_index
           (Z.min (Z.of_nat (length (image_files w)) - 1) (current_index w + 1)) w)
  end.

(** [_on_filmstrip_selected]: the filmstrip reports one of its rows. *)
Definition _on_filmstrip_selected (index : Z) (w : World) : World :=
  if (0 <=? index)%Z then _update_image (set_current_index index w) else w.

(** ** Search and filter *)

Definition _open_text_input (m : ViewerMode) (w : World) : outcome :=
  let w1 := set_mode m w in
  match m with
  | RENAME =>
      match py_get (image_files w1) (current_index w1) with
      | Some _ => Returned w1
      | None => Raised IndexError w1
      end
  | SEARCH =>
      if negb (is_search_filtered w1) && negb (bool_decide (image_files w1 = [])) then
        match py_get (image_files w1) (current_index w1) with
        | Some p => Returned (set_pre_search_path (Some p) w1)
        | None => Raised IndexError w1
        end
      else Returned w1
  | _ => Returned w1
  end.

Definition _jump_to_image (target : Path) (w : World) : World :=
  let w1 :=
    if is_search_filtered w then
      _rebuild_filmstrip_and_thumbnails
        (set_is_search_filtered false (set_image_files (all_image_files w) w))
    else w in
  if py_in target (image_files w1) then
    match py_index (image_files w1) target with
    | Some i =>
        show_animated_overlay ("jumped to:" ++ newline ++ name target)
          (_update_image (set_current_index (Z.of_nat i) w1))
    | None => w1
    end
  else w1.

Definition _clear_search_filter (w : World) : World :=
  if negb (is_search_filtered w) then w else
  let w1 := set_is_search_filtered false (set_image_files (all_image_files w) w) in
  let w2 :=
    match pre_search_path w1 with
    | Some p =>
        if py_in p (image_files w1) then
          match py_index (image_files w1) p with
          | Some i => set_pre_search_path None (set_current_index (Z.of_nat i) w1)
          | None => set_current_index 0 w1
          end
        else set_current_index 0 w1
    | None => set_current_index 0 w1
    end in
  show_animated_overlay ("search cleared" ++ newline ++ "returned to gallery")
    (_rebuild_filmstrip_and_thumbnails w2).

(** The list comprehension of the search: the paths whose lowered name
    contains the lowered text. *)
Definition matching (text : string) (paths : list Path) : list Path :=
  filter (fun f => str_in (lower text) (lower (name f)) = true) paths.

(** The [SEARCH] branch of [_process_text_input] for a non-empty text. *)
Definition apply_search (text : string) (w : World) : World :=
  match matching text (all_image_files w) with
  | [] => show_animated_overlay "no matches found" w
  | matches =>
      show_animated_overlay ("filtered: " ++ pretty (length matches) ++ " images")
        (_rebuild_filmstrip_and_thumbnails
           (set_current_index 0 (set_is_search_filtered true (set_image_files matches w))))
  end.

(** [_on_search_text_changed]: up to six suggestions; a suggestion not in
    the cache is decoded and cached. *)
Definition suggestions (text : string) (w : World) : list Path :=
  take 6 (filter (fun f => str_in (lower (strip text)) (lower (name f)) = true)
            (all_image_files w)).

Definition _on_search_text_changed (text : string) (w : World) : World :=
  match mode w with
  | SEARCH =>
      if bool_decide (lower (strip text) = "") then w else
      foldl (fun w' f =>
               match thumb_cache w' !! f with
               | Some _ => w'
               | None =>
                   match read_scaled (fs w') f with
                   | Some pix => set_thumb_cache (<[f := pix]> (thumb_cache w')) w'
                   | None => w'
                   end
               end) w (suggestions text w)
  | _ => w
  end.

(** [_escape_or_back]: whether something was done, and the world. *)
Definition _escape_or_back (w : World) : bool * World :=
  if is_search_filtered w then (true, _clear_search_filter w) else
  match pre_search_path w with
  | Some p =>
      let w1 :=
        if py_in p (image_files w) then
          match py_index (image_files w) p with
          | Some i => set_current_index (Z.of_nat i) w
          | None => set_current_index 0 w
          end
        else set_current_index 0 w in
      (true, show_animated_overlay "returned to previous image"
               (_update_image (set_pre_search_path None w1)))
  | None => (false, w)
  end.

(** Escape while the text input is shown. *)
Definition key_escape_input (w : World) : World :=
  set_pre_search_path None (set_mode NORMAL w).

(** ** File operations *)

(** [folder / f"{stem}_{counter}{suffix}"] *)
Definition numbered (folder : Path) (st sf : string) (counter : nat) : Path :=
  joinpath folder (st ++ "_" ++ pretty counter ++ sf).

(** The [while new_path.exists()] loops of [_move_to_target] and
    [_delete_current] try the candidates [stem_1suffix], [stem_2suffix],
    ... in turn.  [turns] bounds the loop; as many turns as the
    filesystem has entries are always enough (lemma [next_free_spec]). *)
Fixpoint next_free (files : FS) (folder : Path) (st sf : string)
  (counter turns : nat) : Path :=
  let candidate := numbered folder st sf counter in
  match turns with
  | O => candidate
  | S k =>
      if exists_ files candidate
      then next_free files folder st sf (S counter) k
      else candidate
  end.

(** [folder / img.name], or the first free numbered name. *)
Definition free_path (files : FS) (folder img : Path) : Path :=
  let first := joinpath folder (name img) in
  if exists_ files first
  then next_free files folder (stem img) (suffix img) 1 (size files)
  else first.

Definition _remove_item_from_view (index : Z) (w : World) : outcome :=
  match py_pop (image_files w) index with
  | None => Raised IndexError w
  | Some (img_path, rest) =>
      let w1 := set_image_files rest w in
      let w2 :=
        if py_in img_path (all_image_files w1)
        then set_all_image_files (py_remove (all_image_files w1) img_path) w1
        else w1 in
      let w3 := set_filmstrip (takeItem index (filmstrip w2)) w2 in
      Returned
        (_update_image
           (set_filmstrip_item_map (delete img_path (filmstrip_item_map w3)) w3))
  end.

(** [new_path] of [_rename_current_file]: the suffix of the current image
    is appended to the typed text when [Path(new_name)] has no suffix,
    and the text is joined to the directory of the image as [pathlib]
    joins a string: its separators are parsed. *)
Definition rename_target (new_name : string) (img_path : Path) : Path :=
  join_str (parent img_path)
    (if bool_decide (suffix (parse_parts new_name) = "")
     then new_name ++ suffix img_path
     else new_name).

Definition _rename_current_file (new_name : string) (w : World) : outcome :=
  match py_get (image_files w) (current_index w) with
  | None => Raised IndexError w
  | Some img_path =>
      let new_path := rename_target new_name img_path in
      if exists_ (fs w) new_path then
        Returned (show_animated_overlay "error: file exists" w)
      else
        match os_rename (fs w) img_path new_path with
        | inl e => Returned (print_failure "failed to rename" e w)
        | inr fs' =>
            let w1 := set_fs fs' w in
            match py_set (image_files w1) (current_index w1) new_path with
            | None => Returned (print_failure "failed to rename" IndexError w1)
            | Some l =>
                let w2 := set_image_files l w1 in
                let w3 :=
                  if py_in img_path (all_image_files w2) then
                    match py_index (all_image_files w2) img_path with
                    | Some idx =>
                        set_all_image_files (<[idx := new_path]> (all_image_files w2)) w2
                    | None => w2
                    end
                  else w2 in
                match filmstrip_item w3 (current_index w3) with
                | None => Returned (print_failure "failed to rename" AttributeError w3)
                | Some item =>
                    let w4 :=
                      set_filmstrip_item_map
                        (<[new_path := item]> (delete img_path (filmstrip_item_map w3)))
                        (setData item new_path w3) in
                    let w5 :=
                      match thumb_cache w4 !! img_path with
                      | Some pix =>
                          set_thumb_cache
                            (<[new_path := pix]> (delete img_path (thumb_cache w4))) w4
                      | None => w4
                      end in
                    let w6 :=
                      set_undo_stack
                        (undo_stack w5
                           ++ [rename_inplace img_path new_path (current_index w5)])%list
                        w5 in
                    Returned (_update_image w6)
                end
            end
        end
  end.

(** The [try] block shared by [_move_to_target] and [_delete_current]:
    the move, the undo entry, the removal from the view. *)
Definition move_and_record (fail_text : string) (img_path dest : Path)
  (entry : action) (w : World) : outcome :=
  match shutil_move (fs w) img_path dest with
  | inl e => Returned (print_failure fail_text e w)
  | inr fs' =>
      let w1 := set_undo_stack (undo_stack w ++ [entry])%list (set_fs fs' w) in
      match _remove_item_from_view (current_index w1) w1 with
      | Returned w2 => Returned w2
      | Raised e w2 => Returned (print_failure fail_text e w2)
      end
  end.

Definition _move_to_target (target_folder : Path) (w : World) : outcome :=
  match py_get (image_files w) (current_index w) with
  | None => Raised IndexError w
  | Some img_path =>
      match mkdir_parents (fs w) target_folder with
      | inl e => Raised e w
      | inr fs' =>
          let w1 := set_fs fs' w in
          let new_path := free_path (fs w1) target_folder img_path in
          move_and_record "failed to move" img_path new_path
            (move img_path new_path (current_index w1)) w1
      end
  end.

Definition _delete_current (w : World) : outcome :=
  match py_get (image_files w) (current_index w) with
  | None => Raised IndexError w
  | Some img_path =>
      match trash_dir w with
      | None => Raised ValueError w
      | Some trash =>
          let trash_path := free_path (fs w) trash img_path in
          move_and_record "failed to trash" img_path trash_path
            (delete_ img_path trash_path (current_index w)) w
      end
  end.

(** The [RENAME] and [SEARCH] branches of [_process_text_input], with
    the default setting [require_confirmation = False], under which
    [_handle_action_request] calls the callback at once.  [selected] is
    the current row of the suggestion list, if any. *)
Definition _process_text_input (raw : string) (selected : option Path) (w : World)
  : outcome :=
  let text := strip raw in
  let m := mode w in
  let w1 := set_mode NORMAL w in
  match m with
  | RENAME =>
      if bool_decide (text = "") then Returned w1 else
      match _rename_current_file text w1 with
      | Returned w2 => Returned (show_animated_overlay ("renamed: " ++ text) w2)
      | Raised e w2 => Raised e w2
      end
  | SEARCH =>
      match selected with
      | Some target => Returned (_jump_to_image target w1)
      | None =>
          if bool_decide (text = "") then Returned (_clear_search_filter w1)
          else Returned (apply_search text w1)
      end
  | _ => Returned w1
  end.

(** ** Undo *)

(** The re-insertion shared by the [move] and [delete] entries, after the
    file is back at [old_path]. *)
Definition restore_entry (old_path : Path) (index : Z) (w : World) : World :=
  let w1 := set_image_files (py_insert (image_files w) index old_path) w in
  let w2 :=
    if negb (py_in old_path (all_image_files w1))
    then set_all_image_files (all_image_files w1 ++ [old_path])%list w1
    else w1 in
  let item := length (items w2) in
  let w3 :=
    set_filmstrip_item_map (<[old_path := item]> (filmstrip_item_map w2))
      (set_filmstrip (insertItem index item (filmstrip w2))
         (set_items (items w2 ++ [new_item old_path])%list w2)) in
  let w4 :=
    match thumb_cache w3 !! old_path with
    | Some pix => setIcon item pix w3
    | None =>
        match read_scaled (fs w3) old_path with
        | Some pix =>
            setIcon item pix (set_thumb_cache (<[old_path := pix]> (thumb_cache w3)) w3)
        | None => w3
        end
    end in
  show_animated_overlay "undo: file restored"
    (_update_image (set_current_index index w4)).

(** The [rename_inplace] branch after the file has its old name again.
    [self.image_files[index] = ...] raises [IndexError] outside the
    view; [self.filmstrip.item(index)] is [None] outside the rows, and
    [item.setData] then raises [AttributeError].  The item of the row is
    bound to [old_path]; it stays bound to whatever other path it was
    bound to. *)
Definition revert_rename (old_path new_path : Path) (index : Z) (w : World)
  : outcome :=
  match py_set (image_files w) index old_path with
  | None => Raised IndexError w
  | Some l =>
      let w1 := set_image_files l w in
      let w2 :=
        if py_in new_path (all_image_files w1) then
          match py_index (all_image_files w1) new_path with
          | Some m_idx =>
              set_all_image_files (<[m_idx := old_path]> (all_image_files w1)) w1
          | None => w1
          end
        else w1 in
      match filmstrip_item w2 index with
      | None => Raised AttributeError w2
      | Some item =>
          let w3 :=
            set_filmstrip_item_map
              (<[old_path := item]> (delete new_path (filmstrip_item_map w2)))
              (setData item old_path w2) in
          let w4 :=
            match thumb_cache w3 !! new_path with
            | Some pix =>
                set_thumb_cache (<[old_path := pix]> (delete new_path (thumb_cache w3))) w3
            | None => w3
            end in
          Returned (show_animated_overlay "undo: rename reverted" (_update_image w4))
      end
  end.

(** The filesystem call each branch of [_undo_last_action] starts with. *)
Definition reversal (entry : action) (files : FS) : exn + FS :=
  match entry with
  | rename_inplace old_path new_path _ => os_rename files new_path old_path
  | move old_path new_path _ => shutil_move files new_path old_path
  | delete_ old_path trash_path _ => shutil_move files trash_path old_path
  end.

Definition _undo_last_action (w : World) : World :=
  match pop_last (undo_stack w) with
  | None => show_animated_overlay "no history to undo" w
  | Some (rest, entry) =>
      let w0 := set_undo_stack rest w in
      match reversal entry (fs w0) with
      | inl e => print_failure "undo failed" e w0
      | inr fs' =>
          match entry with
          | rename_inplace old_path new_path index =>
              match revert_rename old_path new_path index (set_fs fs' w0) with
              | Returned w1 => w1
              | Raised e w1 => print_failure "undo failed" e w1
              end
          | move old_path _ index | delete_ old_path _ index =>
              restore_entry old_path index (set_fs fs' w0)
          end
      end
  end.

(** ** Sessions of commands

    The commands a user can issue from the loaded viewer, and the world
    after a list of them.  A command whose method raises leaves the world
    as the method left it (Qt reports the exception and the event loop
    goes on).  The guard of [keyPressEvent] keeps every command except
    undo and search from running on an empty view. *)
Inductive command :=
  | Load (d : Path) (initial_index : Z)
  | Prev
  | Next
  | Select (row : nat)
  | Search (text : string)
  | PickSuggestion (target : Path)
  | CancelInput
  | EscapeOrBack
  | Rename (new_name : string)
  | MoveTo (target_folder : Path)
  | DeleteCurrent
  | Undo
  | WorkerTurn (thread : nat)
  | Deliver.

Definition guarded (f : World -> World) (w : World) : World :=
  match image_files w with [] => w | _ => f w end.

Definition run_command (c : command) (w : World) : World :=
  match c with
  | Load d i => world_of (load_directory d i w)
  | Prev => key_prev w
  | Next => key_next w
  | Select row =>
      if (row <? length (image_files w))%nat
      then _on_filmstrip_selected (Z.of_nat row) w else w
  | Search text =>
      match _open_text_input SEARCH w with
      | Returned w1 => world_of (_process_text_input text None w1)
      | Raised _ w1 => w1
      end
  | PickSuggestion target =>
      match _open_text_input SEARCH w with
      | Returned w1 =>
          if py_in target (all_image_files w1)
          then world_of (_process_text_input "" (Some target) w1) else w1
      | Raised _ w1 => w1
      end
  | CancelInput =>
      match _open_text_input SEARCH w with
      | Returned w1 => key_escape_input w1
      | Raised _ w1 => w1
      end
  | EscapeOrBack => (_escape_or_back w).2
  | Rename new_name =>
      guarded (fun w =>
        match _open_text_input RENAME w with
        | Returned w1 => world_of (_process_text_input new_name None w1)
        | Raised _ w1 => w1
        end) w
  | MoveTo target_folder => guarded (fun w => world_of (_move_to_target target_folder w)) w
  | DeleteCurrent => guarded (fun w => world_of (_delete_current w)) w
  | Undo => _undo_last_action w
  | WorkerTurn i => thread_turn i w
  | Deliver => deliver w
  end.

Definition run_commands (cs : list command) (w : World) : World :=
  foldl (fun w c => run_command c w) w cs.

(** The widget as [__init__] leaves it, over a filesystem. *)
Definition initial_world (files : FS) : World :=
  {| fs := files; threads := []; queue := []; items := [];
     directory := None; all_image_files := []; image_files := [];
     thumb_cache := ∅; filmstrip := []; filmstrip_item_map := ∅; current_index := 0;
     worker := None; undo_stack := []; mode := NORMAL;
     is_search_filtered := false; pre_search_path := None;
     trash_dir := None; notes := [] |}.

(** ** What the claims speak of *)

(** [self.image_files[self.current_index]], the image shown; [None] where
    the expression raises. *)
Definition current (w : World) : option Path :=
  py_get (image_files w) (current_index w).

(** The cursor is an index of the view, and 0 on an empty view. *)
Definition cursor_ok (w : World) : Prop :=
  match image_files w with
  | [] => current_index w = 0%Z
  | _ => (0 <= current_index w < Z.of_nat (length (image_files w)))%Z
  end.

(** Every entry of the filesystem lies in a directory. *)
Definition fs_wf (files : FS) : Prop :=
  map_Forall (fun p _ => p <> [] /\ is_dir files (parent p) = true) files.

(** ** Concrete directories *)

Definition image_file (n : nat) : node :=
  File {| file_id := n; decoded := Some n |}.

Definition pics : Path := ["home"; "pics"].

(** The directory of the spec's scenario: [a.png], [b.jpg], [note.txt]. *)
Definition scenario_fs : FS :=
  list_to_map
    [ (["home"], Dir); (pics, Dir);
      (joinpath pics "a.png", image_file 1);
      (joinpath pics "b.jpg", image_file 2);
      (joinpath pics "note.txt", File {| file_id := 3; decoded := None |}) ].

Definition scenario_loaded : World :=
  run_commands [Load pics 0] (initial_world scenario_fs).

(** Three images, for the undo of a rename after a filter change. *)
Definition three_fs : FS :=
  list_to_map
    [ (["home"], Dir); (pics, Dir);
      (joinpath pics "a.png", image_file 1);
      (joinpath pics "b.png", image_file 2);
      (joinpath pics "c.png", image_file 3) ].

(** A directory with a subdirectory named like an image. *)
Definition album_fs : FS :=
  list_to_map
    [ (["home"], Dir); (pics, Dir);
      (joinpath pics "album.png", Dir);
      (joinpath pics "b.jpg", image_file 2) ].

(** A target folder that already holds an [a.png]. *)
Definition collision_fs : FS :=
  list_to_map
    [ (["home"], Dir); (pics, Dir);
      (joinpath pics "a.png", image_file 1);
      (joinpath pics "b.jpg", image_file 2);
      (joinpath pics "keep", Dir);
      (joinpath (joinpath pics "keep") "a.png", image_file 7);
      (joinpath pics ".vimview_trash", Dir);
      (joinpath (joinpath pics ".vimview_trash") "a.png", image_file 8);
      (joinpath (joinpath pics ".vimview_trash") "a_1.png", image_file 9) ].

(** The trash emptied from outside between a delete and its undo. *)
Definition trash_lost : World :=
  let w := run_commands [Load pics 0; DeleteCurrent] (initial_world scenario_fs) in
  set_fs (delete (joinpath (joinpath pics ".vimview_trash") "a.png") (fs w)) w.

(** The spec's scenario after renaming [a.png] to [z]. *)
Definition scenario_renamed : World :=
  run_commands [Rename "z"] scenario_loaded.

(** The scenario after deleting the first image and undoing at once, and
    after moving it to a folder and undoing at once. *)
Definition scenario_delete_undo : World :=
  run_commands [DeleteCurrent; Undo] scenario_loaded.

Definition scenario_move_undo : World :=
  run_commands [MoveTo (joinpath pics "keep"); Undo] scenario_loaded.

(** Three images; the third is renamed, then the view is filtered down to
    one image. *)
Definition renamed_then_filtered : World :=
  run_commands [Load pics 2; Rename "z"; Search "a"] (initial_world three_fs).

Definition album_loaded : World :=
  run_commands [Load pics 0] (initial_world album_fs).

(** The collision directory, loaded. *)
Definition collision_loaded : World :=
  run_commands [Load pics 0] (initial_world collision_fs).

(** Three images loaded with the cursor on the second one. *)
Definition three_loaded : World :=
  run_commands [Load pics 1] (initial_world three_fs).

(** The view while no filter has been applied yet, and once one has. *)
Definition unfiltered_like (w0 w : World) : Prop :=
  is_search_filtered w = false /\
  image_files w = image_files w0 /\
  current_index w = current_index w0 /\
  all_image_files w = all_image_files w0.

Definition filtered_from (w0 : World) (p : Path) (w : World) : Prop :=
  is_search_filtered w = true /\
  pre_search_path w = Some p /\
  all_image_files w = all_image_files w0.

(** Three images; the first is renamed, a search narrows the view to
    [b.png] and starts a pipeline for it, and the rename is undone before
    that pipeline has decoded anything. *)
Definition undone_under_filter : World :=
  run_commands [Load pics 0; Rename "z"; Search "b"; Undo] (initial_world three_fs).

(** ** Pipeline, filmstrip and filesystem predicates *)

(** Every thread whose [run] has not returned is the viewer's current
    worker: at most one pipeline is active. *)
Definition one_live (w : World) : Prop :=
  forall i t, threads w !! i = Some t -> finished t = false -> worker w = Some i.

(** The scenario with both previews decoded and one of them delivered,
    before a search narrows the view to [a.png]. *)
Definition scenario_previews_pending : World :=
  run_commands [WorkerTurn 0; WorkerTurn 0; Deliver] scenario_loaded.

(** [one_live], as a check that runs. *)
Definition one_live_check (w : World) : bool :=
  forallb (fun it => finished it.2 || bool_decide (worker w = Some it.1))
    (imap pair (threads w)).

(** The scenario narrowed to [a.png] while previews are pending. *)
Definition scenario_narrowed : World :=
  set_is_search_filtered true
    (set_image_files [joinpath pics "a.png"] scenario_previews_pending).


(** Three images; the third is deleted, then the view is filtered down to
    one image. *)
Definition deleted_then_filtered : World :=
  run_commands [Load pics 2; DeleteCurrent; Search "a"] (initial_world three_fs).

(** The filesystem a mutation of the regular file [img] leaves: a
    filesystem that has kept every entry, or that filesystem with [img]
    moved to a path that was free in it. *)
Definition moved_or_kept (files0 files' : FS) (img : Path) : Prop :=
  exists files : FS,
    (forall p n, files0 !! p = Some n -> files !! p = Some n) /\
    (files' = files \/
     exists dst c0, files !! dst = None /\ files !! img = Some (File c0) /\
       files' = <[dst := File c0]> (delete img files)).

(** What [run] emits for a list of paths when nobody stops it: the
    preview of every path whose image is not null, in the order of the
    list. *)
Definition previews_of (files : FS) (paths : list Path) : list (Path * pixmap) :=
  omap (fun p => (fun pix => (p, pix)) <$> read_scaled files p) paths.

(** Two worlds with the same thread objects and the same current worker. *)
Definition same_pipeline (w w' : World) : Prop :=
  threads w' = threads w /\ worker w' = worker w.

(** The icon the filmstrip shows for a path: the icon of the item bound
    to the path; [None] when no item is bound to it. *)
Definition icon_of (w : World) (p : Path) : option (option pixmap) :=
  match filmstrip_item_map w !! p with
  | Some r => icon <$> items w !! r
  | None => None
  end.

(** Every path of [filmstrip_item_map] is bound to an item object of its
    own. *)
Definition items_ok (w : World) : Prop :=
  (forall p r, filmstrip_item_map w !! p = Some r -> (r < length (items w))%nat) /\
  (forall p q r, filmstrip_item_map w !! p = Some r ->
                 filmstrip_item_map w !! q = Some r -> p = q).

(** The filmstrip follows the view: it has a row for every entry of the
    view, and every path bound to an item is in the view. *)
Definition map_within_view (w : World) : Prop :=
  length (filmstrip w) = length (image_files w) /\
  forall p, is_Some (filmstrip_item_map w !! p) -> p ∈ image_files w.

(** Two worlds with the same view and the same filmstrip. *)
Definition same_strip (w w' : World) : Prop :=
  image_files w' = image_files w /\
  filmstrip w' = filmstrip w /\
  filmstrip_item_map w' = filmstrip_item_map w.

Global Instance command_eq_dec : EqDecision command.
Proof. solve_decision. Defined.

Local Open Scope list_scope.

(** ** Frame facts: what the display and worker code leaves alone *)

Lemma stop_and_wait_view w :
  image_files (stop_and_wait w) = image_files w /\
  current_index (stop_and_wait w) = current_index w /\
  all_image_files (stop_and_wait w) = all_image_files w.
Proof.
  unfold stop_and_wait. destruct (worker w) as [i|]; [|done].
  destruct (threads w !! i) as [t|]; [|done].
  destruct (wait (fs w) (stop t)) as [t' evs]. done.
Qed.

Lemma update_image_files w : image_files (_update_image w) = image_files w.
Proof. unfold _update_image. destruct (image_files w) eqn:E; simpl; congruence. Qed.

Lemma update_image_all w : all_image_files (_update_image w) = all_image_files w.
Proof. unfold _update_image. by destruct (image_files w) eqn:E. Qed.

Lemma update_image_cursor_ok w :
  (image_files w = [] -> current_index w = 0%Z) -> cursor_ok (_update_image w).
Proof.
  intros H. unfold cursor_ok, _update_image.
  destruct (image_files w) as [|p l] eqn:E.
  - rewrite E. by apply H.
  - simpl. rewrite E. unfold clamp_index. simpl length. lia.
Qed.

Lemma cursor_ok_empty_zero w : cursor_ok w -> image_files w = [] -> current_index w = 0%Z.
Proof. unfold cursor_ok. intros H E. by rewrite E in H. Qed.

Lemma cursor_ok_ext w w' :
  image_files w' = image_files w -> current_index w' = current_index w ->
  cursor_ok w -> cursor_ok w'.
Proof. unfold cursor_ok. intros -> ->. done. Qed.

Lemma add_items_frame paths w :
  let w' := foldl add_item w paths in
  image_files w' = image_files w /\ all_image_files w' = all_image_files w /\
  current_index w' = current_index w /\ fs w' = fs w /\
  threads w' = threads w /\ queue w' = queue w /\ worker w' = worker w /\
  undo_stack w' = undo_stack w /\ thumb_cache w' = thumb_cache w /\
  is_search_filtered w' = is_search_filtered w /\
  pre_search_path w' = pre_search_path w /\ mode w' = mode w /\
  directory w' = directory w /\ trash_dir w' = trash_dir w /\ notes w' = notes w.
Proof.
  cbv zeta. revert w. induction paths as [|p paths IH]; intros w; [done|].
  simpl foldl. apply (IH (add_item w p)).
Qed.

Lemma rebuild_view w :
  image_files (_rebuild_filmstrip_and_thumbnails w) = image_files w /\
  all_image_files (_rebuild_filmstrip_and_thumbnails w) = all_image_files w /\
  current_index (_rebuild_filmstrip_and_thumbnails w)
  = current_index (_update_image w).
Proof.
  unfold _rebuild_filmstrip_and_thumbnails. cbv zeta.
  destruct (stop_and_wait_view w) as (Hi & Hc & Ha).
  set (w1 := stop_and_wait w) in *.
  destruct (add_items_frame (image_files w1)
              (set_filmstrip_item_map ∅ (set_filmstrip [] w1)))
    as (Fi & Fa & Fc & _).
  change (image_files (set_filmstrip_item_map ∅ (set_filmstrip [] w1)))
    with (image_files w1) in *.
  change (all_image_files (set_filmstrip_item_map ∅ (set_filmstrip [] w1)))
    with (all_image_files w1) in *.
  change (current_index (set_filmstrip_item_map ∅ (set_filmstrip [] w1)))
    with (current_index w1) in *.
  set (w2 := foldl add_item _ (image_files w1)) in *. clearbody w2.
  assert (Hu : current_index (_update_image w2) = current_index (_update_image w)).
  { unfold _update_image. rewrite Fi, Hi, Fc, Hc.
    destruct (image_files w); [cbv iota; congruence|done]. }
  assert (H3 : image_files (_update_image w2) = image_files w)
    by (rewrite update_image_files; congruence).
  assert (H4 : all_image_files (_update_image w2) = all_image_files w)
    by (rewrite update_image_all; congruence).
  set (w3 := _update_image w2) in *. clearbody w3.
  revert H3 H4 Hu. generalize (image_files w) (all_image_files w)
    (current_index (_update_image w)). intros vi va vc H3 H4 Hu.
  destruct (image_files w3) eqn:E; rewrite <- ?E in *; (split; [exact H3|split; [exact H4|exact Hu]]).
Qed.

Lemma rebuild_cursor_ok w :
  (image_files w = [] -> current_index w = 0%Z) ->
  cursor_ok (_rebuild_filmstrip_and_thumbnails w).
Proof.
  intros H. destruct (rebuild_view w) as (Hi & _ & Hc).
  apply (cursor_ok_ext (_update_image w)).
  - by rewrite Hi, update_image_files.
  - done.
  - by apply update_image_cursor_ok.
Qed.

(** ** The cursor stays inside the view *)

Lemma norm_index_lt {A} (l : list A) i k : norm_index l i = Some k -> (k < length l)%nat.
Proof.
  unfold norm_index. intros H.
  destruct ((0 <=? i)%Z && (i <? Z.of_nat (length l))%Z) eqn:E1.
  - injection H as <-. apply andb_prop in E1 as [? ?]. lia.
  - destruct ((- Z.of_nat (length l) <=? i)%Z && (i <? 0)%Z) eqn:E2; [|done].
    injection H as <-. apply andb_prop in E2 as [? ?]. lia.
Qed.

Lemma norm_index_nonneg {A} (l : list A) i :
  (0 <= i < Z.of_nat (length l))%Z -> norm_index l i = Some (Z.to_nat i).
Proof.
  intros H. unfold norm_index.
  replace ((0 <=? i)%Z && (i <? Z.of_nat (length l))%Z) with true; [done|].
  symmetry. apply andb_true_intro. split; lia.
Qed.

Lemma py_index_lt `{EqDecision A} (l : list A) x i : py_index l x = Some i -> (i < length l)%nat.
Proof.
  revert i. induction l as [|y l IH]; intros i; simpl; [done|].
  destruct (decide (y = x)).
  - intros [= <-]. lia.
  - destruct (py_index l x) as [j|] eqn:E; simpl; [|done].
    intros [= <-]. specialize (IH j eq_refl). lia.
Qed.

Lemma py_index_lookup `{EqDecision A} (l : list A) x i : py_index l x = Some i -> l !! i = Some x.
Proof.
  revert i. induction l as [|y l IH]; intros i; simpl; [done|].
  destruct (decide (y = x)) as [->|].
  - by intros [= <-].
  - destruct (py_index l x) as [j|] eqn:E; simpl; [|done].
    intros [= <-]. simpl. by apply IH.
Qed.

Lemma key_prev_cursor_ok w : cursor_ok w -> cursor_ok (key_prev w).
Proof.
  intros H. unfold key_prev. destruct (image_files w) eqn:E.
  - done.
  - apply update_image_cursor_ok. simpl. congruence.
Qed.

Lemma key_next_cursor_ok w : cursor_ok w -> cursor_ok (key_next w).
Proof.
  intros H. unfold key_next. destruct (image_files w) eqn:E.
  - done.
  - apply update_image_cursor_ok. simpl. congruence.
Qed.

Lemma select_cursor_ok i w :
  cursor_ok w -> (i < Z.of_nat (length (image_files w)))%Z ->
  cursor_ok (_on_filmstrip_selected i w).
Proof.
  intros Hw H. unfold _on_filmstrip_selected. destruct (0 <=? i)%Z eqn:Ei; [|done].
  apply update_image_cursor_ok. simpl. intros E. rewrite E in H. simpl in H. lia.
Qed.

Lemma clear_search_filter_cursor_ok w : cursor_ok w -> cursor_ok (_clear_search_filter w).
Proof.
  intros H. unfold _clear_search_filter.
  destruct (is_search_filtered w); simpl; [|done].
  apply (cursor_ok_ext (_rebuild_filmstrip_and_thumbnails
    match pre_search_path w with
    | Some p =>
        if py_in p (all_image_files w)
        then
         match py_index (all_image_files w) p with
         | Some i =>
             set_pre_search_path None
               (set_current_index (Z.of_nat i)
                  (set_is_search_filtered false (set_image_files (all_image_files w) w)))
         | None =>
             set_current_index 0
               (set_is_search_filtered false (set_image_files (all_image_files w) w))
         end
        else
         set_current_index 0
           (set_is_search_filtered false (set_image_files (all_image_files w) w))
    | None =>
        set_current_index 0
          (set_is_search_filtered false (set_image_files (all_image_files w) w))
    end)); [done|done|].
  apply rebuild_cursor_ok.
  destruct (pre_search_path w) as [p|]; simpl; [|done].
  destruct (py_in p (all_image_files w)); simpl; [|done].
  destruct (py_index (all_image_files w) p) as [i|] eqn:Ei; simpl; [|done].
  intros E. apply py_index_lt in Ei. rewrite E in Ei. simpl in Ei. lia.
Qed.

Lemma jump_cursor_ok target w :
  cursor_ok w -> (is_search_filtered w = true -> all_image_files w <> []) ->
  cursor_ok (_jump_to_image target w).
Proof.
  intros H Hall. unfold _jump_to_image.
  set (w1 := if is_search_filtered w then _ else w).
  assert (H1 : cursor_ok w1).
  { subst w1. destruct (is_search_filtered w); [|done].
    destruct (rebuild_view (set_is_search_filtered false (set_image_files (all_image_files w) w)))
      as (Hi & _ & Hc).
    unfold cursor_ok. rewrite Hi, Hc. simpl.
    unfold _update_image. simpl.
    destruct (all_image_files w) eqn:E; [by destruct Hall|].
    simpl. unfold clamp_index. simpl length. lia. }
  destruct (py_in target (image_files w1)); [|done].
  destruct (py_index (image_files w1) target) as [i|] eqn:Ei; [|done].
  apply (cursor_ok_ext (_update_image (set_current_index (Z.of_nat i) w1))); [done|done|].
  apply update_image_cursor_ok. simpl. intros E.
  apply py_index_lt in Ei. rewrite E in Ei. simpl in Ei. lia.
Qed.

Lemma escape_or_back_cursor_ok w : cursor_ok w -> cursor_ok (_escape_or_back w).2.
Proof.
  intros H. unfold _escape_or_back.
  destruct (is_search_filtered w); simpl; [by apply clear_search_filter_cursor_ok|].
  destruct (pre_search_path w) as [p|]; simpl; [|done].
  set (w1 := if py_in p (image_files w) then _ else _).
  apply (cursor_ok_ext (_update_image (set_pre_search_path None w1))); [done|done|].
  apply update_image_cursor_ok. simpl.
  assert (Hf : image_files w1 = image_files w).
  { subst w1. destruct (py_in p (image_files w)); [|done].
    by destruct (py_index (image_files w) p). }
  rewrite Hf. intros E. subst w1. rewrite E. simpl.
  destruct (py_in p []); done.
Qed.

Lemma overlay_cursor_ok text w : cursor_ok w -> cursor_ok (show_animated_overlay text w).
Proof. exact (fun H => H). Qed.

Lemma apply_search_cursor_ok text w : cursor_ok w -> cursor_ok (apply_search text w).
Proof.
  intros H. unfold apply_search.
  destruct (matching text (all_image_files w)) as [|m ms] eqn:E; [exact H|].
  apply overlay_cursor_ok. apply rebuild_cursor_ok. discriminate.
Qed.

Lemma py_pop_length {A} (l : list A) i x r :
  py_pop l i = Some (x, r) -> length l = S (length r).
Proof.
  unfold py_pop. destruct (norm_index l i) as [k|] eqn:Ek; [|done].
  destruct (l !! k) as [y|] eqn:Ey; [|done]. intros [= <- <-].
  rewrite length_delete; [|eauto]. apply lookup_lt_Some in Ey. lia.
Qed.

Lemma remove_item_cursor_ok w o :
  cursor_ok w -> _remove_item_from_view (current_index w) w = o -> cursor_ok (world_of o).
Proof.
  intros H <-. unfold _remove_item_from_view.
  destruct (py_pop (image_files w) (current_index w)) as [[img rest]|] eqn:E; [|done].
  cbv zeta. set (w2 := if py_in img _ then _ else _).
  assert (Hf : image_files w2 = rest /\ current_index w2 = current_index w).
  { subst w2. by destruct (py_in img _). }
  destruct Hf as [Hf Hc]. clearbody w2.
  unfold world_of. apply update_image_cursor_ok.
  change (image_files (set_filmstrip_item_map ?m (set_filmstrip ?r ?x)))
    with (image_files x).
  change (current_index (set_filmstrip_item_map ?m (set_filmstrip ?r ?x)))
    with (current_index x).
  rewrite Hf, Hc. intros ->.
  apply py_pop_length in E. unfold cursor_ok in H.
  destruct (image_files w) as [|a [|b l]]; simpl in *; try done. lia.
Qed.

Lemma move_and_record_cursor_ok txt img dest entry w :
  cursor_ok w -> cursor_ok (world_of (move_and_record txt img dest entry w)).
Proof.
  intros H. unfold move_and_record.
  destruct (shutil_move (fs w) img dest) as [e|fs']; [done|].
  set (w1 := set_undo_stack _ _).
  assert (H1 : cursor_ok w1) by done.
  pose proof (remove_item_cursor_ok w1 _ H1 eq_refl) as H2.
  destruct (_remove_item_from_view (current_index w1) w1); done.
Qed.

Lemma move_to_target_cursor_ok target w :
  cursor_ok w -> cursor_ok (world_of (_move_to_target target w)).
Proof.
  intros H. unfold _move_to_target.
  destruct (py_get _ _); [|done].
  destruct (mkdir_parents _ _) as [e|fs']; [done|].
  by apply move_and_record_cursor_ok.
Qed.

Lemma delete_current_cursor_ok w :
  cursor_ok w -> cursor_ok (world_of (_delete_current w)).
Proof.
  intros H. unfold _delete_current.
  destruct (py_get _ _); [|done].
  destruct (trash_dir w); [|done].
  by apply move_and_record_cursor_ok.
Qed.

Lemma py_set_length {A} (l : list A) i x l' : py_set l i x = Some l' -> length l' = length l.
Proof.
  unfold py_set. destruct (norm_index l i); [|done]. intros [= <-]. apply length_insert.
Qed.

Lemma cursor_ok_same_length w w' :
  length (image_files w') = length (image_files w) -> current_index w' = current_index w ->
  cursor_ok w -> cursor_ok w'.
Proof.
  unfold cursor_ok. intros Hl ->.
  destruct (image_files w), (image_files w'); simpl in *; try done. lia.
Qed.

Lemma rename_cursor_ok new_name w :
  cursor_ok w -> cursor_ok (world_of (_rename_current_file new_name w)).
Proof.
  intros H. unfold _rename_current_file.
  destruct (py_get _ _) as [img|]; [|done].
  destruct (exists_ _ _); [done|].
  destruct (os_rename _ _ _) as [e|fs']; [done|].
  cbv zeta.
  change (image_files (set_fs fs' w)) with (image_files w).
  change (current_index (set_fs fs' w)) with (current_index w).
  destruct (py_set _ _ _) as [l|] eqn:El; [|done].
  apply py_set_length in El.
  set (w3 := if py_in img _ then _ else _).
  assert (Hf : image_files w3 = l /\ current_index w3 = current_index w).
  { subst w3. destruct (py_in img _); [destruct (py_index _ img)|]; done. }
  destruct Hf as [Hf Hc]. clearbody w3.
  assert (H3 : cursor_ok w3).
  { apply (cursor_ok_same_length w); [by rewrite Hf|done|done]. }
  destruct (filmstrip_item w3 (current_index w3)) as [item|]; [|exact H3].
  unfold world_of.
  match goal with |- cursor_ok (_update_image ?x) => set (w6 := x) end.
  assert (H6 : image_files w6 = image_files w3 /\ current_index w6 = current_index w3).
  { subst w6. by destruct (thumb_cache _ !! img). }
  destruct H6 as [H6 H7]. clearbody w6.
  apply update_image_cursor_ok. rewrite H6, H7. intros E.
  unfold cursor_ok in H3. by rewrite E in H3.
Qed.

Lemma restore_entry_cursor_ok old index w : cursor_ok (restore_entry old index w).
Proof.
  unfold restore_entry. cbv zeta.
  match goal with |- cursor_ok (show_animated_overlay _ (_update_image ?x)) => set (w3 := x) end.
  apply (cursor_ok_ext (_update_image w3)); [done|done|].
  apply update_image_cursor_ok.
  assert (Hf : image_files w3 = py_insert (image_files w) index old).
  { subst w3.
    destruct (negb (py_in old (all_image_files _)));
      destruct (thumb_cache _ !! old); try done;
      destruct (read_scaled _ old); done. }
  rewrite Hf. unfold py_insert. intros E. by apply app_nil in E as [_ ?].
Qed.

Lemma revert_rename_cursor_ok old new index w :
  cursor_ok w -> cursor_ok (world_of (revert_rename old new index w)).
Proof.
  intros H. unfold revert_rename.
  destruct (py_set _ _ _) as [l|] eqn:El; [|done].
  apply py_set_length in El. cbv zeta.
  set (w2 := if py_in new _ then _ else _).
  assert (Hf : image_files w2 = l /\ current_index w2 = current_index w).
  { subst w2. destruct (py_in new _); [destruct (py_index _ new)|]; done. }
  destruct Hf as [Hf Hc]. clearbody w2.
  assert (H2 : cursor_ok w2).
  { apply (cursor_ok_same_length w); [by rewrite Hf|done|done]. }
  destruct (filmstrip_item w2 index) as [item|]; [|exact H2].
  unfold world_of.
  match goal with |- cursor_ok (show_animated_overlay _ (_update_image ?x)) => set (w4 := x) end.
  apply (cursor_ok_ext (_update_image w4)); [done|done|].
  assert (H4 : image_files w4 = image_files w2 /\ current_index w4 = current_index w2).
  { subst w4. by destruct (thumb_cache _ !! new). }
  destruct H4 as [H4 H5]. clearbody w4.
  apply update_image_cursor_ok. rewrite H4, H5. intros E.
  unfold cursor_ok in H2. by rewrite E in H2.
Qed.

Lemma undo_cursor_ok w : cursor_ok w -> cursor_ok (_undo_last_action w).
Proof.
  intros H. unfold _undo_last_action.
  destruct (pop_last (undo_stack w)) as [[rest entry]|]; [|done].
  destruct (reversal _ _) as [e|fs']; [done|].
  destruct entry as [old new index|old new index|old trash index].
  - pose proof (revert_rename_cursor_ok old new index
                  (set_fs fs' (set_undo_stack rest w)) H) as Hr.
    by destruct (revert_rename _ _ _ _).
  - apply restore_entry_cursor_ok.
  - apply restore_entry_cursor_ok.
Qed.

Lemma load_directory_cursor_ok d i w :
  cursor_ok w -> cursor_ok (world_of (load_directory d i w)).
Proof.
  intros H. unfold load_directory. cbv zeta.
  destruct (mkdir _ _) as [e|fs']; [exact H|].
  match goal with |- context [set_all_image_files ?l _] => generalize l end.
  intros imgs. unfold world_of. apply rebuild_cursor_ok.
  destruct imgs; [reflexivity|discriminate].
Qed.

Lemma open_text_input_cursor_ok m w :
  cursor_ok w -> cursor_ok (world_of (_open_text_input m w)).
Proof.
  intros H. unfold _open_text_input. destruct m; simpl; try done.
  - by destruct (py_get _ _).
  - destruct (negb (is_search_filtered w) && _); [|done]. by destruct (py_get _ _).
Qed.

Lemma open_text_input_all m w :
  all_image_files (world_of (_open_text_input m w)) = all_image_files w /\
  is_search_filtered (world_of (_open_text_input m w)) = is_search_filtered w.
Proof.
  unfold _open_text_input. destruct m; simpl; try done.
  - by destruct (py_get _ _).
  - destruct (negb (is_search_filtered w) && _); [|done]. by destruct (py_get _ _).
Qed.

Lemma process_text_input_cursor_ok raw sel w :
  cursor_ok w ->
  (forall t, sel = Some t -> all_image_files w <> []) ->
  cursor_ok (world_of (_process_text_input raw sel w)).
Proof.
  intros H Hs. unfold _process_text_input. destruct (mode w); simpl; try done.
  - destruct (bool_decide _); [done|].
    pose proof (rename_cursor_ok (strip raw) (set_mode NORMAL w) H) as Hr.
    destruct (_rename_current_file _ _); done.
  - destruct sel as [t|]; simpl.
    + apply jump_cursor_ok; [done|]. intros _. by eapply Hs.
    + destruct (bool_decide _); simpl.
      * by apply clear_search_filter_cursor_ok.
      * by apply apply_search_cursor_ok.
Qed.

Lemma thread_turn_view i w :
  image_files (thread_turn i w) = image_files w /\
  current_index (thread_turn i w) = current_index w.
Proof.
  unfold thread_turn. destruct (threads w !! i) as [t|]; [|done].
  by destruct (worker_step (fs w) t).
Qed.

Lemma deliver_view w :
  image_files (deliver w) = image_files w /\ current_index (deliver w) = current_index w.
Proof.
  unfold deliver. destruct (queue w) as [|[p pix] q]; [done|].
  unfold _apply_thumbnail. simpl. by destruct (filmstrip_item_map w !! p).
Qed.

Lemma run_command_cursor_ok c w : cursor_ok w -> cursor_ok (run_command c w).
Proof.
  intros H. destruct c; unfold run_command.
  - by apply load_directory_cursor_ok.
  - by apply key_prev_cursor_ok.
  - by apply key_next_cursor_ok.
  - destruct (row <? length (image_files w))%nat eqn:E; [|done].
    apply select_cursor_ok; [done|]. apply Nat.ltb_lt in E. lia.
  - pose proof (open_text_input_cursor_ok SEARCH w H) as Ho.
    destruct (_open_text_input SEARCH w) as [w1|e w1]; [|done].
    by apply process_text_input_cursor_ok.
  - pose proof (open_text_input_cursor_ok SEARCH w H) as Ho.
    destruct (_open_text_input SEARCH w) as [w1|e w1]; [|done].
    destruct (py_in target (all_image_files w1)) eqn:E; [|done].
    apply process_text_input_cursor_ok; [done|]. intros t _ Hn.
    rewrite Hn in E. unfold py_in in E. apply bool_decide_eq_true_1 in E.
    by apply elem_of_nil in E.
  - pose proof (open_text_input_cursor_ok SEARCH w H) as Ho.
    destruct (_open_text_input SEARCH w) as [w1|e w1]; done.
  - by apply escape_or_back_cursor_ok.
  - unfold guarded. destruct (image_files w) eqn:E; [done|].
    pose proof (open_text_input_cursor_ok RENAME w H) as Ho.
    destruct (_open_text_input RENAME w) as [w1|e w1]; [|done].
    by apply process_text_input_cursor_ok.
  - unfold guarded. destruct (image_files w) eqn:E; [done|].
    by apply move_to_target_cursor_ok.
  - unfold guarded. destruct (image_files w) eqn:E; [done|].
    by apply delete_current_cursor_ok.
  - by apply undo_cursor_ok.
  - destruct (thread_turn_view thread w). by eapply cursor_ok_ext.
  - destruct (deliver_view w). by eapply cursor_ok_ext.
Qed.

Lemma run_commands_cursor_ok cs w : cursor_ok w -> cursor_ok (run_commands cs w).
Proof.
  revert w. induction cs as [|c cs IH]; intros w H; [done|].
  simpl. apply IH. by apply run_command_cursor_ok.
Qed.

Lemma cursor_ok_current w :
  cursor_ok w ->
  match image_files w with
  | [] => current w = None
  | _ => is_Some (current w)
  end.
Proof.
  unfold cursor_ok, current, py_get. destruct (image_files w) as [|p l] eqn:E.
  - intros ->. done.
  - intros H. rewrite norm_index_nonneg by done.
    apply lookup_lt_is_Some. lia.
Qed.

(** C5 *)
Theorem cursor_always_inside_view (files : FS) (cs : list command) :
  let w := run_commands cs (initial_world files) in
  match image_files w with
  | [] => current_index w = 0%Z /\ current w = None
  | _ => (0 <= current_index w <= Z.of_nat (length (image_files w)) - 1)%Z
         /\ is_Some (current w)
  end.
Proof.
  intros w.
  assert (H : cursor_ok w) by (apply run_commands_cursor_ok; done).
  pose proof (cursor_ok_current w H) as Hc. unfold cursor_ok in H.
  destruct (image_files w); split; try done. lia.
Qed.

(** ** Paths *)

Lemma parent_joinpath d n : parent (joinpath d n) = d.
Proof. unfold parent, joinpath. apply removelast_last. Qed.

Lemma name_joinpath d n : name (joinpath d n) = n.
Proof. unfold name, joinpath. apply last_last. Qed.

Lemma joinpath_not_nil d n : joinpath d n <> [].
Proof. unfold joinpath. by destruct d. Qed.

Lemma node_at_joinpath (files : FS) d n : node_at files (joinpath d n) = files !! joinpath d n.
Proof. unfold node_at. pose proof (joinpath_not_nil d n). by destruct (joinpath d n). Qed.

Lemma joinpath_inj d n m : joinpath d n = joinpath d m -> n = m.
Proof. unfold joinpath. intros H. apply app_inv_head in H. congruence. Qed.

(** C8 *)
Theorem load_of_a_non_directory_raises (d : Path) (i : Z) (w : World) :
  fs_wf (fs w) ->
  is_dir (fs w) d = false ->
  exists e w',
    load_directory d i w = Raised e w' /\
    (e = FileNotFoundError \/ e = NotADirectoryError) /\
    (exists_ (fs w) d = false -> e = FileNotFoundError) /\
    (exists_ (fs w) d = true -> e = NotADirectoryError) /\
    fs w' = fs w /\
    all_image_files w' = all_image_files w /\
    image_files w' = image_files w /\
    current_index w' = current_index w.
Proof.
  intros Hwf Hd. unfold load_directory, mkdir. simpl.
  rewrite node_at_joinpath, parent_joinpath.
  destruct (fs w !! joinpath d ".vimview_trash") as [n|] eqn:E.
  { apply Hwf in E as [_ E]. rewrite parent_joinpath in E. congruence. }
  unfold is_dir, exists_ in *.
  destruct (node_at (fs w) d) as [[c|]|]; [| done |];
    eexists _, _; (split; [reflexivity|]); simpl; repeat split; auto; done.
Qed.

Lemma load_of_a_non_directory_raises_witness :
  exists e w',
    load_directory (joinpath pics "a.png") 0 (initial_world scenario_fs) = Raised e w' /\
    (e = FileNotFoundError \/ e = NotADirectoryError) /\
    (exists_ scenario_fs (joinpath pics "a.png") = false -> e = FileNotFoundError) /\
    (exists_ scenario_fs (joinpath pics "a.png") = true -> e = NotADirectoryError) /\
    fs w' = scenario_fs /\
    all_image_files w' = [] /\
    image_files w' = [] /\
    current_index w' = 0%Z.
Proof.
  apply (load_of_a_non_directory_raises (joinpath pics "a.png") 0 (initial_world scenario_fs)).
  - compute_done.
  - compute_done.
Defined.

Lemma pop_last_snoc {A} (l : list A) x : pop_last (l ++ [x]) = Some (l, x).
Proof.
  induction l as [|y l IH]; [done|].
  simpl. rewrite IH. by destruct (l ++ [x]) eqn:E; [destruct l|].
Qed.

Lemma pop_last_Some {A} (l r : list A) x : pop_last l = Some (r, x) -> l = r ++ [x].
Proof.
  revert r. induction l as [|y l IH]; intros r; [done|].
  simpl. destruct l as [|z l].
  - by intros [= <- <-].
  - destruct (pop_last (z :: l)) as [[r' y']|]; [|done].
    intros [= <- <-]. simpl. f_equal. by apply IH.
Qed.

(** C3, as amended *)
Theorem undo_with_failed_reversal (w : World) (rest : list action) (entry : action) (e : exn) :
  pop_last (undo_stack w) = Some (rest, entry) ->
  reversal entry (fs w) = inl e ->
  let w' := _undo_last_action w in
  fs w' = fs w /\
  all_image_files w' = all_image_files w /\
  image_files w' = image_files w /\
  current_index w' = current_index w /\
  thumb_cache w' = thumb_cache w /\
  undo_stack w' = rest /\
  undo_stack w = rest ++ [entry] /\
  notes w' = notes w ++ [Printed "undo failed" e].
Proof.
  intros Hp Hr. unfold _undo_last_action. rewrite Hp. simpl. rewrite Hr. simpl.
  apply pop_last_Some in Hp. done.
Qed.

Lemma undo_with_failed_reversal_witness :
  let w' := _undo_last_action trash_lost in
  fs w' = fs trash_lost /\
  all_image_files w' = all_image_files trash_lost /\
  image_files w' = image_files trash_lost /\
  current_index w' = current_index trash_lost /\
  thumb_cache w' = thumb_cache trash_lost /\
  undo_stack w' = [] /\
  undo_stack trash_lost = [] ++
    [delete_ (joinpath pics "a.png") (joinpath (joinpath pics ".vimview_trash") "a.png") 0] /\
  notes w' = notes trash_lost ++ [Printed "undo failed" FileNotFoundError].
Proof.
  apply (undo_with_failed_reversal trash_lost []
           (delete_ (joinpath pics "a.png") (joinpath (joinpath pics ".vimview_trash") "a.png") 0)
           FileNotFoundError).
  - compute_done.
  - compute_done.
Defined.

(** C3, as stated, fails *)
Lemma undo_with_failed_reversal_loses_entry :
  ~ (forall (w : World) rest entry e,
       pop_last (undo_stack w) = Some (rest, entry) ->
       reversal entry (fs w) = inl e ->
       undo_stack (_undo_last_action w) = undo_stack w).
Proof.
  intros H.
  specialize (H trash_lost []
    (delete_ (joinpath pics "a.png") (joinpath (joinpath pics ".vimview_trash") "a.png") 0)
    FileNotFoundError).
  assert (Hu : undo_stack (_undo_last_action trash_lost) = undo_stack trash_lost).
  { apply H; compute_done. }
  vm_compute in Hu. discriminate.
Qed.

(** ** Rename *)

Lemma py_in_true `{EqDecision A} (x : A) l : py_in x l = true <-> x ∈ l.
Proof. unfold py_in. apply bool_decide_eq_true. Qed.

Lemma py_in_false `{EqDecision A} (x : A) l : py_in x l = false <-> x ∉ l.
Proof. unfold py_in. apply bool_decide_eq_false. Qed.

Lemma py_index_None `{EqDecision A} (l : list A) x : x ∉ l -> py_index l x = None.
Proof.
  induction l as [|y l IH]; [done|]. intros H. simpl.
  apply not_elem_of_cons in H as [Hne Hl].
  destruct (decide (y = x)); [congruence|]. by rewrite IH.
Qed.

Lemma py_get_nonneg {A} (l : list A) i x :
  (0 <= i)%Z -> l !! Z.to_nat i = Some x -> py_get l i = Some x.
Proof.
  intros Hi Hx. unfold py_get. rewrite norm_index_nonneg; [done|].
  apply lookup_lt_Some in Hx. lia.
Qed.

Lemma py_set_nonneg {A} (l : list A) i x y :
  (0 <= i)%Z -> l !! Z.to_nat i = Some x -> py_set l i y = Some (<[Z.to_nat i := y]> l).
Proof.
  intros Hi Hx. unfold py_set. rewrite norm_index_nonneg; [done|].
  apply lookup_lt_Some in Hx. lia.
Qed.

Lemma update_image_in_range w :
  (0 <= current_index w < Z.of_nat (length (image_files w)))%Z -> _update_image w = w.
Proof.
  intros H. unfold _update_image. destruct (image_files w) eqn:E; [done|].
  unfold clamp_index. rewrite Z.min_l, Z.max_r by lia. by destruct w.
Qed.

Lemma os_rename_file (files : FS) src dst c :
  files !! src = Some (File c) -> is_dir files (parent dst) = true ->
  exists_ files dst = false ->
  os_rename files src dst = inr (<[dst := File c]> (delete src files)).
Proof.
  unfold os_rename, is_dir, exists_. intros -> Hd He.
  destruct (node_at files (parent dst)) as [[?|]|]; try done.
  by destruct (node_at files dst).
Qed.

Lemma rename_result (w : World) (new_name : string) (img : Path) (c : content)
  (item : nat) :
  (0 <= current_index w)%Z ->
  image_files w !! Z.to_nat (current_index w) = Some img ->
  filmstrip w !! Z.to_nat (current_index w) = Some item ->
  fs w !! img = Some (File c) ->
  is_dir (fs w) (parent (rename_target new_name img)) = true ->
  exists_ (fs w) (rename_target new_name img) = false ->
  let new_path := rename_target new_name img in
  exists w',
    _rename_current_file new_name w = Returned w' /\
    fs w' = <[new_path := File c]> (delete img (fs w)) /\
    image_files w' = <[Z.to_nat (current_index w) := new_path]> (image_files w) /\
    all_image_files w' =
      match py_index (all_image_files w) img with
      | Some idx => <[idx := new_path]> (all_image_files w)
      | None => all_image_files w
      end /\
    current_index w' = current_index w /\
    undo_stack w' = undo_stack w ++ [rename_inplace img new_path (current_index w)] /\
    filmstrip w' = filmstrip w /\
    filmstrip_item_map w' = <[new_path := item]> (delete img (filmstrip_item_map w)) /\
    items w' = alter (fun it => {| user_data := new_path; icon := icon it |}) item (items w) /\
    thumb_cache w' =
      match thumb_cache w !! img with
      | Some pix => <[new_path := pix]> (delete img (thumb_cache w))
      | None => thumb_cache w
      end.
Proof.
  intros Hi Himg Hrow Hf Hd He. cbv zeta. unfold _rename_current_file.
  rewrite (py_get_nonneg _ _ _ Hi Himg). cbv zeta. rewrite He.
  rewrite (os_rename_file _ _ _ c Hf Hd He).
  set (new_path := rename_target new_name img) in *.
  set (fs' := <[new_path := File c]> (delete img (fs w))).
  change (image_files (set_fs fs' w)) with (image_files w).
  change (current_index (set_fs fs' w)) with (current_index w).
  rewrite (py_set_nonneg _ _ _ _ Hi Himg).
  set (l := <[Z.to_nat (current_index w) := new_path]> (image_files w)).
  set (w2 := set_image_files l (set_fs fs' w)).
  change (all_image_files w2) with (all_image_files w).
  set (all' := match py_index (all_image_files w) img with
               | Some idx => <[idx := new_path]> (all_image_files w)
               | None => all_image_files w
               end).
  assert (H3 : (if py_in img (all_image_files w) then
                  match py_index (all_image_files w) img with
                  | Some idx => set_all_image_files (<[idx := new_path]> (all_image_files w)) w2
                  | None => w2
                  end
                else w2) = set_all_image_files all' w2).
  { subst all'. destruct (py_in img (all_image_files w)) eqn:Ein.
    - by destruct (py_index (all_image_files w) img).
    - apply py_in_false in Ein. by rewrite (py_index_None _ _ Ein). }
  rewrite H3. clear H3. set (w3 := set_all_image_files all' w2).
  assert (Hrow3 : filmstrip_item w3 (current_index w3) = Some item).
  { unfold filmstrip_item. change (current_index w3) with (current_index w).
    change (filmstrip w3) with (filmstrip w).
    by rewrite (proj2 (Z.leb_le 0 (current_index w)) Hi). }
  rewrite Hrow3.
  change (thumb_cache (set_filmstrip_item_map ?m (setData ?r ?p w3)))
    with (thumb_cache w).
  match goal with |- context [_update_image ?x] => set (w6 := x) end.
  assert (H6 : image_files w6 = l /\ current_index w6 = current_index w).
  { subst w6. by destruct (thumb_cache w !! img). }
  rewrite (update_image_in_range w6).
  2:{ destruct H6 as [-> ->]. subst l. rewrite length_insert.
      apply lookup_lt_Some in Himg. lia. }
  exists w6. split; [reflexivity|]. subst w6.
  destruct (thumb_cache w !! img); repeat split; reflexivity.
Qed.

(** C4, as amended: a rename that succeeds puts the new path at the
    position of the old one in the view and in the catalog; the lists
    are not sorted again.  The rename succeeds when the cursor is on a
    regular file shown in the filmstrip, the new path (the typed text
    parsed as [pathlib] parses it, with the suffix of the image when the
    text has none) does not exist, its directory exists, and it has no
    part [..]. *)
Theorem rename_keeps_position (w : World) (new_name : string) (img : Path) (c : content) :
  (0 <= current_index w)%Z ->
  image_files w !! Z.to_nat (current_index w) = Some img ->
  is_Some (filmstrip w !! Z.to_nat (current_index w)) ->
  fs w !! img = Some (File c) ->
  ".." ∉ rename_target new_name img ->
  is_dir (fs w) (parent (rename_target new_name img)) = true ->
  exists_ (fs w) (rename_target new_name img) = false ->
  let new_path := rename_target new_name img in
  exists w',
    _rename_current_file new_name w = Returned w' /\
    fs w' = <[new_path := File c]> (delete img (fs w)) /\
    image_files w' = <[Z.to_nat (current_index w) := new_path]> (image_files w) /\
    all_image_files w' =
      match py_index (all_image_files w) img with
      | Some idx => <[idx := new_path]> (all_image_files w)
      | None => all_image_files w
      end /\
    current_index w' = current_index w /\
    undo_stack w' = undo_stack w ++ [rename_inplace img new_path (current_index w)].
Proof.
  intros Hi Himg [item Hrow] Hf _ Hd He. cbv zeta.
  destruct (rename_result w new_name img c item Hi Himg Hrow Hf Hd He)
    as (w' & H1 & H2 & H3 & H4 & H5 & H6 & _).
  exists w'. auto 10.
Qed.

Lemma rename_keeps_position_witness :
  (all_image_files scenario_loaded = [joinpath pics "a.png"; joinpath pics "b.jpg"] /\
   image_files scenario_loaded = [joinpath pics "a.png"; joinpath pics "b.jpg"] /\
   rename_target "z" (joinpath pics "a.png") = ["home"; "pics"; "z.png"] /\
   exists w',
     _rename_current_file "z" scenario_loaded = Returned w' /\
     fs w' = <[["home"; "pics"; "z.png"] := image_file 1]>
               (delete (joinpath pics "a.png") (fs scenario_loaded)) /\
     image_files w' = [["home"; "pics"; "z.png"]; joinpath pics "b.jpg"] /\
     all_image_files w' = [["home"; "pics"; "z.png"]; joinpath pics "b.jpg"] /\
     current_index w' = 0%Z /\
     undo_stack w'
       = [rename_inplace (joinpath pics "a.png") ["home"; "pics"; "z.png"] 0]) /\
  (rename_target "keep/z" (joinpath pics "a.png") = ["home"; "pics"; "keep"; "z.png"] /\
   exists w',
     _rename_current_file "keep/z" collision_loaded = Returned w' /\
     fs w' = <[["home"; "pics"; "keep"; "z.png"] := image_file 1]>
               (delete (joinpath pics "a.png") (fs collision_loaded)) /\
     image_files w' = [["home"; "pics"; "keep"; "z.png"]; joinpath pics "b.jpg"] /\
     all_image_files w' = [["home"; "pics"; "keep"; "z.png"]; joinpath pics "b.jpg"] /\
     current_index w' = 0%Z /\
     undo_stack w'
       = [rename_inplace (joinpath pics "a.png") ["home"; "pics"; "keep"; "z.png"] 0]).
Proof.
  split.
  - split; [compute_done|]. split; [compute_done|]. split; [compute_done|].
    apply (rename_keeps_position scenario_loaded "z" (joinpath pics "a.png")
             {| file_id := 1; decoded := Some 1 |}); compute_done.
  - split; [compute_done|].
    apply (rename_keeps_position collision_loaded "keep/z" (joinpath pics "a.png")
             {| file_id := 1; decoded := Some 1 |}); compute_done.
Defined.

(** A typed name with a separator names a path below the directory of
    the image; when that directory does not exist the rename fails, and
    nothing but the console changes. *)
Lemma rename_into_a_missing_directory_fails :
  rename_target "sub/z" (joinpath pics "a.png") = ["home"; "pics"; "sub"; "z.png"] /\
  rename_target "a.b/c" (joinpath pics "a.png") = ["home"; "pics"; "a.b"; "c.png"] /\
  let w' := world_of (_rename_current_file "sub/z" scenario_loaded) in
  notes w' = notes scenario_loaded ++ [Printed "failed to rename" FileNotFoundError] /\
  fs w' = fs scenario_loaded /\
  image_files w' = image_files scenario_loaded /\
  all_image_files w' = all_image_files scenario_loaded /\
  undo_stack w' = undo_stack scenario_loaded.
Proof. cbv zeta. compute_done. Qed.

(** C4, as stated, fails *)
Lemma rename_does_not_sort :
  all_image_files scenario_loaded = [joinpath pics "a.png"; joinpath pics "b.jpg"] /\
  fs scenario_renamed !! joinpath pics "z.png" = Some (image_file 1) /\
  all_image_files scenario_renamed <> [joinpath pics "b.jpg"; joinpath pics "z.png"] /\
  all_image_files scenario_renamed
    <> merge_sort path_le (all_image_files scenario_renamed).
Proof.
  compute_done.
Qed.

(** ** The code at the inputs where it leaves the specification *)

(** C1: the undo of a delete or of a move puts the path back at its place
    in the view and puts the file back, but appends the path to
    [all_image_files], which is then out of order. *)
Theorem undo_of_delete_appends_to_all_images :
  all_image_files scenario_loaded = [joinpath pics "a.png"; joinpath pics "b.jpg"] /\
  image_files scenario_delete_undo = image_files scenario_loaded /\
  current_index scenario_delete_undo = current_index scenario_loaded /\
  fs scenario_delete_undo = fs scenario_loaded /\
  all_image_files scenario_delete_undo = [joinpath pics "b.jpg"; joinpath pics "a.png"] /\
  image_files scenario_move_undo = image_files scenario_loaded /\
  all_image_files scenario_move_undo = [joinpath pics "b.jpg"; joinpath pics "a.png"].
Proof. cbv zeta. compute_done. Qed.

(** C9: the undo of a rename uses the recorded index as it is; when the
    view has become shorter the assignment raises after the file has
    already been renamed back. *)
Theorem undo_of_rename_trusts_recorded_index :
  let w := renamed_then_filtered in
  let w' := _undo_last_action w in
  undo_stack w = [rename_inplace (joinpath pics "c.png") (joinpath pics "z.png") 2] /\
  length (image_files w) = 1%nat /\
  py_set (image_files w) 2 (joinpath pics "c.png") = None /\
  last (notes w') = Some (Printed "undo failed" IndexError) /\
  fs w' !! joinpath pics "c.png" = Some (image_file 3) /\
  fs w' !! joinpath pics "z.png" = None /\
  all_image_files w'
    = [joinpath pics "a.png"; joinpath pics "b.png"; joinpath pics "z.png"] /\
  undo_stack w' = [].
Proof. cbv zeta. compute_done. Qed.

(** C2: a subdirectory named like an image is taken into the catalog. *)
Theorem load_lists_a_directory_as_image :
  album_fs !! joinpath pics "album.png" = Some Dir /\
  all_image_files album_loaded = [joinpath pics "album.png"; joinpath pics "b.jpg"] /\
  image_files album_loaded = all_image_files album_loaded.
Proof. cbv zeta. compute_done. Qed.

(** ** Collision-free destination names *)

Lemma list_ascii_of_string_app s t :
  list_ascii_of_string (s ++ t)%string = list_ascii_of_string s ++ list_ascii_of_string t.
Proof. induction s as [|a s IH]; [done|]. unfold String.app in *. simpl. by rewrite IH. Qed.

Lemma string_app_inv_tail (s1 s2 t : string) :
  (s1 ++ t)%string = (s2 ++ t)%string -> s1 = s2.
Proof.
  intros H. apply (f_equal list_ascii_of_string) in H.
  rewrite !list_ascii_of_string_app in H. apply app_inv_tail in H.
  apply (f_equal string_of_list_ascii) in H.
  by rewrite !string_of_list_ascii_of_string in H.
Qed.

Lemma numbered_inj folder st sf a b :
  numbered folder st sf a = numbered folder st sf b -> a = b.
Proof.
  unfold numbered. intros H. apply joinpath_inj in H.
  apply (inj (String.app st)) in H. apply (inj (String.app "_")) in H.
  apply string_app_inv_tail in H. by apply (inj pretty) in H.
Qed.

Lemma exists_joinpath (files : FS) d n :
  exists_ files (joinpath d n) = true <-> is_Some (files !! joinpath d n).
Proof.
  unfold exists_. rewrite node_at_joinpath.
  destruct (files !! joinpath d n); split; done.
Qed.

Lemma exists_joinpath_false (files : FS) d n :
  exists_ files (joinpath d n) = false <-> files !! joinpath d n = None.
Proof.
  unfold exists_. rewrite node_at_joinpath.
  by destruct (files !! joinpath d n).
Qed.

Lemma entries_bound (files : FS) (l : list Path) :
  NoDup l -> (forall p, p ∈ l -> is_Some (files !! p)) -> (length l <= size files)%nat.
Proof.
  intros Hnd Hin. rewrite <- size_dom.
  unfold size, set_size. simpl.
  apply submseteq_length, NoDup_submseteq; [done|].
  intros p Hp. apply elem_of_elements, elem_of_dom. by apply Hin.
Qed.

Lemma next_free_spec (files : FS) folder st sf turns counter (seen : list Path) :
  NoDup seen ->
  (size files <= length seen + turns)%nat ->
  (forall p, p ∈ seen -> is_Some (files !! p)) ->
  (forall k, (counter <= k)%nat -> numbered folder st sf k ∉ seen) ->
  exists n, (counter <= n)%nat /\
    next_free files folder st sf counter turns = numbered folder st sf n /\
    files !! numbered folder st sf n = None /\
    forall k, (counter <= k < n)%nat -> is_Some (files !! numbered folder st sf k).
Proof.
  revert counter seen. induction turns as [|t IH]; intros counter seen Hnd Hsz Hin Hfresh.
  - exists counter. simpl. repeat split; [lia| |intros; lia].
    destruct (files !! numbered folder st sf counter) eqn:E; [|done].
    assert (length (numbered folder st sf counter :: seen) <= size files)%nat.
    { apply entries_bound.
      - constructor; [by apply Hfresh|done].
      - intros p [->|Hp]%elem_of_cons; [by eexists|by apply Hin]. }
    simpl in *. lia.
  - simpl. destruct (exists_ files (numbered folder st sf counter)) eqn:E.
    + apply exists_joinpath in E.
      destruct (IH (S counter) (numbered folder st sf counter :: seen)) as (n & Hn & Hr & Hf & Hall).
      * constructor; [by apply Hfresh|done].
      * simpl. lia.
      * intros p [->|Hp]%elem_of_cons; [done|by apply Hin].
      * intros k Hk [Heq|Hp]%elem_of_cons.
        -- apply numbered_inj in Heq. lia.
        -- eapply Hfresh; [|exact Hp]. lia.
      * exists n. repeat split; [lia|done|done|].
        intros k Hk. destruct (decide (k = counter)) as [->|]; [done|]. apply Hall. lia.
    + apply exists_joinpath_false in E. exists counter. repeat split; [lia|done|intros; lia].
Qed.

Lemma free_path_spec (files : FS) folder img :
  is_Some (files !! joinpath folder (name img)) ->
  exists n, (1 <= n)%nat /\
    free_path files folder img = numbered folder (stem img) (suffix img) n /\
    files !! numbered folder (stem img) (suffix img) n = None /\
    forall k, (1 <= k < n)%nat -> is_Some (files !! numbered folder (stem img) (suffix img) k).
Proof.
  intros H. unfold free_path. apply exists_joinpath in H. rewrite H.
  apply (next_free_spec files folder (stem img) (suffix img) (size files) 1 []).
  - constructor.
  - simpl. lia.
  - intros p Hp. by apply elem_of_nil in Hp.
  - intros k _ Hp. by apply elem_of_nil in Hp.
Qed.

Lemma free_path_free (files : FS) folder img :
  exists_ files (free_path files folder img) = false.
Proof.
  destruct (exists_ files (joinpath folder (name img))) eqn:E.
  - apply exists_joinpath in E. destruct (free_path_spec files folder img E) as (n & _ & -> & Hn & _).
    by apply exists_joinpath_false.
  - unfold free_path. by rewrite E.
Qed.

Lemma wf_prefix_dir (files : FS) p q :
  fs_wf files -> is_dir files (p ++ q) = true -> is_dir files p = true.
Proof.
  intros Hwf. induction q as [|x q IH] using rev_ind; [by rewrite app_nil_r|].
  intros H. apply IH. unfold is_dir in H.
  destruct (node_at files (p ++ q ++ [x])) as [[?|]|] eqn:E; try done.
  rewrite app_assoc in E. change ((p ++ q) ++ [x]) with (joinpath (p ++ q) x) in E.
  rewrite node_at_joinpath in E. apply Hwf in E as [_ E].
  by rewrite parent_joinpath in E.
Qed.

Lemma mkdir_parents_from_existing (files : FS) base rest :
  fs_wf files -> is_dir files (base ++ rest) = true ->
  mkdir_parents_from files base rest = inr files.
Proof.
  intros Hwf. revert base. induction rest as [|c rest IH]; intros base H; [done|].
  simpl. assert (Hq : is_dir files (joinpath base c) = true).
  { apply (wf_prefix_dir files _ rest Hwf). unfold joinpath. by rewrite <- app_assoc. }
  unfold is_dir in Hq. destruct (node_at files (joinpath base c)) as [[?|]|]; try done.
  apply IH. unfold joinpath. by rewrite <- app_assoc.
Qed.

Lemma mkdir_parents_existing (files : FS) target :
  fs_wf files -> is_dir files target = true -> mkdir_parents files target = inr files.
Proof. intros. by apply mkdir_parents_from_existing. Qed.

Lemma shutil_move_file (files : FS) src dst c :
  files !! src = Some (File c) -> is_dir files (parent dst) = true ->
  exists_ files dst = false ->
  shutil_move files src dst = inr (<[dst := File c]> (delete src files)).
Proof.
  intros Hs Hd He. unfold shutil_move.
  assert (is_dir files dst = false) as ->.
  { unfold is_dir, exists_ in *. by destruct (node_at files dst). }
  by apply os_rename_file.
Qed.

Lemma update_image_eq w : exists z, _update_image w = set_current_index z w.
Proof.
  unfold _update_image. destruct (image_files w).
  - exists (current_index w). by destruct w.
  - by eexists.
Qed.

Lemma py_get_pop {A} (l : list A) i x :
  py_get l i = Some x -> exists r, py_pop l i = Some (x, r).
Proof.
  unfold py_get, py_pop. destruct (norm_index l i); [|done]. intros ->. by eexists.
Qed.

Lemma move_and_record_done txt img dest entry w c :
  current w = Some img ->
  fs w !! img = Some (File c) ->
  is_dir (fs w) (parent dest) = true ->
  exists_ (fs w) dest = false ->
  exists w',
    move_and_record txt img dest entry w = Returned w' /\
    fs w' = <[dest := File c]> (delete img (fs w)) /\
    undo_stack w' = undo_stack w ++ [entry].
Proof.
  intros Hc Hf Hd He. unfold move_and_record.
  rewrite (shutil_move_file _ _ _ c Hf Hd He). cbv zeta.
  unfold _remove_item_from_view.
  destruct (py_get_pop _ _ _ Hc) as [r Hr].
  change (image_files (set_undo_stack (undo_stack w ++ [entry])
            (set_fs (<[dest:=File c]> (delete img (fs w))) w))) with (image_files w).
  change (current_index (set_undo_stack (undo_stack w ++ [entry])
            (set_fs (<[dest:=File c]> (delete img (fs w))) w))) with (current_index w).
  rewrite Hr. cbv zeta.
  match goal with |- context [_update_image ?x] =>
    destruct (update_image_eq x) as [z ->]; set (w2 := x) end.
  eexists. split; [reflexivity|].
  subst w2. destruct (py_in img _); done.
Qed.

Lemma substring_all (s : string) : substring 0 (String.length s) s = s.
Proof. induction s as [|ch s IH]; [done|]. simpl. by rewrite IH. Qed.

Lemma substring_split (s : string) (i : nat) :
  (i <= String.length s)%nat ->
  (substring 0 i s ++ substring i (String.length s - i) s)%string = s.
Proof.
  revert i. induction s as [|ch s IH]; intros i Hi.
  - simpl in Hi. by replace i with 0%nat by lia.
  - destruct i as [|i].
    + change (substring 0 0 (String ch s)) with EmptyString.
      rewrite Nat.sub_0_r. change (EmptyString ++ ?t)%string with t.
      apply substring_all.
    + simpl in Hi. simpl substring. simpl Nat.sub.
      change (String ch ?a ++ ?b)%string with (String ch (a ++ b)%string).
      f_equal. apply IH. lia.
Qed.

Lemma string_app_empty_r (s : string) : (s ++ EmptyString)%string = s.
Proof.
  induction s as [|ch s IH]; [done|].
  change (String ch ?a ++ ?b)%string with (String ch (a ++ b)%string). by rewrite IH.
Qed.

Lemma stem_suffix (n : string) : (stem_of n ++ suffix_of n)%string = n.
Proof.
  unfold stem_of, suffix_of, split_at.
  destruct (rfind_dot n 0) as [i|]; [|apply string_app_empty_r].
  destruct ((0 <? i)%nat && (i <? String.length n - 1)%nat) eqn:E.
  - apply andb_true_iff in E as [_ E]. apply Nat.ltb_lt in E.
    apply substring_split. lia.
  - apply string_app_empty_r.
Qed.

(** C7: a move or a delete of the image at the cursor, when the
    destination already holds a file of the same name, does not fail and
    overwrites nothing.  The file arrives under the name of the image
    with [_n] put before the extension (the stem, [_], the number in
    decimal, the suffix), for the first [n = 1, 2, ...] whose name is
    free; the file that was there keeps its content, and the image is
    gone from where it was. *)
Theorem move_and_delete_avoid_collisions
  (w : World) (folder img : Path) (c c' : content) :
  fs_wf (fs w) ->
  current w = Some img ->
  fs w !! img = Some (File c) ->
  fs w !! (folder ++ [name img]) = Some (File c') ->
  folder ++ [name img] <> img ->
  (stem img ++ suffix img)%string = name img /\
  exists n, (1 <= n)%nat /\
    let numbered_name := fun k : nat => (stem img ++ "_" ++ pretty k ++ suffix img)%string in
    let new_path := folder ++ [numbered_name n] in
    fs w !! new_path = None /\
    (forall k, (1 <= k < n)%nat -> is_Some (fs w !! (folder ++ [numbered_name k]))) /\
    (exists w',
       _move_to_target folder w = Returned w' /\
       fs w' = <[new_path := File c]> (delete img (fs w)) /\
       fs w' !! (folder ++ [name img]) = Some (File c') /\
       fs w' !! new_path = Some (File c) /\
       fs w' !! img = None /\
       undo_stack w' = undo_stack w ++ [move img new_path (current_index w)]) /\
    (trash_dir w = Some folder ->
     exists w',
       _delete_current w = Returned w' /\
       fs w' = <[new_path := File c]> (delete img (fs w)) /\
       fs w' !! (folder ++ [name img]) = Some (File c') /\
       fs w' !! new_path = Some (File c) /\
       fs w' !! img = None /\
       undo_stack w' = undo_stack w ++ [delete_ img new_path (current_index w)]).
Proof.
  intros Hwf Hc Hf Hx Hne. split; [apply stem_suffix|].
  change (folder ++ [name img]) with (joinpath folder (name img)) in *.
  assert (Hdir : is_dir (fs w) folder = true).
  { apply Hwf in Hx as [_ Hx]. by rewrite parent_joinpath in Hx. }
  destruct (free_path_spec (fs w) folder img) as (n & Hn & Hfree & Hnone & Hall); [by eexists|].
  exists n. split; [done|]. cbv zeta.
  change (folder ++ [(stem img ++ "_" ++ pretty n ++ suffix img)%string])
    with (numbered folder (stem img) (suffix img) n).
  set (new_path := numbered folder (stem img) (suffix img) n) in *.
  assert (Hnp : new_path <> img) by congruence.
  assert (Hnx : new_path <> joinpath folder (name img)) by congruence.
  assert (Hlook : forall files' : FS, files' = <[new_path := File c]> (delete img (fs w)) ->
            files' !! joinpath folder (name img) = Some (File c') /\
            files' !! new_path = Some (File c) /\ files' !! img = None).
  { intros files' ->. repeat split.
    - rewrite lookup_insert_ne, lookup_delete_ne; done.
    - by rewrite lookup_insert_eq.
    - rewrite lookup_insert_ne by done. by rewrite lookup_delete_eq. }
  assert (Hpd : is_dir (fs w) (parent new_path) = true).
  { unfold new_path, numbered. by rewrite parent_joinpath. }
  assert (Hex : exists_ (fs w) new_path = false).
  { unfold new_path, numbered. by apply exists_joinpath_false. }
  split; [done|]. split; [exact Hall|]. split.
  - unfold _move_to_target. unfold current in Hc. rewrite Hc.
    rewrite (mkdir_parents_existing _ _ Hwf Hdir). cbv zeta.
    change (fs (set_fs (fs w) w)) with (fs w). rewrite Hfree.
    destruct (move_and_record_done "failed to move" img new_path
                (move img new_path (current_index w)) (set_fs (fs w) w) c)
      as (w' & Hr & Hfs & Hu); try done.
    exists w'. split; [exact Hr|]. split; [exact Hfs|].
    destruct (Hlook _ Hfs) as (? & ? & ?). done.
  - intros Ht. unfold _delete_current. unfold current in Hc. rewrite Hc, Ht, Hfree.
    destruct (move_and_record_done "failed to trash" img new_path
                (delete_ img new_path (current_index w)) w c)
      as (w' & Hr & Hfs & Hu); try done.
    exists w'. split; [exact Hr|]. split; [exact Hfs|].
    destruct (Hlook _ Hfs) as (? & ? & ?). done.
Qed.

Lemma move_and_delete_avoid_collisions_witness :
  let trash := ["home"; "pics"; ".vimview_trash"] in
  let img := ["home"; "pics"; "a.png"] in
  let w := collision_loaded in
  current w = Some img /\
  trash_dir w = Some trash /\
  fs w !! (trash ++ ["a.png"]) = Some (image_file 8) /\
  fs w !! (trash ++ ["a_1.png"]) = Some (image_file 9) /\
  fs w !! (trash ++ ["a_2.png"]) = None /\
  (exists w',
     _move_to_target trash w = Returned w' /\
     fs w' !! (trash ++ ["a.png"]) = Some (image_file 8) /\
     fs w' !! (trash ++ ["a_1.png"]) = Some (image_file 9) /\
     fs w' !! (trash ++ ["a_2.png"]) = Some (image_file 1) /\
     fs w' !! img = None /\
     undo_stack w' = [move img (trash ++ ["a_2.png"]) 0]) /\
  (exists w',
     _delete_current w = Returned w' /\
     fs w' !! (trash ++ ["a.png"]) = Some (image_file 8) /\
     fs w' !! (trash ++ ["a_1.png"]) = Some (image_file 9) /\
     fs w' !! (trash ++ ["a_2.png"]) = Some (image_file 1) /\
     fs w' !! img = None /\
     undo_stack w' = [delete_ img (trash ++ ["a_2.png"]) 0]).
Proof.
  cbv zeta.
  destruct (move_and_delete_avoid_collisions collision_loaded
              ["home"; "pics"; ".vimview_trash"] ["home"; "pics"; "a.png"]
              {| file_id := 1; decoded := Some 1 |} {| file_id := 8; decoded := Some 8 |})
    as (_ & n & Hn & Hrest); [compute_done..|].
  cbv zeta in Hrest. destruct Hrest as (Hnone & Hall & Hmove & Hdel).
  assert (n = 2%nat) as ->.
  { destruct n as [|[|[|n]]]; [lia| |done|].
    - vm_compute in Hnone. discriminate.
    - destruct (Hall 2%nat ltac:(lia)) as [x Hx]. vm_compute in Hx. discriminate. }
  split; [compute_done|]. split; [compute_done|]. split; [compute_done|].
  split; [compute_done|]. split; [compute_done|]. split.
  - destruct Hmove as (w' & Hr & Hfs & _ & _ & _ & Hu).
    exists w'. split; [exact Hr|]. rewrite Hfs, Hu. compute_done.
  - destruct Hdel as (w' & Hr & Hfs & _ & _ & _ & Hu); [compute_done|].
    exists w'. split; [exact Hr|]. rewrite Hfs, Hu. compute_done.
Defined.

(** ** Filtering and clearing the filter *)

Lemma stop_and_wait_search w :
  is_search_filtered (stop_and_wait w) = is_search_filtered w /\
  pre_search_path (stop_and_wait w) = pre_search_path w.
Proof.
  unfold stop_and_wait. destruct (worker w) as [i|]; [|done].
  destruct (threads w !! i) as [t|]; [|done].
  by destruct (wait (fs w) (stop t)).
Qed.

Lemma rebuild_search w :
  is_search_filtered (_rebuild_filmstrip_and_thumbnails w) = is_search_filtered w /\
  pre_search_path (_rebuild_filmstrip_and_thumbnails w) = pre_search_path w.
Proof.
  unfold _rebuild_filmstrip_and_thumbnails. cbv zeta.
  destruct (stop_and_wait_search w) as [Hf Hp].
  destruct (add_items_frame (image_files (stop_and_wait w))
              (set_filmstrip_item_map ∅ (set_filmstrip [] (stop_and_wait w))))
    as (_ & _ & _ & _ & _ & _ & _ & _ & _ & Ff & Fp & _).
  change (is_search_filtered (set_filmstrip_item_map ∅ (set_filmstrip [] ?x)))
    with (is_search_filtered x) in Ff.
  change (pre_search_path (set_filmstrip_item_map ∅ (set_filmstrip [] ?x)))
    with (pre_search_path x) in Fp.
  set (w2 := foldl add_item _ _) in *. clearbody w2.
  destruct (update_image_eq w2) as [z ->].
  destruct (image_files _); simpl; by rewrite Ff, Fp, Hf, Hp.
Qed.

Lemma apply_search_filtered text w :
  matching text (all_image_files w) <> [] ->
  is_search_filtered (apply_search text w) = true /\
  pre_search_path (apply_search text w) = pre_search_path w /\
  all_image_files (apply_search text w) = all_image_files w.
Proof.
  intros H. unfold apply_search.
  destruct (matching text (all_image_files w)) as [|m ms]; [done|].
  match goal with |- context [_rebuild_filmstrip_and_thumbnails ?x] =>
    destruct (rebuild_search x) as [Hf Hp]; destruct (rebuild_view x) as (_ & Ha & _) end.
  repeat split; [exact Hf|exact Hp|exact Ha].
Qed.

Lemma apply_search_no_match text w :
  matching text (all_image_files w) = [] ->
  apply_search text w = show_animated_overlay "no matches found" w.
Proof. intros H. unfold apply_search. by rewrite H. Qed.

Lemma search_from_unfiltered w0 p text w :
  current w0 = Some p -> strip text <> "" ->
  unfiltered_like w0 w ->
  (matching (strip text) (all_image_files w0) = [] /\
     unfiltered_like w0 (run_command (Search text) w)) \/
  (matching (strip text) (all_image_files w0) <> [] /\
     filtered_from w0 p (run_command (Search text) w)).
Proof.
  intros Hc Ht (Hf & Hi & Hx & Ha). unfold run_command, _open_text_input.
  change (is_search_filtered (set_mode SEARCH w)) with (is_search_filtered w).
  change (image_files (set_mode SEARCH w)) with (image_files w).
  change (current_index (set_mode SEARCH w)) with (current_index w).
  rewrite Hf, Hi, Hx. unfold current in Hc. rewrite Hc.
  assert (bool_decide (image_files w0 = []) = false) as ->.
  { apply bool_decide_eq_false. intros E. rewrite E in Hc. unfold py_get in Hc.
    by destruct (norm_index _ _). }
  simpl negb. simpl andb. unfold _process_text_input. cbv zeta.
  change (mode (set_pre_search_path (Some p) (set_mode SEARCH w))) with SEARCH.
  cbv iota. rewrite bool_decide_eq_false_2 by done. unfold world_of.
  set (w1 := set_mode NORMAL _).
  destruct (matching (strip text) (all_image_files w0)) as [|m ms] eqn:E.
  - left. split; [done|]. rewrite apply_search_no_match by (subst w1; simpl; congruence).
    subst w1. by repeat split.
  - right. split; [done|].
    destruct (apply_search_filtered (strip text) w1) as (H1 & H2 & H3).
    { subst w1. simpl. rewrite Ha, E. done. }
    repeat split; [exact H1|by rewrite H2|by rewrite H3].
Qed.

Lemma search_from_filtered w0 p text w :
  strip text <> "" -> filtered_from w0 p w ->
  filtered_from w0 p (run_command (Search text) w).
Proof.
  intros Ht (Hf & Hp & Ha). unfold run_command, _open_text_input.
  change (is_search_filtered (set_mode SEARCH w)) with (is_search_filtered w).
  rewrite Hf. simpl negb. simpl andb. cbv iota.
  unfold _process_text_input. cbv zeta.
  change (mode (set_mode SEARCH w)) with SEARCH. cbv iota.
  rewrite bool_decide_eq_false_2 by done. unfold world_of.
  set (w1 := set_mode NORMAL _).
  destruct (matching (strip text) (all_image_files w1)) as [|m ms] eqn:E.
  - rewrite apply_search_no_match by done. subst w1. by repeat split.
  - destruct (apply_search_filtered (strip text) w1) as (H1 & H2 & H3); [by rewrite E|].
    repeat split; [exact H1|by rewrite H2|by rewrite H3].
Qed.

Lemma searches_from_filtered w0 p texts w :
  Forall (fun t => strip t <> "") texts -> filtered_from w0 p w ->
  filtered_from w0 p (run_commands (Search <$> texts) w).
Proof.
  intros Ht. revert w. induction Ht as [|t texts Hne _ IH]; intros w H; [done|].
  simpl. apply IH. by apply search_from_filtered.
Qed.

Lemma searches_from_unfiltered w0 p texts w :
  current w0 = Some p ->
  Forall (fun t => strip t <> "") texts ->
  Exists (fun t => matching (strip t) (all_image_files w0) <> []) texts ->
  unfiltered_like w0 w ->
  filtered_from w0 p (run_commands (Search <$> texts) w).
Proof.
  intros Hc Ht. revert w. induction Ht as [|t texts Hne Hts IH]; intros w Hex H.
  - by apply Exists_nil in Hex.
  - simpl. destruct (search_from_unfiltered w0 p t w Hc Hne H) as [[Hm Hu]|[Hm Hf]].
    + apply IH; [|done]. apply Exists_cons in Hex as [?|?]; done.
    + by apply searches_from_filtered.
Qed.

Lemma py_index_is_Some `{EqDecision A} (l : list A) x : x ∈ l -> is_Some (py_index l x).
Proof.
  induction l as [|y l IH]; [by intros ?%elem_of_nil|].
  intros H. simpl. destruct (decide (y = x)); [by eexists|].
  apply elem_of_cons in H as [->|H]; [done|].
  destruct (IH H) as [i ->]. by eexists.
Qed.

Lemma update_image_cursor_small w :
  (0 <= current_index w)%Z ->
  (image_files w <> [] -> (current_index w < Z.of_nat (length (image_files w)))%Z) ->
  current_index (_update_image w) = current_index w.
Proof.
  intros H0 H1. unfold _update_image. destruct (image_files w) eqn:E; [done|].
  specialize (H1 ltac:(done)). change (current_index (set_current_index ?z ?x)) with z.
  unfold clamp_index. lia.
Qed.

Lemma clear_from_filtered w0 p w :
  filtered_from w0 p w ->
  let w' := run_command (Search "") w in
  is_search_filtered w' = false /\
  all_image_files w' = all_image_files w0 /\
  image_files w' = all_image_files w0 /\
  current_index w' =
    match py_index (all_image_files w0) p with
    | Some i => Z.of_nat i
    | None => 0%Z
    end.
Proof.
  intros (Hf & Hp & Ha). cbv zeta. unfold run_command, _open_text_input.
  change (is_search_filtered (set_mode SEARCH w)) with (is_search_filtered w).
  rewrite Hf. simpl negb. simpl andb. cbv iota.
  unfold _process_text_input. cbv zeta.
  change (mode (set_mode SEARCH w)) with SEARCH. cbv iota.
  change (strip "") with "". rewrite bool_decide_eq_true_2 by done. unfold world_of.
  unfold _clear_search_filter.
  change (is_search_filtered (set_mode NORMAL (set_mode SEARCH w))) with (is_search_filtered w).
  rewrite Hf. simpl negb. cbv iota zeta.
  change (pre_search_path (set_is_search_filtered false
            (set_image_files (all_image_files (set_mode NORMAL (set_mode SEARCH w)))
               (set_mode NORMAL (set_mode SEARCH w))))) with (pre_search_path w).
  rewrite Hp.
  change (image_files (set_is_search_filtered false
            (set_image_files (all_image_files (set_mode NORMAL (set_mode SEARCH w)))
               (set_mode NORMAL (set_mode SEARCH w))))) with (all_image_files w).
  rewrite Ha.
  set (base := set_is_search_filtered false _).
  assert (Hbase : image_files base = all_image_files w0 /\ all_image_files base = all_image_files w0
                  /\ is_search_filtered base = false).
  { subst base. simpl. by rewrite Ha. }
  destruct Hbase as (Hb1 & Hb2 & Hb3).
  match goal with |- context [_rebuild_filmstrip_and_thumbnails ?x] => set (w2 := x) end.
  assert (H2 : image_files w2 = all_image_files w0 /\ all_image_files w2 = all_image_files w0 /\
               is_search_filtered w2 = false /\
               current_index w2 = match py_index (all_image_files w0) p with
                                  | Some i => Z.of_nat i | None => 0%Z end).
  { subst w2. destruct (py_in p (all_image_files w0)) eqn:Ein.
    - apply py_in_true in Ein. destruct (py_index_is_Some _ _ Ein) as [i Hi]. rewrite Hi.
      by repeat split.
    - apply py_in_false in Ein. rewrite (py_index_None _ _ Ein). by repeat split. }
  destruct H2 as (Hi2 & Ha2 & Hf2 & Hc2).
  destruct (rebuild_view w2) as (Hri & Hra & Hrc).
  destruct (rebuild_search w2) as (Hrf & _).
  change (is_search_filtered (show_animated_overlay ?t ?x)) with (is_search_filtered x).
  change (all_image_files (show_animated_overlay ?t ?x)) with (all_image_files x).
  change (image_files (show_animated_overlay ?t ?x)) with (image_files x).
  change (current_index (show_animated_overlay ?t ?x)) with (current_index x).
  rewrite Hrf, Hra, Hri, Hrc. repeat split; try congruence.
  rewrite update_image_cursor_small; [done| |].
  - rewrite Hc2. destruct (py_index _ _); lia.
  - rewrite Hc2, Hi2. intros Hne. destruct (py_index (all_image_files w0) p) as [i|] eqn:Ei.
    + apply py_index_lt in Ei. lia.
    + destruct (all_image_files w0); [done|]. simpl. lia.
Qed.

Lemma run_commands_app cs1 cs2 w :
  run_commands (cs1 ++ cs2) w = run_commands cs2 (run_commands cs1 w).
Proof. unfold run_commands. apply foldl_app. Qed.

(** C6 *)
Theorem clearing_the_filter_restores_the_position
  (w : World) (p : Path) (texts : list string) :
  is_search_filtered w = false ->
  current w = Some p ->
  Forall (fun t => strip t <> "") texts ->
  Exists (fun t => matching (strip t) (all_image_files w) <> []) texts ->
  let w' := run_commands ((Search <$> texts) ++ [Search ""]) w in
  is_search_filtered w' = false /\
  all_image_files w' = all_image_files w /\
  image_files w' = all_image_files w' /\
  current_index w' =
    match py_index (all_image_files w) p with
    | Some i => Z.of_nat i
    | None => 0%Z
    end /\
  (p ∈ all_image_files w -> current w' = Some p).
Proof.
  intros Hf Hc Ht Hex. cbv zeta. rewrite run_commands_app.
  change (run_commands [Search ""] ?x) with (run_command (Search "") x).
  assert (Hfil : filtered_from w p (run_commands (Search <$> texts) w)).
  { apply searches_from_unfiltered; done. }
  destruct (clear_from_filtered w p _ Hfil) as (H1 & H2 & H3 & H4).
  split; [exact H1|]. split; [exact H2|]. split; [congruence|]. split; [exact H4|].
  intros Hin. unfold current. rewrite H3, H4.
  destruct (py_index_is_Some _ _ Hin) as [i Hi]. rewrite Hi.
  apply py_get_nonneg; [lia|]. rewrite Nat2Z.id. by apply py_index_lookup.
Qed.

Lemma clearing_the_filter_restores_the_position_witness :
  let w' := run_commands ((Search <$> ["zzz"; " C "; "A"]) ++ [Search ""]) three_loaded in
  is_search_filtered w' = false /\
  all_image_files w' = all_image_files three_loaded /\
  image_files w' = all_image_files w' /\
  current_index w' =
    match py_index (all_image_files three_loaded) (joinpath pics "b.png") with
    | Some i => Z.of_nat i
    | None => 0%Z
    end /\
  (joinpath pics "b.png" ∈ all_image_files three_loaded ->
   current w' = Some (joinpath pics "b.png")).
Proof.
  apply (clearing_the_filter_restores_the_position three_loaded
           (joinpath pics "b.png") ["zzz"; " C "; "A"]).
  - compute_done.
  - compute_done.
  - compute_done.
  - compute_done.
Defined.

(** ** The thumbnail pipeline *)

(** C10: a preview for a path that is no longer in the view is applied
    all the same when the filmstrip map still has the path.  Three
    images are loaded, [a.png] is renamed to [z.png], a search narrows
    the view to [b.png] (the pipeline of the load is stopped and joined,
    a new one starts for [b.png]), and the rename is undone: row 0 of
    the view becomes [a.png], the item of that row is bound to [a.png],
    and the key [b.png] stays in the map.  When the worker then emits
    the preview of [b.png] and the signal is delivered, the icon is set
    on the item that now stands for [a.png], and the preview of [b.png]
    is stored in the cache. *)
Theorem stale_preview_is_applied_after_undo_of_rename :
  let a := ["home"; "pics"; "a.png"] in
  let b := ["home"; "pics"; "b.png"] in
  let c := ["home"; "pics"; "c.png"] in
  let w := undone_under_filter in
  let w1 := run_commands [WorkerTurn 1] w in
  let w2 := run_commands [Deliver] w1 in
  threads w
    = [ {| image_paths := [a; b; c]; is_running := false; position := 0; finished := true |};
        {| image_paths := [b]; is_running := true; position := 0; finished := false |} ] /\
  worker w = Some 1%nat /\
  image_files w = [a] /\
  all_image_files w = [a; b; c] /\
  (b ∉ image_files w) /\
  filmstrip w = [3%nat] /\
  filmstrip_item_map w !! a = Some 3%nat /\
  filmstrip_item_map w !! b = Some 3%nat /\
  items w !! 3%nat = Some {| user_data := a; icon := None |} /\
  thumb_cache w = ∅ /\
  queue w = [] /\
  queue w1 = [(b, 2%nat)] /\
  image_files w2 = [a] /\
  items w2 !! 3%nat = Some {| user_data := a; icon := Some 2%nat |} /\
  thumb_cache w2 !! b = Some 2%nat /\
  thumb_cache w2 !! a = None.
Proof. cbv zeta. compute_done. Qed.

(** ** The thumbnail pipeline: threads and items *)

Lemma worker_step_finished files t :
  finished t = true -> worker_step files t = (t, None).
Proof. intros H. unfold worker_step. by rewrite H. Qed.

Lemma run_turns_finished files t k :
  finished t = true -> run_turns files t k = (t, []).
Proof.
  intros H. induction k as [|k IH]; [done|].
  simpl. rewrite worker_step_finished by done. by rewrite IH.
Qed.

Lemma worker_step_stopped files t :
  is_running t = false ->
  exists t', worker_step files t = (t', None) /\ finished t' = true /\
             is_running t' = false /\ image_paths t' = image_paths t.
Proof.
  intros H. unfold worker_step. destruct (finished t) eqn:Ef.
  - by exists t.
  - destruct (image_paths t !! position t); rewrite ?H; by eexists.
Qed.

Lemma wait_stop files t :
  exists t', wait files (stop t) = (t', []) /\ finished t' = true /\
             is_running t' = false /\ image_paths t' = image_paths t.
Proof.
  unfold wait. simpl run_turns.
  destruct (worker_step_stopped files (stop t) eq_refl) as (t' & -> & Hf & Hr & Hp).
  rewrite run_turns_finished by done. by exists t'.
Qed.

Lemma stop_and_wait_threads w :
  one_live w ->
  Forall (fun t => finished t = true) (threads (stop_and_wait w)) /\
  length (threads (stop_and_wait w)) = length (threads w) /\
  queue (stop_and_wait w) = queue w /\
  worker (stop_and_wait w) = worker w.
Proof.
  intros Hl. unfold stop_and_wait.
  assert (Hrest : forall i, (forall t, threads w !! i = Some t -> worker w <> Some i) ->
            forall t, threads w !! i = Some t -> finished t = true).
  { intros i Hne t Ht. destruct (finished t) eqn:E; [done|].
    exfalso. by eapply Hne, Hl. }
  destruct (worker w) as [i|] eqn:Ew.
  - destruct (threads w !! i) as [t|] eqn:Et.
    + destruct (wait_stop (fs w) t) as (t' & -> & Hf & _).
      simpl. rewrite length_insert, app_nil_r. repeat split; [|done].
      apply Forall_lookup. intros j tj Hj.
      destruct (decide (i = j)) as [<-|Hne].
      * rewrite list_lookup_insert_eq in Hj by (by eapply lookup_lt_Some). congruence.
      * rewrite list_lookup_insert_ne in Hj by done.
        eapply Hrest; [|exact Hj]. intros ? _. congruence.
    + repeat split; try done. apply Forall_lookup. intros j tj Hj.
      eapply Hrest; [|exact Hj]. intros ? ?. congruence.
  - repeat split; try done. apply Forall_lookup. intros j tj Hj.
    eapply Hrest; [|exact Hj]. intros ? ?. congruence.
Qed.

Lemma add_items_map paths w p :
  is_Some (filmstrip_item_map (foldl add_item w paths) !! p)
  <-> p ∈ paths \/ is_Some (filmstrip_item_map w !! p).
Proof.
  revert w. induction paths as [|q paths IH]; intros w.
  - simpl. split; [by right|]. intros [H|H]; [by apply elem_of_nil in H|done].
  - simpl foldl. rewrite IH. unfold add_item.
    change (filmstrip_item_map (set_filmstrip_item_map ?m ?x)) with m.
    rewrite elem_of_cons. destruct (decide (q = p)) as [->|Hne].
    + rewrite lookup_insert_eq. split; [by left; left|]. intros _. right. by eexists.
    + rewrite lookup_insert_ne by done. split.
      * intros [H|H]; [by left; right|by right].
      * intros [[H|H]|H]; [congruence|by left|by right].
Qed.

Lemma rebuild_pipeline w :
  one_live w ->
  let w' := _rebuild_filmstrip_and_thumbnails w in
  (forall i t, threads w' !! i = Some t -> (i < length (threads w))%nat ->
     finished t = true) /\
  queue w' = queue w /\
  thumb_cache w' = thumb_cache w /\
  (forall p, is_Some (filmstrip_item_map w' !! p) <-> p ∈ image_files w) /\
  (image_files w <> [] ->
     worker w' = Some (length (threads w)) /\
     threads w' !! length (threads w) = Some (new_worker (image_files w))) /\
  one_live w'.
Proof.
  intros Hl. cbv zeta. unfold _rebuild_filmstrip_and_thumbnails. cbv zeta.
  destruct (stop_and_wait_threads w Hl) as (Hfin & Hlen & Hq & Hw).
  destruct (stop_and_wait_view w) as (Hi & _ & _).
  assert (Hc : thumb_cache (stop_and_wait w) = thumb_cache w).
  { unfold stop_and_wait. destruct (worker w) as [i|]; [|done].
    destruct (threads w !! i) as [t|]; [|done]. by destruct (wait _ _). }
  set (w1 := stop_and_wait w) in *.
  assert (Hitems : forall p,
            is_Some (filmstrip_item_map
                       (foldl add_item (set_filmstrip_item_map ∅ (set_filmstrip [] w1))
                          (image_files w1)) !! p) <-> p ∈ image_files w).
  { intros p. rewrite add_items_map, Hi.
    change (filmstrip_item_map (set_filmstrip_item_map ∅ ?x)) with (∅ : gmap Path nat).
    rewrite lookup_empty. split; [intros [H|[? H]]; done|by left]. }
  destruct (add_items_frame (image_files w1)
              (set_filmstrip_item_map ∅ (set_filmstrip [] w1)))
    as (Fi & _ & _ & _ & Ft & Fq & Fw & _ & Fc & _).
  change (image_files (set_filmstrip_item_map ∅ (set_filmstrip [] w1)))
    with (image_files w1) in Fi.
  change (threads (set_filmstrip_item_map ∅ (set_filmstrip [] w1)))
    with (threads w1) in Ft.
  change (queue (set_filmstrip_item_map ∅ (set_filmstrip [] w1)))
    with (queue w1) in Fq.
  change (worker (set_filmstrip_item_map ∅ (set_filmstrip [] w1)))
    with (worker w1) in Fw.
  change (thumb_cache (set_filmstrip_item_map ∅ (set_filmstrip [] w1)))
    with (thumb_cache w1) in Fc.
  set (w2 := foldl add_item _ (image_files w1)) in *. clearbody w2.
  destruct (update_image_eq w2) as [z ->].
  change (image_files (set_current_index z w2)) with (image_files w2).
  rewrite Fi, Hi.
  unfold one_live.
  destruct (image_files w) as [|a l] eqn:E.
  - change (threads (set_current_index z w2)) with (threads w2).
    change (queue (set_current_index z w2)) with (queue w2).
    change (thumb_cache (set_current_index z w2)) with (thumb_cache w2).
    change (filmstrip_item_map (set_current_index z w2)) with (filmstrip_item_map w2).
    rewrite Ft, Fq, Fc, Hq, Hc.
    split; [intros i t Ht _; by eapply (proj1 (Forall_lookup _ _) Hfin)|].
    split; [done|]. split; [done|]. split; [exact Hitems|]. split; [done|].
    intros i t Ht Hf.
    rewrite (proj1 (Forall_lookup _ _) Hfin i t Ht) in Hf. done.
  - change (threads (set_worker ?a (set_threads ?b ?x))) with b.
    change (worker (set_worker ?a (set_threads ?b ?x))) with a.
    change (queue (set_worker ?a (set_threads ?b (set_current_index z w2))))
      with (queue w2).
    change (thumb_cache (set_worker ?a (set_threads ?b (set_current_index z w2))))
      with (thumb_cache w2).
    change (filmstrip_item_map (set_worker ?a (set_threads ?b (set_current_index z w2))))
      with (filmstrip_item_map w2).
    change (threads (set_current_index z w2)) with (threads w2).
    change (image_files (set_current_index z w2)) with (image_files w2).
    rewrite Ft, Fq, Fc, Hq, Hc, Hlen.
    split.
    { intros i t Ht Hlt. rewrite lookup_app_l in Ht by lia.
      by eapply (proj1 (Forall_lookup _ _) Hfin). }
    split; [done|]. split; [done|]. split; [exact Hitems|]. split.
    { intros _. split; [done|].
      rewrite <- Hlen. rewrite lookup_app_r by lia. by rewrite Nat.sub_diag. }
    intros i t Ht Hf.
    destruct (decide (i < length (threads w1))%nat) as [Hlt|Hge].
    + rewrite lookup_app_l in Ht by done.
      rewrite (proj1 (Forall_lookup _ _) Hfin i t Ht) in Hf. done.
    + apply lookup_lt_Some in Ht as Hb. rewrite length_app in Hb. simpl in Hb.
      f_equal. lia.
Qed.

Lemma thread_turn_one_live i w : one_live w -> one_live (thread_turn i w).
Proof.
  intros Hl. unfold thread_turn. destruct (threads w !! i) as [t|] eqn:Et; [|done].
  destruct (worker_step (fs w) t) as [t' ev] eqn:Es.
  intros j tj Hj Hf. simpl in *.
  destruct (decide (i = j)) as [<-|Hne].
  - rewrite list_lookup_insert_eq in Hj by (by eapply lookup_lt_Some).
    injection Hj as <-. apply (Hl i t Et).
    destruct (finished t) eqn:E; [|done].
    rewrite worker_step_finished in Es by done. congruence.
  - rewrite list_lookup_insert_ne in Hj by done. by eapply Hl.
Qed.

Lemma apply_thumbnail_absent p pix w :
  filmstrip_item_map w !! p = None -> _apply_thumbnail p pix w = w.
Proof. intros H. unfold _apply_thumbnail. by rewrite H. Qed.

Lemma deliver_one_live w : one_live w -> one_live (deliver w).
Proof.
  intros Hl. unfold deliver. destruct (queue w) as [|[p pix] q]; [done|].
  unfold _apply_thumbnail. simpl. by destruct (filmstrip_item_map w !! p).
Qed.

Lemma one_live_check_sound w : one_live_check w = true -> one_live w.
Proof.
  unfold one_live_check, one_live. intros H i t Ht Hf.
  rewrite forallb_forall in H.
  specialize (H (i, t)). simpl in H. rewrite Hf in H. simpl in H.
  eapply bool_decide_eq_true_1. apply H. apply list_elem_of_In, elem_of_lookup_imap.
  exists i, t. split; [reflexivity|exact Ht].
Qed.

(** ** The order of paths *)

Section lex.
Context {A : Type} (cmp : A -> A -> comparison).
Hypothesis cmp_eq : forall a b, cmp a b = Eq <-> a = b.
Hypothesis cmp_antisym : forall a b, cmp a b = CompOpp (cmp b a).
Hypothesis cmp_lt_trans : forall a b c, cmp a b = Lt -> cmp b c = Lt -> cmp a c = Lt.

Lemma lex_cmp_eq x y : lex_cmp cmp x y = Eq <-> x = y.
Proof.
  revert y. induction x as [|a x IH]; intros [|b y]; simpl; try (split; congruence).
  destruct (cmp a b) eqn:E.
  - apply cmp_eq in E. subst b. rewrite IH. split; congruence.
  - split; [discriminate|]. intros [= -> _].
    assert (cmp b b = Eq) by (by apply cmp_eq). congruence.
  - split; [discriminate|]. intros [= -> _].
    assert (cmp b b = Eq) by (by apply cmp_eq). congruence.
Qed.

Lemma lex_cmp_antisym x y : lex_cmp cmp x y = CompOpp (lex_cmp cmp y x).
Proof.
  revert y. induction x as [|a x IH]; intros [|b y]; simpl; try done.
  rewrite (cmp_antisym a b). destruct (cmp b a); simpl; auto.
Qed.

Lemma lex_cmp_lt_trans x y z :
  lex_cmp cmp x y = Lt -> lex_cmp cmp y z = Lt -> lex_cmp cmp x z = Lt.
Proof.
  revert y z. induction x as [|a x IH]; intros [|b y] [|c z]; simpl; try done.
  destruct (cmp a b) eqn:Eab; try done.
  - apply cmp_eq in Eab. subst b.
    destruct (cmp a c); try done. apply IH.
  - intros _. destruct (cmp b c) eqn:Ebc; try done.
    + apply cmp_eq in Ebc. subst c. by rewrite Eab.
    + intros _. by rewrite (cmp_lt_trans a b c).
Qed.
End lex.

Lemma ascii_cmp_eq a b : ascii_cmp a b = Eq <-> a = b.
Proof.
  unfold ascii_cmp. rewrite N.compare_eq_iff. split; [|by intros ->].
  intros H. apply (f_equal ascii_of_N) in H. by rewrite !ascii_N_embedding in H.
Qed.

Lemma ascii_cmp_antisym a b : ascii_cmp a b = CompOpp (ascii_cmp b a).
Proof. unfold ascii_cmp. apply N.compare_antisym. Qed.

Lemma ascii_cmp_lt_trans a b c :
  ascii_cmp a b = Lt -> ascii_cmp b c = Lt -> ascii_cmp a c = Lt.
Proof. unfold ascii_cmp. rewrite !N.compare_lt_iff. lia. Qed.

Lemma str_cmp_eq s t : str_cmp s t = Eq <-> s = t.
Proof.
  unfold str_cmp. rewrite (lex_cmp_eq _ ascii_cmp_eq). split; [|by intros ->].
  intros H. apply (f_equal string_of_list_ascii) in H.
  by rewrite !string_of_list_ascii_of_string in H.
Qed.

Lemma str_cmp_antisym s t : str_cmp s t = CompOpp (str_cmp t s).
Proof. apply (lex_cmp_antisym _ ascii_cmp_antisym). Qed.

Lemma str_cmp_lt_trans s t u :
  str_cmp s t = Lt -> str_cmp t u = Lt -> str_cmp s u = Lt.
Proof. apply (lex_cmp_lt_trans _ ascii_cmp_eq ascii_cmp_lt_trans). Qed.

Lemma path_cmp_eq p q : path_cmp p q = Eq <-> p = q.
Proof. apply (lex_cmp_eq _ str_cmp_eq). Qed.

Lemma path_cmp_antisym p q : path_cmp p q = CompOpp (path_cmp q p).
Proof. apply (lex_cmp_antisym _ str_cmp_antisym). Qed.

Lemma path_cmp_lt_trans p q r :
  path_cmp p q = Lt -> path_cmp q r = Lt -> path_cmp p r = Lt.
Proof. apply (lex_cmp_lt_trans _ str_cmp_eq str_cmp_lt_trans). Qed.

Global Instance path_le_total : Total path_le.
Proof.
  intros p q. unfold path_le. rewrite (path_cmp_antisym q p).
  destruct (path_cmp p q); simpl; auto.
Qed.

Global Instance path_le_trans : Transitive path_le.
Proof.
  intros p q r. unfold path_le.
  destruct (path_cmp p q) eqn:E1; [| |done].
  - apply path_cmp_eq in E1. by subst q.
  - destruct (path_cmp q r) eqn:E2; [| |done].
    + apply path_cmp_eq in E2. subst r. by rewrite E1.
    + by rewrite (path_cmp_lt_trans p q r).
Qed.

Global Instance path_le_antisym : AntiSymm (=) path_le.
Proof.
  intros p q. unfold path_le. rewrite (path_cmp_antisym q p).
  destruct (path_cmp p q) eqn:E; simpl; try done.
  intros _ _. by apply path_cmp_eq.
Qed.

(** ** The scan of a directory *)

Lemma elem_of_iterdir (files : FS) d p :
  p ∈ iterdir files d <-> is_Some (files !! p) /\ parent p = d /\ p <> [].
Proof.
  unfold iterdir. rewrite list_elem_of_fmap. split.
  - intros [[q n] [-> H]]. apply elem_of_map_to_list, map_lookup_filter_Some in H.
    destruct H as [H [Hp Hn]]. simpl in *. by split; [eexists|].
  - intros ([n Hn] & Hp & Hne). exists (p, n). split; [done|].
    apply elem_of_map_to_list, map_lookup_filter_Some. done.
Qed.

Lemma NoDup_iterdir (files : FS) d : NoDup (iterdir files d).
Proof. unfold iterdir. apply NoDup_fst_map_to_list. Qed.

Lemma iterdir_insert (files : FS) d n x :
  files !! joinpath d n = None ->
  iterdir (<[joinpath d n := x]> files) d ≡ₚ joinpath d n :: iterdir files d.
Proof.
  intros H. unfold iterdir.
  rewrite map_filter_insert_True
    by (simpl; split; [apply parent_joinpath|apply joinpath_not_nil]).
  rewrite map_to_list_insert; [done|].
  rewrite map_lookup_filter_None. by left.
Qed.

Lemma joinpath_neq d n : joinpath d n <> d.
Proof.
  unfold joinpath. intros H. apply (f_equal length) in H.
  rewrite length_app in H. simpl in H. lia.
Qed.

Lemma get_images_eq w d :
  directory w = Some d -> is_dir (fs w) d = true ->
  _get_images w
  = merge_sort path_le (filter (fun p => is_image_entry p = true) (iterdir (fs w) d)).
Proof. intros Hd Hi. unfold _get_images. by rewrite Hd, Hi. Qed.

Lemma trash_is_no_image d : is_image_entry (joinpath d ".vimview_trash") = false.
Proof. unfold is_image_entry, suffix. rewrite !name_joinpath. reflexivity. Qed.

(** X1: loading an existing directory whose trash name is not taken by a
    file returns, and the catalog is then exactly the entries directly
    in the directory (files and directories alike) whose lowered suffix
    is one of the six image suffixes and whose name does not start with
    a dot, each once, in ascending order of their paths; the view is the
    whole catalog. *)
Theorem load_scans_the_directory (d : Path) (i : Z) (w : World) :
  is_dir (fs w) d = true ->
  (forall c, fs w !! joinpath d ".vimview_trash" <> Some (File c)) ->
  exists w',
    load_directory d i w = Returned w' /\
    StronglySorted path_le (all_image_files w') /\
    NoDup (all_image_files w') /\
    (forall p, p ∈ all_image_files w' <->
       is_Some (fs w !! p) /\ parent p = d /\ p <> [] /\
       lower (suffix p) ∈ exts /\ startswith (name p) "." = false) /\
    image_files w' = all_image_files w'.
Proof.
  intros Hd Htrash. unfold load_directory. cbv zeta.
  set (trash := joinpath d ".vimview_trash").
  change (fs (set_trash_dir _ _)) with (fs w).
  assert (Hm : exists files',
    mkdir (fs w) trash = inr files' /\ is_dir files' d = true /\
    filter (fun p => is_image_entry p = true) (iterdir files' d)
      ≡ₚ filter (fun p => is_image_entry p = true) (iterdir (fs w) d)).
  { unfold mkdir. subst trash. rewrite node_at_joinpath, parent_joinpath.
    destruct (fs w !! joinpath d ".vimview_trash") as [[c|]|] eqn:E.
    - by destruct (Htrash c).
    - by exists (fs w).
    - unfold is_dir in Hd |- *. destruct (node_at (fs w) d) as [[?|]|] eqn:En; try done.
      eexists. split; [reflexivity|]. split.
      + unfold node_at in *. destruct d; [done|].
        rewrite lookup_insert_ne; [by rewrite En|]. apply joinpath_neq.
      + rewrite iterdir_insert by done. rewrite filter_cons_False; [done|].
        rewrite trash_is_no_image. done. }
  destruct Hm as (files' & -> & Hd' & Hperm).
  pose proof (get_images_eq
    (set_fs files' (set_trash_dir (Some trash) (set_pre_search_path None
       (set_is_search_filtered false (set_thumb_cache ∅ (set_undo_stack []
          (set_directory (Some d) w))))))) d eq_refl Hd') as Hg.
  change (fs (set_fs files' _)) with files' in Hg.
  set (imgs := _get_images _) in *. clearbody imgs.
  match goal with |- context [_rebuild_filmstrip_and_thumbnails ?x] =>
    destruct (rebuild_view x) as (Hri & Hra & _);
    assert (Hx : image_files x = imgs /\ all_image_files x = imgs)
      by (by destruct imgs) end.
  destruct Hx as [Hx1 Hx2].
  eexists. split; [reflexivity|]. rewrite Hri, Hra, Hx1, Hx2.
  assert (Hp : imgs ≡ₚ filter (fun p => is_image_entry p = true) (iterdir (fs w) d)).
  { rewrite Hg, merge_sort_Permutation. exact Hperm. }
  split; [rewrite Hg; apply StronglySorted_merge_sort; apply _|].
  split; [rewrite Hp; apply NoDup_filter, NoDup_iterdir|].
  split; [|done].
  intros p. rewrite Hp, list_elem_of_filter, elem_of_iterdir.
  unfold is_image_entry. rewrite andb_true_iff, bool_decide_eq_true, negb_true_iff.
  tauto.
Qed.

Lemma load_scans_the_directory_witness :
  exists w',
    load_directory pics 0 (initial_world scenario_fs) = Returned w' /\
    StronglySorted path_le (all_image_files w') /\
    NoDup (all_image_files w') /\
    (forall p, p ∈ all_image_files w' <->
       is_Some (scenario_fs !! p) /\ parent p = pics /\ p <> [] /\
       lower (suffix p) ∈ exts /\ startswith (name p) "." = false) /\
    image_files w' = all_image_files w'.
Proof.
  apply (load_scans_the_directory pics 0 (initial_world scenario_fs)).
  - vm_compute. reflexivity.
  - intros c. vm_compute. discriminate.
Defined.

(** ** A mutation followed at once by undo *)

Lemma fs_move_back (files : FS) a b c :
  files !! a = Some (File c) -> files !! b = None ->
  <[a := File c]> (delete b (<[b := File c]> (delete a files))) = files.
Proof.
  intros Ha Hb. assert (a <> b) by congruence.
  rewrite delete_insert_id by (by rewrite lookup_delete_ne).
  by apply insert_delete_id.
Qed.

Lemma is_dir_after_move (files : FS) a b c d :
  files !! a = Some (File c) -> is_dir files d = true ->
  is_dir (<[b := File c]> (delete a files)) d = true \/ d = b.
Proof.
  intros Ha Hd. destruct (decide (d = b)) as [->|Hne]; [by right|left].
  unfold is_dir, node_at in *. destruct d as [|x d]; [done|].
  rewrite lookup_insert_ne by done.
  destruct (decide (a = x :: d)) as [->|Hna]; [by rewrite Ha in Hd|].
  by rewrite lookup_delete_ne.
Qed.

Lemma py_index_insert_fresh `{EqDecision A} (l : list A) x y idx :
  py_index l x = Some idx -> y ∉ l -> py_index (<[idx := y]> l) y = Some idx.
Proof.
  revert idx. induction l as [|z l IH]; intros idx; simpl; [done|].
  intros H Hy. apply not_elem_of_cons in Hy as [Hyz Hyl].
  destruct (decide (z = x)) as [->|Hzx].
  - injection H as <-. simpl. by rewrite decide_True.
  - destruct (py_index l x) as [j|] eqn:E; [|done]. injection H as <-.
    simpl. rewrite decide_False by done. by rewrite (IH j).
Qed.

Lemma revert_rename_result old new index w l item :
  py_set (image_files w) index old = Some l ->
  filmstrip_item w index = Some item ->
  exists w',
    revert_rename old new index w = Returned w' /\
    fs w' = fs w /\
    image_files w' = l /\
    all_image_files w' =
      match py_index (all_image_files w) new with
      | Some m => <[m := old]> (all_image_files w)
      | None => all_image_files w
      end /\
    ((0 <= current_index w < Z.of_nat (length l))%Z -> current_index w' = current_index w) /\
    undo_stack w' = undo_stack w /\
    filmstrip w' = filmstrip w /\
    filmstrip_item_map w' = <[old := item]> (delete new (filmstrip_item_map w)) /\
    items w' = alter (fun it => {| user_data := old; icon := icon it |}) item (items w) /\
    thumb_cache w' =
      match thumb_cache w !! new with
      | Some pix => <[old := pix]> (delete new (thumb_cache w))
      | None => thumb_cache w
      end.
Proof.
  intros Hl Hrow. unfold revert_rename. rewrite Hl. cbv zeta.
  set (w1 := set_image_files l w).
  change (all_image_files w1) with (all_image_files w).
  set (all' := match py_index (all_image_files w) new with
               | Some m => <[m := old]> (all_image_files w)
               | None => all_image_files w
               end).
  assert (H2 : (if py_in new (all_image_files w) then
                  match py_index (all_image_files w) new with
                  | Some m => set_all_image_files (<[m := old]> (all_image_files w)) w1
                  | None => w1
                  end
                else w1) = set_all_image_files all' w1).
  { subst all'. destruct (py_in new (all_image_files w)) eqn:Ein.
    - by destruct (py_index (all_image_files w) new).
    - apply py_in_false in Ein. by rewrite (py_index_None _ _ Ein). }
  rewrite H2. clear H2. set (w2 := set_all_image_files all' w1).
  change (filmstrip_item w2 index) with (filmstrip_item w index). rewrite Hrow.
  change (thumb_cache (set_filmstrip_item_map ?m (setData ?r ?p w2)))
    with (thumb_cache w).
  match goal with |- context [_update_image ?x] => set (w4 := x) end.
  assert (H4 : image_files w4 = l /\ current_index w4 = current_index w).
  { subst w4. by destruct (thumb_cache w !! new). }
  destruct H4 as [H4 H5].
  destruct (update_image_eq w4) as [z Hz].
  eexists. split; [reflexivity|].
  unfold show_animated_overlay.
  change (fs (set_notes ?n ?x)) with (fs x).
  change (image_files (set_notes ?n ?x)) with (image_files x).
  change (all_image_files (set_notes ?n ?x)) with (all_image_files x).
  change (current_index (set_notes ?n ?x)) with (current_index x).
  change (undo_stack (set_notes ?n ?x)) with (undo_stack x).
  change (filmstrip (set_notes ?n ?x)) with (filmstrip x).
  change (filmstrip_item_map (set_notes ?n ?x)) with (filmstrip_item_map x).
  change (items (set_notes ?n ?x)) with (items x).
  change (thumb_cache (set_notes ?n ?x)) with (thumb_cache x).
  split; [rewrite Hz; subst w4; by destruct (thumb_cache w !! new)|].
  split; [by rewrite update_image_files|].
  split; [rewrite update_image_all; subst w4; by destruct (thumb_cache w !! new)|].
  split.
  { intros Hr. rewrite update_image_in_range; [done|]. by rewrite H4, H5. }
  rewrite Hz. subst w4. destruct (thumb_cache w !! new); repeat split; reflexivity.
Qed.

(** X2: rename, then undo: the catalog, the view, the cursor, the undo
    stack, the filesystem and the filmstrip are as before. *)
Theorem rename_then_undo (w : World) (new_name : string) (img : Path) (c : content) :
  (0 <= current_index w)%Z ->
  image_files w !! Z.to_nat (current_index w) = Some img ->
  is_Some (filmstrip w !! Z.to_nat (current_index w)) ->
  fs_wf (fs w) ->
  fs w !! img = Some (File c) ->
  ".." ∉ rename_target new_name img ->
  is_dir (fs w) (parent (rename_target new_name img)) = true ->
  exists_ (fs w) (rename_target new_name img) = false ->
  rename_target new_name img ∉ all_image_files w ->
  exists w1,
    _rename_current_file new_name w = Returned w1 /\
    undo_stack w1
      = undo_stack w ++ [rename_inplace img (rename_target new_name img) (current_index w)] /\
    let w2 := _undo_last_action w1 in
    fs w2 = fs w /\
    all_image_files w2 = all_image_files w /\
    image_files w2 = image_files w /\
    current_index w2 = current_index w /\
    undo_stack w2 = undo_stack w /\
    filmstrip w2 = filmstrip w.
Proof.
  intros Hi Himg [item Hrow] Hwf Hf _ Hdn He Hfresh.
  destruct (Hwf _ _ Hf) as [Himg_ne Hd].
  destruct (rename_result w new_name img c item Hi Himg Hrow Hf Hdn He)
    as (w1 & Hr & H1 & H2 & H3 & H4 & H5 & H6 & _).
  exists w1. split; [exact Hr|]. split; [exact H5|]. cbv zeta.
  assert (Hnew : fs w !! rename_target new_name img = None).
  { revert He. generalize (rename_target new_name img). intros q He.
    unfold exists_, node_at in He. destruct q as [|x q]; [done|].
    by destruct (fs w !! (x :: q)). }
  set (new_path := rename_target new_name img) in *.
  assert (Hne : img <> new_path) by congruence.
  unfold _undo_last_action. rewrite H5, pop_last_snoc. cbv zeta.
  change (fs (set_undo_stack (undo_stack w) w1)) with (fs w1).
  unfold reversal.
  assert (Hback : os_rename (fs w1) new_path img = inr (fs w)).
  { rewrite (os_rename_file _ _ _ c).
    - rewrite H1. by rewrite fs_move_back.
    - rewrite H1. by rewrite lookup_insert_eq.
    - rewrite H1.
      destruct (is_dir_after_move (fs w) img new_path c _ Hf Hd) as [Hok|Hp]; [exact Hok|].
      exfalso. rewrite Hp in Hd. unfold is_dir, exists_ in *.
      by destruct (node_at (fs w) new_path) as [[|]|].
    - rewrite H1. unfold exists_, node_at. destruct img as [|x img]; [done|].
      rewrite lookup_insert_ne by done. by rewrite lookup_delete_eq. }
  rewrite Hback.
  set (w1' := set_fs (fs w) (set_undo_stack (undo_stack w) w1)).
  assert (Hset : py_set (image_files w1') (current_index w) img = Some (image_files w)).
  { change (image_files w1') with (image_files w1). rewrite H2.
    rewrite (py_set_nonneg _ _ new_path);
      [|done|rewrite list_lookup_insert_eq; [done|by eapply lookup_lt_Some]].
    rewrite list_insert_insert_eq. by rewrite list_insert_id. }
  assert (Hrow' : filmstrip_item w1' (current_index w) = Some item).
  { unfold filmstrip_item. change (filmstrip w1') with (filmstrip w1). rewrite H6.
    by rewrite (proj2 (Z.leb_le 0 (current_index w)) Hi). }
  destruct (revert_rename_result img new_path (current_index w) w1' _ item Hset Hrow')
    as (w2 & -> & G1 & G2 & G3 & G4 & G5 & G6 & _).
  split; [exact G1|]. split; [|split; [exact G2|split; [|split; [exact G5|]]]].
  - rewrite G3. change (all_image_files w1') with (all_image_files w1). rewrite H3.
    destruct (py_index (all_image_files w) img) as [idx|] eqn:Eidx.
    + rewrite (py_index_insert_fresh _ img new_path idx Eidx Hfresh).
      rewrite list_insert_insert_eq. apply list_insert_id. by apply py_index_lookup.
    + by rewrite (py_index_None _ _ Hfresh).
  - change (current_index w1') with (current_index w1) in G4. rewrite G4; [exact H4|].
    rewrite H4. apply lookup_lt_Some in Himg. lia.
  - rewrite G6. change (filmstrip w1') with (filmstrip w1). exact H6.
Qed.

Lemma py_pop_nonneg {A} (l : list A) i x :
  (0 <= i)%Z -> l !! Z.to_nat i = Some x -> py_pop l i = Some (x, delete (Z.to_nat i) l).
Proof.
  intros Hi Hx. unfold py_pop. rewrite norm_index_nonneg; [by rewrite Hx|].
  apply lookup_lt_Some in Hx. lia.
Qed.

Lemma py_insert_delete {A} (l : list A) i x :
  (0 <= i)%Z -> l !! Z.to_nat i = Some x -> py_insert (delete (Z.to_nat i) l) i x = l.
Proof.
  intros Hi Hx. unfold py_insert. apply lookup_lt_Some in Hx as Hlt.
  assert (Hlen : length (delete (Z.to_nat i) l) = (length l - 1)%nat).
  { rewrite length_delete by eauto. lia. }
  replace (i <? 0)%Z with false by (symmetry; apply Z.ltb_ge; lia).
  rewrite Hlen. replace (Z.to_nat (Z.min i (Z.of_nat (length l - 1)))) with (Z.to_nat i) by lia.
  rewrite delete_take_drop.
  rewrite take_app_le by (rewrite length_take; lia).
  rewrite take_take, Nat.min_id.
  rewrite drop_app_ge by (rewrite length_take; lia).
  rewrite length_take, Nat.min_l by lia. rewrite Nat.sub_diag. simpl.
  by apply take_drop_middle.
Qed.

Lemma py_remove_NoDup `{EqDecision A} (l : list A) x : NoDup l -> x ∉ py_remove l x.
Proof.
  induction 1 as [|y l Hy Hnd IH]; simpl; [by intros ?%elem_of_nil|].
  destruct (decide (y = x)) as [->|Hne]; [done|].
  intros [?|?]%elem_of_cons; [congruence|by apply IH].
Qed.

Lemma restore_entry_result old index w :
  let w' := restore_entry old index w in
  fs w' = fs w /\
  image_files w' = py_insert (image_files w) index old /\
  all_image_files w' =
    (if py_in old (all_image_files w) then all_image_files w
     else all_image_files w ++ [old]) /\
  current_index w'
    = clamp_index index (Z.of_nat (length (py_insert (image_files w) index old))) /\
  undo_stack w' = undo_stack w.
Proof.
  cbv zeta. unfold restore_entry. cbv zeta.
  match goal with |- context [_update_image ?x] => set (w3 := x) end.
  assert (H3 : fs w3 = fs w /\ image_files w3 = py_insert (image_files w) index old /\
               all_image_files w3 =
                 (if py_in old (all_image_files w) then all_image_files w
                  else all_image_files w ++ [old]) /\
               current_index w3 = index /\ undo_stack w3 = undo_stack w).
  { subst w3.
    change (all_image_files (set_image_files ?l w)) with (all_image_files w).
    destruct (py_in old (all_image_files w)); simpl negb; cbv iota;
      destruct (thumb_cache _ !! old); try done;
      destruct (read_scaled _ old); done. }
  clearbody w3. destruct H3 as (H1 & H2 & H4 & H5 & H6).
  unfold show_animated_overlay.
  change (fs (set_notes ?n ?x)) with (fs x).
  change (image_files (set_notes ?n ?x)) with (image_files x).
  change (all_image_files (set_notes ?n ?x)) with (all_image_files x).
  change (current_index (set_notes ?n ?x)) with (current_index x).
  change (undo_stack (set_notes ?n ?x)) with (undo_stack x).
  rewrite update_image_files, update_image_all.
  destruct (update_image_eq w3) as [z Hz].
  split; [by rewrite Hz|]. split; [done|]. split; [done|].
  split; [|by rewrite Hz].
  unfold _update_image. rewrite H2.
  destruct (py_insert (image_files w) index old) eqn:E.
  - unfold py_insert in E. by apply app_nil in E as [_ ?].
  - change (current_index (set_current_index ?a ?x)) with a. by rewrite H5.
Qed.

Lemma removal_then_undo txt (w : World) (img dest : Path) (c : content) (entry : action) :
  entry = move img dest (current_index w) \/ entry = delete_ img dest (current_index w) ->
  (0 <= current_index w)%Z ->
  image_files w !! Z.to_nat (current_index w) = Some img ->
  img <> [] ->
  fs w !! img = Some (File c) ->
  is_dir (fs w) (parent img) = true ->
  is_dir (fs w) (parent dest) = true ->
  exists_ (fs w) dest = false ->
  NoDup (all_image_files w) ->
  img ∈ all_image_files w ->
  exists w1,
    move_and_record txt img dest entry w = Returned w1 /\
    fs w1 = <[dest := File c]> (delete img (fs w)) /\
    image_files w1 = delete (Z.to_nat (current_index w)) (image_files w) /\
    all_image_files w1 = py_remove (all_image_files w) img /\
    let w2 := _undo_last_action w1 in
    fs w2 = fs w /\
    image_files w2 = image_files w /\
    current_index w2 = current_index w /\
    undo_stack w2 = undo_stack w /\
    all_image_files w2 = py_remove (all_image_files w) img ++ [img].
Proof.
  intros Hentry Hi Himg Hnil Hf Hd Hdd He Hnd Hin.
  assert (Hdest : fs w !! dest = None /\ dest <> img).
  { unfold exists_, node_at in He. destruct dest; [done|].
    destruct (fs w !! (s :: dest)) eqn:E; [done|]. split; [done|]. congruence. }
  destruct Hdest as [Hdn Hne].
  unfold move_and_record. rewrite (shutil_move_file _ _ _ c Hf Hdd He). cbv zeta.
  unfold _remove_item_from_view.
  change (image_files (set_undo_stack ?u (set_fs ?f w))) with (image_files w).
  change (current_index (set_undo_stack ?u (set_fs ?f w))) with (current_index w).
  rewrite (py_pop_nonneg _ _ _ Hi Himg). cbv zeta.
  change (all_image_files (set_image_files ?l (set_undo_stack ?u (set_fs ?f w))))
    with (all_image_files w).
  rewrite (proj2 (py_in_true img (all_image_files w)) Hin).
  match goal with |- context [_update_image ?x] =>
    destruct (update_image_eq x) as [z ->] end.
  eexists. split; [reflexivity|]. split; [reflexivity|]. split; [reflexivity|].
  split; [reflexivity|]. cbv zeta.
  unfold _undo_last_action.
  change (undo_stack (set_current_index z ?x)) with (undo_stack w ++ [entry]).
  rewrite pop_last_snoc. cbv zeta.
  change (fs (set_undo_stack (undo_stack w) (set_current_index z ?x)))
    with (<[dest := File c]> (delete img (fs w))).
  assert (Hback : reversal entry (<[dest := File c]> (delete img (fs w))) = inr (fs w)).
  { assert (Hmv : shutil_move (<[dest := File c]> (delete img (fs w))) dest img = inr (fs w)).
    { rewrite (shutil_move_file _ _ _ c).
      - by rewrite fs_move_back.
      - by rewrite lookup_insert_eq.
      - destruct (is_dir_after_move (fs w) img dest c _ Hf Hd) as [Hok|Hp]; [exact Hok|].
        exfalso. unfold is_dir in Hd. rewrite Hp in Hd. unfold exists_ in He.
        by destruct (node_at (fs w) dest).
      - unfold exists_, node_at. destruct img as [|x img]; [done|].
        rewrite lookup_insert_ne by done. by rewrite lookup_delete_eq. }
    by destruct Hentry as [-> | ->]. }
  rewrite Hback.
  match goal with |- context [set_fs (fs w) ?x] => set (wr := set_fs (fs w) x) end.
  assert (Hmatch :
    match entry with
    | rename_inplace old_path new_path index =>
        match revert_rename old_path new_path index wr with
        | Returned w1 => w1
        | Raised e w1 => print_failure "undo failed" e w1
        end
    | move old_path _ index | delete_ old_path _ index => restore_entry old_path index wr
    end = restore_entry img (current_index w) wr)
    by (by destruct Hentry as [-> | ->]).
  rewrite Hmatch. clear Hmatch.
  assert (Hres := restore_entry_result img (current_index w) wr).
  cbv zeta in Hres. destruct Hres as (R1 & R2 & R3 & R4 & R5).
  assert (Hgoal : fs (restore_entry img (current_index w) wr) = fs w /\
    image_files (restore_entry img (current_index w) wr) = image_files w /\
    current_index (restore_entry img (current_index w) wr) = current_index w /\
    undo_stack (restore_entry img (current_index w) wr) = undo_stack w /\
    all_image_files (restore_entry img (current_index w) wr)
      = py_remove (all_image_files w) img ++ [img]).
  { rewrite R1, R2, R3, R4, R5. subst wr. simpl.
    rewrite (py_insert_delete _ _ _ Hi Himg).
    rewrite (proj2 (py_in_false img (py_remove (all_image_files w) img)))
      by (by apply py_remove_NoDup).
    repeat split. unfold clamp_index. apply lookup_lt_Some in Himg. lia. }
  exact Hgoal.
Qed.

Lemma parent_free_path (files : FS) folder img : parent (free_path files folder img) = folder.
Proof.
  unfold free_path. destruct (exists_ files (joinpath folder (name img))) eqn:E.
  - apply exists_joinpath in E.
    destruct (free_path_spec files folder img E) as (n & _ & Hn & _).
    unfold free_path in Hn. apply exists_joinpath in E. rewrite E in Hn. rewrite Hn.
    apply parent_joinpath.
  - apply parent_joinpath.
Qed.

(** X3: delete, then undo: the file is back under its name, and the view, the
    cursor and the undo stack are as before; in [all_image_files] the path
    now comes last. *)
Theorem delete_then_undo (w : World) (img trash : Path) (c : content) :
  (0 <= current_index w)%Z ->
  image_files w !! Z.to_nat (current_index w) = Some img ->
  img <> [] ->
  fs w !! img = Some (File c) ->
  is_dir (fs w) (parent img) = true ->
  trash_dir w = Some trash ->
  is_dir (fs w) trash = true ->
  NoDup (all_image_files w) ->
  img ∈ all_image_files w ->
  exists w1,
    _delete_current w = Returned w1 /\
    fs w1 = <[free_path (fs w) trash img := File c]> (delete img (fs w)) /\
    image_files w1 = delete (Z.to_nat (current_index w)) (image_files w) /\
    all_image_files w1 = py_remove (all_image_files w) img /\
    let w2 := _undo_last_action w1 in
    fs w2 = fs w /\
    image_files w2 = image_files w /\
    current_index w2 = current_index w /\
    undo_stack w2 = undo_stack w /\
    all_image_files w2 = py_remove (all_image_files w) img ++ [img].
Proof.
  intros Hi Himg Hnil Hf Hd Ht Htd Hnd Hin.
  unfold _delete_current. rewrite (py_get_nonneg _ _ _ Hi Himg), Ht.
  apply (removal_then_undo "failed to trash" w img (free_path (fs w) trash img) c); try done.
  - by right.
  - by rewrite parent_free_path.
  - apply free_path_free.
Qed.

Lemma mkdir_parents_from_keeps (files files' : FS) base rest p n :
  mkdir_parents_from files base rest = inr files' ->
  files !! p = Some n -> files' !! p = Some n.
Proof.
  revert files base. induction rest as [|x rest IH]; intros files base; simpl.
  - by intros [= <-].
  - destruct (node_at files (joinpath base x)) as [[?|]|] eqn:E; [done| |].
    + apply IH.
    + intros H Hp. eapply IH; [exact H|].
      rewrite node_at_joinpath in E.
      rewrite lookup_insert_ne; [done|congruence].
Qed.

Lemma mkdir_parents_from_dir (files files' : FS) base rest :
  is_dir files base = true ->
  mkdir_parents_from files base rest = inr files' ->
  is_dir files' (base ++ rest) = true.
Proof.
  revert files base. induction rest as [|x rest IH]; intros files base Hb; simpl.
  - intros [= <-]. by rewrite app_nil_r.
  - assert (Happ : base ++ x :: rest = joinpath base x ++ rest)
      by (unfold joinpath; by rewrite <- app_assoc).
    rewrite Happ.
    destruct (node_at files (joinpath base x)) as [[?|]|] eqn:E; [done| |].
    + apply IH. unfold is_dir. by rewrite E.
    + apply IH. unfold is_dir. rewrite node_at_joinpath. by rewrite lookup_insert_eq.
Qed.

Lemma is_dir_keeps (files files' : FS) d :
  (forall p n, files !! p = Some n -> files' !! p = Some n) ->
  is_dir files d = true -> is_dir files' d = true.
Proof.
  intros Hk. unfold is_dir, node_at. destruct d as [|x d]; [done|].
  destruct (files !! (x :: d)) as [[?|]|] eqn:E; try done.
  by rewrite (Hk _ _ E).
Qed.

(** X4: move to a folder, then undo: as for delete; the folders made for the
    move stay. *)
Theorem move_then_undo (w : World) (img target : Path) (c : content) (files1 : FS) :
  (0 <= current_index w)%Z ->
  image_files w !! Z.to_nat (current_index w) = Some img ->
  img <> [] ->
  fs w !! img = Some (File c) ->
  is_dir (fs w) (parent img) = true ->
  mkdir_parents (fs w) target = inr files1 ->
  NoDup (all_image_files w) ->
  img ∈ all_image_files w ->
  exists w1,
    _move_to_target target w = Returned w1 /\
    fs w1 = <[free_path files1 target img := File c]> (delete img files1) /\
    image_files w1 = delete (Z.to_nat (current_index w)) (image_files w) /\
    all_image_files w1 = py_remove (all_image_files w) img /\
    let w2 := _undo_last_action w1 in
    fs w2 = files1 /\
    image_files w2 = image_files w /\
    current_index w2 = current_index w /\
    undo_stack w2 = undo_stack w /\
    all_image_files w2 = py_remove (all_image_files w) img ++ [img].
Proof.
  intros Hi Himg Hnil Hf Hd Hm Hnd Hin.
  unfold _move_to_target. rewrite (py_get_nonneg _ _ _ Hi Himg), Hm. cbv zeta.
  change (fs (set_fs files1 w)) with files1.
  change (current_index (set_fs files1 w)) with (current_index w).
  assert (Hk : forall p n, fs w !! p = Some n -> files1 !! p = Some n).
  { intros p n. by apply (mkdir_parents_from_keeps _ _ [] target). }
  apply (removal_then_undo "failed to move" (set_fs files1 w) img
           (free_path files1 target img) c); try done.
  - by left.
  - by apply Hk.
  - by apply (is_dir_keeps (fs w)).
  - rewrite parent_free_path. by apply (mkdir_parents_from_dir (fs w) _ [] target).
  - apply free_path_free.
Qed.

Lemma rename_then_undo_witness :
  exists w1,
    _rename_current_file "keep/z" collision_loaded = Returned w1 /\
    undo_stack w1
      = undo_stack collision_loaded
          ++ [rename_inplace (joinpath pics "a.png")
                (rename_target "keep/z" (joinpath pics "a.png"))
                (current_index collision_loaded)] /\
    let w2 := _undo_last_action w1 in
    fs w2 = fs collision_loaded /\
    all_image_files w2 = all_image_files collision_loaded /\
    image_files w2 = image_files collision_loaded /\
    current_index w2 = current_index collision_loaded /\
    undo_stack w2 = undo_stack collision_loaded /\
    filmstrip w2 = filmstrip collision_loaded.
Proof.
  apply (rename_then_undo collision_loaded "keep/z" (joinpath pics "a.png")
           {| file_id := 1; decoded := Some 1 |}); compute_done.
Defined.

Lemma delete_then_undo_witness :
  let w := scenario_loaded in
  let img := joinpath pics "a.png" in
  let trash := joinpath pics ".vimview_trash" in
  exists w1,
    _delete_current w = Returned w1 /\
    fs w1 = <[free_path (fs w) trash img := image_file 1]> (delete img (fs w)) /\
    image_files w1 = delete (Z.to_nat (current_index w)) (image_files w) /\
    all_image_files w1 = py_remove (all_image_files w) img /\
    let w2 := _undo_last_action w1 in
    fs w2 = fs w /\
    image_files w2 = image_files w /\
    current_index w2 = current_index w /\
    undo_stack w2 = undo_stack w /\
    all_image_files w2 = py_remove (all_image_files w) img ++ [img].
Proof.
  apply (delete_then_undo scenario_loaded (joinpath pics "a.png")
           (joinpath pics ".vimview_trash") {| file_id := 1; decoded := Some 1 |});
    compute_done.
Defined.

Lemma move_then_undo_witness :
  let w := scenario_loaded in
  let img := joinpath pics "a.png" in
  let target := joinpath (joinpath pics "keep") "best" in
  let files1 := <[target := Dir]> (<[joinpath pics "keep" := Dir]> (fs w)) in
  exists w1,
    _move_to_target target w = Returned w1 /\
    fs w1 = <[free_path files1 target img := image_file 1]> (delete img files1) /\
    image_files w1 = delete (Z.to_nat (current_index w)) (image_files w) /\
    all_image_files w1 = py_remove (all_image_files w) img /\
    let w2 := _undo_last_action w1 in
    fs w2 = files1 /\
    image_files w2 = image_files w /\
    current_index w2 = current_index w /\
    undo_stack w2 = undo_stack w /\
    all_image_files w2 = py_remove (all_image_files w) img ++ [img].
Proof.
  apply (move_then_undo scenario_loaded (joinpath pics "a.png")
           (joinpath (joinpath pics "keep") "best") {| file_id := 1; decoded := Some 1 |});
    compute_done.
Defined.

(** ** Undo: the stack and the recorded index *)

Lemma revert_rename_stack old new index w :
  undo_stack (world_of (revert_rename old new index w)) = undo_stack w.
Proof.
  unfold revert_rename. destruct (py_set _ _ _) as [l|]; [|done]. cbv zeta.
  set (w2 := if py_in new _ then _ else _).
  assert (H2 : undo_stack w2 = undo_stack w).
  { subst w2. destruct (py_in new _); [destruct (py_index _ new)|]; done. }
  clearbody w2. destruct (filmstrip_item w2 index) as [item|]; [|exact H2].
  unfold world_of, show_animated_overlay.
  change (undo_stack (set_notes ?n ?x)) with (undo_stack x).
  match goal with |- context [_update_image ?x] =>
    destruct (update_image_eq x) as [z ->] end.
  change (undo_stack (set_current_index z ?x)) with (undo_stack x).
  by destruct (thumb_cache _ !! new).
Qed.

Lemma pop_last_cons {A} (a : A) l : is_Some (pop_last (a :: l)).
Proof.
  revert a. induction l as [|b l IH]; intros a; [by eexists|].
  destruct (IH b) as [[r y] Hr]. change (pop_last (a :: b :: l))
    with (match pop_last (b :: l) with Some (r, y) => Some (a :: r, y) | None => None end).
  rewrite Hr. by eexists.
Qed.

(** X5: undo takes exactly the top entry off the stack, whether or not the
    reversal works, and puts nothing on it. *)
Theorem undo_consumes_the_top_entry (w : World) :
  undo_stack (_undo_last_action w)
  = match pop_last (undo_stack w) with
    | Some (rest, _) => rest
    | None => []
    end /\
  (undo_stack w = [] ->
   _undo_last_action w = show_animated_overlay "no history to undo" w).
Proof.
  split.
  - unfold _undo_last_action.
    destruct (pop_last (undo_stack w)) as [[rest entry]|] eqn:Ep.
    + cbv zeta. destruct (reversal _ _) as [e|fs']; [done|].
      destruct entry as [old new index|old new index|old trash index].
      * pose proof (revert_rename_stack old new index
                       (set_fs fs' (set_undo_stack rest w))) as Hs.
        by destruct (revert_rename _ _ _ _).
      * by destruct (restore_entry_result old index
                       (set_fs fs' (set_undo_stack rest w))) as (_ & _ & _ & _ & ->).
      * by destruct (restore_entry_result old index
                       (set_fs fs' (set_undo_stack rest w))) as (_ & _ & _ & _ & ->).
    + destruct (undo_stack w) as [|a l] eqn:E; [done|].
      destruct (pop_last_cons a l) as [? ?]. congruence.
  - intros E. unfold _undo_last_action. by rewrite E.
Qed.

Lemma py_insert_nonneg {A} (l : list A) i x :
  (0 <= i)%Z ->
  let k := Nat.min (Z.to_nat i) (length l) in
  py_insert l i x = take k l ++ x :: drop k l.
Proof.
  intros Hi. cbv zeta. unfold py_insert.
  replace (i <? 0)%Z with false by (symmetry; apply Z.ltb_ge; lia).
  by replace (Z.to_nat (Z.min i (Z.of_nat (length l))))
    with (Nat.min (Z.to_nat i) (length l)) by lia.
Qed.

(** X6: the undo of a move or of a delete never fails on the recorded index:
    whatever the view has become, the path is put at the recorded
    position or, when the view is shorter, at its end, and is the image
    shown afterwards. *)
Theorem undo_of_removal_clamps_the_index
  (w : World) (rest : list action) (entry : action) (old other : Path) (index : Z)
  (files' : FS) :
  pop_last (undo_stack w) = Some (rest, entry) ->
  entry = move old other index \/ entry = delete_ old other index ->
  (0 <= index)%Z ->
  reversal entry (fs w) = inr files' ->
  let w' := _undo_last_action w in
  let k := Nat.min (Z.to_nat index) (length (image_files w)) in
  fs w' = files' /\
  image_files w' = take k (image_files w) ++ old :: drop k (image_files w) /\
  current_index w' = Z.of_nat k /\
  current w' = Some old /\
  undo_stack w' = rest.
Proof.
  intros Hp Hentry Hi Hr. cbv zeta. unfold _undo_last_action. rewrite Hp. cbv zeta.
  change (fs (set_undo_stack rest w)) with (fs w). rewrite Hr.
  set (wr := set_fs files' (set_undo_stack rest w)).
  assert (Hmatch :
    match entry with
    | rename_inplace old_path new_path index =>
        match revert_rename old_path new_path index wr with
        | Returned w1 => w1
        | Raised e w1 => print_failure "undo failed" e w1
        end
    | move old_path _ index | delete_ old_path _ index => restore_entry old_path index wr
    end = restore_entry old index wr)
    by (by destruct Hentry as [-> | ->]).
  rewrite Hmatch. clear Hmatch.
  destruct (restore_entry_result old index wr) as (R1 & R2 & R3 & R4 & R5).
  change (image_files wr) with (image_files w) in *.
  rewrite (py_insert_nonneg _ _ _ Hi) in R2, R4. cbv zeta in R2, R4.
  set (k := Nat.min (Z.to_nat index) (length (image_files w))) in *.
  assert (Hk : (k <= length (image_files w))%nat) by lia.
  assert (Hlen : length (take k (image_files w) ++ old :: drop k (image_files w))
                 = S (length (image_files w))).
  { rewrite length_app, length_take. simpl. rewrite length_drop. lia. }
  assert (Hc : current_index (restore_entry old index wr) = Z.of_nat k).
  { rewrite R4, Hlen. unfold clamp_index. lia. }
  split; [exact R1|]. split; [exact R2|]. split; [exact Hc|]. split; [|exact R5].
  unfold current. rewrite Hc, R2. apply py_get_nonneg; [lia|].
  rewrite Nat2Z.id. rewrite lookup_app_r by (rewrite length_take; lia).
  rewrite length_take. by replace (k - k `min` length (image_files w))%nat with 0%nat by lia.
Qed.

Lemma undo_of_removal_clamps_the_index_witness :
  let w := deleted_then_filtered in
  let old := joinpath pics "c.png" in
  let w' := _undo_last_action w in
  let k := Nat.min (Z.to_nat 2) (length (image_files w)) in
  fs w' = fs (run_commands [Load pics 2] (initial_world three_fs)) /\
  image_files w' = take k (image_files w) ++ old :: drop k (image_files w) /\
  current_index w' = Z.of_nat k /\
  current w' = Some old /\
  undo_stack w' = [].
Proof.
  apply (undo_of_removal_clamps_the_index deleted_then_filtered []
           (delete_ (joinpath pics "c.png")
                    (joinpath (joinpath pics ".vimview_trash") "c.png") 2)
           (joinpath pics "c.png")
           (joinpath (joinpath pics ".vimview_trash") "c.png") 2).
  - compute_done.
  - by right.
  - lia.
  - compute_done.
Defined.

(** ** Mutations never overwrite *)

Lemma os_rename_to_free (files files' : FS) src dst :
  exists_ files dst = false ->
  files !! src <> Some Dir ->
  os_rename files src dst = inr files' ->
  exists c, files !! src = Some (File c) /\ files' = <[dst := File c]> (delete src files).
Proof.
  intros He Hnd. unfold os_rename, exists_ in *.
  destruct (files !! src) as [[c|]|]; [|done|done].
  destruct (node_at files (parent dst)) as [[?|]|]; [done| |done].
  destruct (node_at files dst) as [[?|]|]; try done.
  intros [= <-]. by exists c.
Qed.

Lemma shutil_move_to_free (files files' : FS) src dst :
  exists_ files dst = false ->
  files !! src <> Some Dir ->
  shutil_move files src dst = inr files' ->
  exists c, files !! src = Some (File c) /\ files' = <[dst := File c]> (delete src files).
Proof.
  intros He Hnd. unfold shutil_move.
  assert (is_dir files dst = false) as ->.
  { unfold is_dir, exists_ in *. by destruct (node_at files dst). }
  by apply os_rename_to_free.
Qed.

Lemma remove_item_fs index w : fs (world_of (_remove_item_from_view index w)) = fs w.
Proof.
  unfold _remove_item_from_view.
  destruct (py_pop _ _) as [[img rest]|]; [|done]. cbv zeta. unfold world_of.
  match goal with |- context [_update_image ?x] =>
    destruct (update_image_eq x) as [z ->] end.
  by destruct (py_in img _).
Qed.

(** What a move of [img] to a free path leaves of a filesystem: every
    other entry, and the content of [img] under the old or the new name. *)
Lemma moved_keeps (files : FS) img dst c :
  files !! dst = None ->
  (forall p n, p <> img -> files !! p = Some n ->
     <[dst := File c]> (delete img files) !! p = Some n).
Proof.
  intros Hd p n Hp Hn. assert (p <> dst) by congruence.
  rewrite lookup_insert_ne by done. by rewrite lookup_delete_ne.
Qed.

Lemma exists_false_lookup (files : FS) p : exists_ files p = false -> files !! p = None.
Proof.
  unfold exists_, node_at. destruct p; [done|]. by destruct (files !! _).
Qed.

Lemma move_and_record_fs txt img dest entry w :
  exists_ (fs w) dest = false ->
  fs w !! img <> Some Dir ->
  fs (world_of (move_and_record txt img dest entry w)) = fs w \/
  exists c, fs w !! img = Some (File c) /\
    fs (world_of (move_and_record txt img dest entry w))
    = <[dest := File c]> (delete img (fs w)).
Proof.
  intros He Hnd. unfold move_and_record.
  destruct (shutil_move (fs w) img dest) as [e|files'] eqn:Em; [by left|].
  destruct (shutil_move_to_free _ _ _ _ He Hnd Em) as (c & Hc & ->).
  right. exists c. split; [done|]. cbv zeta.
  match goal with |- context [_remove_item_from_view ?i ?x] =>
    pose proof (remove_item_fs i x) as Hfs;
    destruct (_remove_item_from_view i x) end; exact Hfs.
Qed.

Lemma rename_fs new_name w :
  fs (world_of (_rename_current_file new_name w)) = fs w \/
  exists img files',
    current w = Some img /\
    exists_ (fs w) (rename_target new_name img) = false /\
    os_rename (fs w) img (rename_target new_name img) = inr files' /\
    fs (world_of (_rename_current_file new_name w)) = files'.
Proof.
  unfold _rename_current_file, current.
  destruct (py_get (image_files w) (current_index w)) as [img|] eqn:Hc; [|by left].
  cbv zeta.
  destruct (exists_ (fs w) (rename_target new_name img)) eqn:He; [by left|].
  destruct (os_rename (fs w) img (rename_target new_name img)) as [e|files'] eqn:Er;
    [by left|].
  right. exists img, files'. repeat split; try done.
  cbv zeta. destruct (py_set _ _ _) as [l|]; [|done].
  set (w3 := if py_in img _ then _ else _).
  assert (H3 : fs w3 = files').
  { subst w3. destruct (py_in img _); [destruct (py_index _ img)|]; done. }
  clearbody w3. destruct (filmstrip_item w3 (current_index w3)) as [item|]; [|exact H3].
  unfold world_of.
  match goal with |- context [_update_image ?x] =>
    destruct (update_image_eq x) as [z ->] end.
  change (fs (set_current_index z ?x)) with (fs x).
  by destruct (thumb_cache _ !! img).
Qed.

Lemma rename_moved_or_kept new_name w img c :
  current w = Some img -> fs w !! img = Some (File c) ->
  moved_or_kept (fs w) (fs (world_of (_rename_current_file new_name w))) img.
Proof.
  intros Hc Hf. exists (fs w). split; [done|].
  destruct (rename_fs new_name w) as [Hs|(img' & files' & Hc' & He & Hr & Hfs)];
    [by left|].
  assert (img' = img) as -> by congruence.
  destruct (os_rename_to_free _ _ _ _ He ltac:(by rewrite Hf) Hr) as (c0 & Hf0 & ->).
  right. exists (rename_target new_name img), c0. split; [|done].
  by apply exists_false_lookup.
Qed.

Lemma move_and_record_moved_or_kept txt img entry folder w c :
  fs w !! img = Some (File c) ->
  fs (world_of (move_and_record txt img (free_path (fs w) folder img) entry w)) = fs w \/
  exists dst c0, fs w !! dst = None /\ fs w !! img = Some (File c0) /\
    fs (world_of (move_and_record txt img (free_path (fs w) folder img) entry w))
    = <[dst := File c0]> (delete img (fs w)).
Proof.
  intros Hf.
  destruct (move_and_record_fs txt img (free_path (fs w) folder img) entry w)
    as [Hs|(c0 & Hf0 & Hfs)].
  - apply free_path_free.
  - by rewrite Hf.
  - by left.
  - right. exists (free_path (fs w) folder img), c0. split; [|done].
    apply exists_false_lookup, free_path_free.
Qed.

Lemma move_moved_or_kept target w img c :
  current w = Some img -> fs w !! img = Some (File c) ->
  moved_or_kept (fs w) (fs (world_of (_move_to_target target w))) img.
Proof.
  intros Hc Hf. unfold _move_to_target. unfold current in Hc. rewrite Hc.
  destruct (mkdir_parents (fs w) target) as [e|files1] eqn:Em.
  { exists (fs w). split; [done|by left]. }
  cbv zeta. change (fs (set_fs files1 w)) with files1.
  change (current_index (set_fs files1 w)) with (current_index w).
  assert (Hk : forall p n, fs w !! p = Some n -> files1 !! p = Some n).
  { intros p n. by apply (mkdir_parents_from_keeps _ _ [] target). }
  exists files1. split; [exact Hk|].
  apply (move_and_record_moved_or_kept "failed to move" img
           (move img (free_path files1 target img) (current_index w)) target
           (set_fs files1 w) c).
  by apply Hk.
Qed.

Lemma delete_moved_or_kept w img c :
  current w = Some img -> fs w !! img = Some (File c) ->
  moved_or_kept (fs w) (fs (world_of (_delete_current w))) img.
Proof.
  intros Hc Hf. unfold _delete_current. unfold current in Hc. rewrite Hc.
  exists (fs w). split; [done|].
  destruct (trash_dir w) as [trash|]; [|by left].
  by apply (move_and_record_moved_or_kept "failed to trash" img _ trash w c).
Qed.

(** X7: rename, move and delete never destroy a file: whatever their
    outcome, every entry other than the current image is where it was,
    and the content of the current image is under its old name or under
    a name that was free. *)
Theorem mutations_never_overwrite
  (w w' : World) (img : Path) (c : content) (new_name : string) (target : Path) :
  current w = Some img ->
  fs w !! img = Some (File c) ->
  w' = world_of (_rename_current_file new_name w) \/
  w' = world_of (_move_to_target target w) \/
  w' = world_of (_delete_current w) ->
  (forall p n, p <> img -> fs w !! p = Some n -> fs w' !! p = Some n) /\
  (exists q, fs w' !! q = Some (File c) /\ (q = img \/ fs w !! q = None)).
Proof.
  intros Hc Hf Hop.
  assert (Hchar : moved_or_kept (fs w) (fs w') img).
  { destruct Hop as [-> | [-> | ->]].
    - by apply (rename_moved_or_kept _ _ _ c).
    - by apply (move_moved_or_kept _ _ _ c).
    - by apply (delete_moved_or_kept _ _ c). }
  destruct Hchar as (files & Hk & [-> | (dst & c0 & Hd & Hf0 & ->)]).
  - split; [by intros p n _; apply Hk|]. exists img. split; [by apply Hk|by left].
  - assert (c0 = c) as -> by (apply Hk in Hf; congruence).
    assert (Hd0 : fs w !! dst = None).
    { destruct (fs w !! dst) eqn:E; [|done]. apply Hk in E. congruence. }
    split.
    + intros p n Hp Hn. apply moved_keeps; auto.
    + exists dst. split; [by rewrite lookup_insert_eq|by right].
Qed.

Lemma mutations_never_overwrite_witness :
  let w := collision_loaded in
  let w' := world_of (_delete_current w) in
  (forall p n, p <> joinpath pics "a.png" -> fs w !! p = Some n -> fs w' !! p = Some n) /\
  (exists q, fs w' !! q = Some (image_file 1) /\
     (q = joinpath pics "a.png" \/ fs w !! q = None)).
Proof.
  apply (mutations_never_overwrite collision_loaded (world_of (_delete_current collision_loaded))
           (joinpath pics "a.png") {| file_id := 1; decoded := Some 1 |} "" []).
  - compute_done.
  - compute_done.
  - right. by right.
Defined.

(** ** The worker's loop *)

Lemma run_turns_add files t a b :
  run_turns files t (a + b)
  = ((run_turns files (run_turns files t a).1 b).1,
     (run_turns files t a).2 ++ (run_turns files (run_turns files t a).1 b).2).
Proof.
  revert t. induction a as [|a IH]; intros t; simpl.
  - by destruct (run_turns files t b).
  - destruct (worker_step files t) as [t1 ev]. rewrite IH.
    destruct (run_turns files t1 a) as [t2 evs]. simpl.
    destruct (run_turns files t2 b) as [t3 evs']. simpl. by rewrite app_assoc.
Qed.

Lemma run_turns_running files paths k n :
  (k + n <= length paths)%nat ->
  run_turns files
    {| image_paths := paths; is_running := true; position := k; finished := false |} n
  = ({| image_paths := paths; is_running := true; position := k + n; finished := false |},
     previews_of files (take n (drop k paths))).
Proof.
  revert k. induction n as [|n IH]; intros k Hk.
  - simpl. by rewrite Nat.add_0_r.
  - simpl. unfold worker_step. simpl.
    destruct (paths !! k) as [p|] eqn:Ep; [|apply lookup_ge_None in Ep; lia].
    rewrite IH by lia. rewrite Nat.add_succ_r. f_equal.
    rewrite (drop_S _ _ _ Ep). simpl. unfold previews_of at 2. simpl.
    by destruct (read_scaled files p).
Qed.

Lemma run_turns_to_the_end files paths k n :
  (k <= length paths)%nat -> (length paths - k < n)%nat ->
  run_turns files
    {| image_paths := paths; is_running := true; position := k; finished := false |} n
  = ({| image_paths := paths; is_running := true; position := length paths;
        finished := true |},
     previews_of files (drop k paths)).
Proof.
  intros Hk Hn. replace n with ((length paths - k) + S (n - S (length paths - k)))%nat by lia.
  rewrite run_turns_add. rewrite run_turns_running by lia. simpl fst. simpl snd.
  replace (k + (length paths - k))%nat with (length paths) by lia.
  rewrite take_ge by (rewrite length_drop; lia).
  change (run_turns files ?t (S ?m)) with
    (let '(t1, ev) := worker_step files t in
     let '(t2, evs) := run_turns files t1 m in (t2, option_list ev ++ evs)).
  unfold worker_step. simpl.
  rewrite (proj2 (lookup_ge_None paths (length paths))) by lia.
  rewrite run_turns_finished by done. simpl. by rewrite app_nil_r.
Qed.

(** X8: [ThumbnailWorker.run], left alone, emits one signal for every path
    whose image is not null, in the order of the list, and none for the
    others; stopped after [k] turns, it has emitted the signals of the
    first [k] paths and emits nothing while the caller waits for it. *)
Theorem worker_emits_in_order_until_stopped (files : FS) (paths : list Path) (k : nat) :
  wait files (new_worker paths)
  = ({| image_paths := paths; is_running := true; position := length paths;
        finished := true |},
     previews_of files paths) /\
  (run_turns files (new_worker paths) k).2 = previews_of files (take k paths) /\
  (wait files (stop (run_turns files (new_worker paths) k).1)).2 = [] /\
  finished (wait files (stop (run_turns files (new_worker paths) k).1)).1 = true.
Proof.
  split; [|split].
  - unfold wait, new_worker. simpl image_paths. simpl position.
    rewrite run_turns_to_the_end by lia. by rewrite drop_0.
  - unfold new_worker. destruct (decide (k <= length paths)%nat) as [Hk|Hk].
    + rewrite run_turns_running by lia. simpl. by rewrite drop_0.
    + rewrite run_turns_to_the_end by lia. simpl. rewrite drop_0.
      by rewrite take_ge by lia.
  - destruct (wait_stop files (run_turns files (new_worker paths) k).1)
      as (t' & -> & Hf & _). done.
Qed.

(** ** At most one pipeline, in every world a session reaches *)

Lemma one_live_same w w' : same_pipeline w w' -> one_live w -> one_live w'.
Proof. intros [Ht Hw] Hl i t. rewrite Ht, Hw. apply Hl. Qed.

Lemma rebuild_one_live_from w0 w :
  same_pipeline w0 w -> one_live w0 -> one_live (_rebuild_filmstrip_and_thumbnails w).
Proof.
  intros Hs Hl. by destruct (rebuild_pipeline w (one_live_same _ _ Hs Hl)) as (_&_&_&_&_&?).
Qed.

Lemma remove_item_same index w : same_pipeline w (world_of (_remove_item_from_view index w)).
Proof.
  unfold _remove_item_from_view.
  destruct (py_pop _ _) as [[img rest]|]; [|by split]. cbv zeta. unfold world_of.
  match goal with |- context [_update_image ?x] =>
    destruct (update_image_eq x) as [z ->] end.
  by destruct (py_in img _).
Qed.

Lemma move_and_record_same txt img dest entry w :
  same_pipeline w (world_of (move_and_record txt img dest entry w)).
Proof.
  unfold move_and_record. destruct (shutil_move _ _ _) as [e|files']; [by split|].
  cbv zeta.
  match goal with |- context [_remove_item_from_view ?i ?x] =>
    pose proof (remove_item_same i x) as Hs;
    destruct (_remove_item_from_view i x) end; exact Hs.
Qed.

Lemma move_to_target_same target w :
  same_pipeline w (world_of (_move_to_target target w)).
Proof.
  unfold _move_to_target. destruct (py_get _ _); [|by split].
  destruct (mkdir_parents _ _) as [e|files1]; [by split|]. cbv zeta.
  match goal with |- context [move_and_record ?t ?i ?d ?e ?x] =>
    exact (move_and_record_same t i d e x) end.
Qed.

Lemma delete_current_same w : same_pipeline w (world_of (_delete_current w)).
Proof.
  unfold _delete_current. destruct (py_get _ _); [|by split].
  destruct (trash_dir w); [|by split]. apply move_and_record_same.
Qed.

Lemma rename_same new_name w : same_pipeline w (world_of (_rename_current_file new_name w)).
Proof.
  unfold _rename_current_file.
  destruct (py_get _ _) as [img|]; [|by split]. cbv zeta.
  destruct (exists_ _ _); [by split|].
  destruct (os_rename _ _ _) as [e|files']; [by split|].
  destruct (py_set _ _ _) as [l|]; [|by split].
  set (w3 := if py_in img _ then _ else _).
  assert (H3 : same_pipeline w w3).
  { subst w3. destruct (py_in img _); [destruct (py_index _ img)|]; by split. }
  clearbody w3. destruct (filmstrip_item w3 (current_index w3)) as [item|]; [|exact H3].
  unfold world_of.
  match goal with |- context [_update_image ?x] =>
    destruct (update_image_eq x) as [z ->] end.
  destruct H3 as [Ht Hw]. destruct (thumb_cache _ !! img); split; assumption.
Qed.

Lemma restore_entry_same old index w : same_pipeline w (restore_entry old index w).
Proof.
  unfold restore_entry. cbv zeta.
  match goal with |- context [_update_image ?x] =>
    destruct (update_image_eq x) as [z ->] end.
  destruct (negb (py_in old (all_image_files _)));
    destruct (thumb_cache _ !! old); try (by split);
    destruct (read_scaled _ old); by split.
Qed.

Lemma revert_rename_same old new index w :
  same_pipeline w (world_of (revert_rename old new index w)).
Proof.
  unfold revert_rename. destruct (py_set _ _ _) as [l|]; [|by split]. cbv zeta.
  set (w2 := if py_in new _ then _ else _).
  assert (H2 : same_pipeline w w2).
  { subst w2. destruct (py_in new _); [destruct (py_index _ new)|]; by split. }
  clearbody w2. destruct (filmstrip_item w2 index) as [item|]; [|exact H2].
  unfold world_of.
  match goal with |- context [_update_image ?x] =>
    destruct (update_image_eq x) as [z ->] end.
  destruct H2 as [Ht Hw]. destruct (thumb_cache _ !! new); split; assumption.
Qed.

Lemma undo_same w : same_pipeline w (_undo_last_action w).
Proof.
  unfold _undo_last_action.
  destruct (pop_last (undo_stack w)) as [[rest entry]|]; [|by split]. cbv zeta.
  destruct (reversal _ _) as [e|files']; [by split|].
  destruct entry as [old new index|old new index|old trash index].
  - pose proof (revert_rename_same old new index
                  (set_fs files' (set_undo_stack rest w))) as Hs.
    by destruct (revert_rename _ _ _ _).
  - apply (restore_entry_same old index (set_fs files' (set_undo_stack rest w))).
  - apply (restore_entry_same old index (set_fs files' (set_undo_stack rest w))).
Qed.

Lemma open_text_input_same m w : same_pipeline w (world_of (_open_text_input m w)).
Proof.
  unfold _open_text_input. destruct m; simpl; try (by split).
  - by destruct (py_get _ _).
  - destruct (negb (is_search_filtered w) && _); [|by split]. by destruct (py_get _ _).
Qed.

Lemma clear_search_filter_one_live w : one_live w -> one_live (_clear_search_filter w).
Proof.
  intros Hl. unfold _clear_search_filter.
  destruct (is_search_filtered w); simpl; [|done].
  match goal with |- one_live (show_animated_overlay _ (_rebuild_filmstrip_and_thumbnails ?x)) =>
    apply (one_live_same (_rebuild_filmstrip_and_thumbnails x)); [by split|];
    apply (rebuild_one_live_from w); [|done] end.
  destruct (pre_search_path w) as [p|]; simpl; [|by split].
  destruct (py_in p (all_image_files w)); simpl; [|by split].
  by destruct (py_index (all_image_files w) p).
Qed.

Lemma apply_search_one_live text w : one_live w -> one_live (apply_search text w).
Proof.
  intros Hl. unfold apply_search.
  destruct (matching text (all_image_files w)) as [|m ms]; [done|].
  match goal with |- one_live (show_animated_overlay _ (_rebuild_filmstrip_and_thumbnails ?x)) =>
    apply (one_live_same (_rebuild_filmstrip_and_thumbnails x)); [by split|];
    apply (rebuild_one_live_from w); [by split|done] end.
Qed.

Lemma jump_one_live target w : one_live w -> one_live (_jump_to_image target w).
Proof.
  intros Hl. unfold _jump_to_image.
  set (w1 := if is_search_filtered w then _ else w).
  assert (H1 : one_live w1).
  { subst w1. destruct (is_search_filtered w); [|done].
    apply (rebuild_one_live_from w); [by split|done]. }
  clearbody w1.
  destruct (py_in target (image_files w1)); [|done].
  destruct (py_index (image_files w1) target) as [i|]; [|done].
  destruct (update_image_eq (set_current_index (Z.of_nat i) w1)) as [z Hz].
  apply (one_live_same w1); [|done]. rewrite Hz. by split.
Qed.

Lemma escape_or_back_one_live w : one_live w -> one_live (_escape_or_back w).2.
Proof.
  intros Hl. unfold _escape_or_back.
  destruct (is_search_filtered w); simpl; [by apply clear_search_filter_one_live|].
  destruct (pre_search_path w) as [p|]; simpl; [|done].
  match goal with |- context [_update_image ?x] =>
    destruct (update_image_eq x) as [z ->] end.
  apply (one_live_same w); [|done].
  destruct (py_in p (image_files w)); [|by split].
  by destruct (py_index (image_files w) p).
Qed.

Lemma process_text_input_one_live raw sel w :
  one_live w -> one_live (world_of (_process_text_input raw sel w)).
Proof.
  intros Hl. unfold _process_text_input. cbv zeta.
  assert (Hn : one_live (set_mode NORMAL w)) by (by apply (one_live_same w)).
  destruct (mode w); try exact Hn.
  - destruct (bool_decide _); [exact Hn|].
    pose proof (rename_same (strip raw) (set_mode NORMAL w)) as Hr.
    destruct (_rename_current_file _ _) as [w2|e w2]; simpl in *.
    + apply (one_live_same w2); [by split|]. by apply (one_live_same (set_mode NORMAL w)).
    + by apply (one_live_same (set_mode NORMAL w)).
  - destruct sel as [t|]; simpl.
    + by apply jump_one_live.
    + destruct (bool_decide _); simpl.
      * by apply clear_search_filter_one_live.
      * by apply apply_search_one_live.
Qed.

Lemma load_directory_one_live d i w :
  one_live w -> one_live (world_of (load_directory d i w)).
Proof.
  intros Hl. unfold load_directory. cbv zeta.
  destruct (mkdir _ _) as [e|files']; [by apply (one_live_same w)|].
  match goal with |- context [set_all_image_files ?l _] => generalize l end.
  intros imgs. unfold world_of. apply (rebuild_one_live_from w); [|done].
  by destruct imgs.
Qed.

Lemma run_command_one_live c w : one_live w -> one_live (run_command c w).
Proof.
  intros Hl. destruct c; unfold run_command.
  - by apply load_directory_one_live.
  - unfold key_prev. destruct (image_files w); [done|].
    match goal with |- context [_update_image ?x] =>
      destruct (update_image_eq x) as [z ->] end. by apply (one_live_same w).
  - unfold key_next. destruct (image_files w); [done|].
    match goal with |- context [_update_image ?x] =>
      destruct (update_image_eq x) as [z ->] end. by apply (one_live_same w).
  - destruct (row <? length (image_files w))%nat; [|done].
    unfold _on_filmstrip_selected. destruct (0 <=? Z.of_nat row)%Z; [|done].
    match goal with |- context [_update_image ?x] =>
      destruct (update_image_eq x) as [z ->] end. by apply (one_live_same w).
  - pose proof (open_text_input_same SEARCH w) as Ho.
    destruct (_open_text_input SEARCH w) as [w1|e w1]; simpl in Ho.
    + apply process_text_input_one_live. by apply (one_live_same w).
    + by apply (one_live_same w).
  - pose proof (open_text_input_same SEARCH w) as Ho.
    destruct (_open_text_input SEARCH w) as [w1|e w1]; simpl in Ho.
    + destruct (py_in target (all_image_files w1)); [|by apply (one_live_same w)].
      apply process_text_input_one_live. by apply (one_live_same w).
    + by apply (one_live_same w).
  - pose proof (open_text_input_same SEARCH w) as Ho.
    destruct (_open_text_input SEARCH w) as [w1|e w1]; simpl in Ho.
    + apply (one_live_same w1); [by split|]. by apply (one_live_same w).
    + by apply (one_live_same w).
  - by apply escape_or_back_one_live.
  - unfold guarded. destruct (image_files w); [done|].
    pose proof (open_text_input_same RENAME w) as Ho.
    destruct (_open_text_input RENAME w) as [w1|e w1]; simpl in Ho.
    + apply process_text_input_one_live. by apply (one_live_same w).
    + by apply (one_live_same w).
  - unfold guarded. destruct (image_files w); [done|].
    apply (one_live_same w); [apply move_to_target_same|done].
  - unfold guarded. destruct (image_files w); [done|].
    apply (one_live_same w); [apply delete_current_same|done].
  - apply (one_live_same w); [apply undo_same|done].
  - by apply thread_turn_one_live.
  - by apply deliver_one_live.
Qed.

(** X9: in every world a session reaches at most one worker thread has not
    returned, and it is the viewer's current worker; stopping and
    waiting for it, as [clean_up] does, leaves none. *)
Theorem at_most_one_pipeline (files : FS) (cs : list command) :
  let w := run_commands cs (initial_world files) in
  one_live w /\
  Forall (fun t => finished t = true) (threads (stop_and_wait w)) /\
  queue (stop_and_wait w) = queue w.
Proof.
  cbv zeta.
  assert (Hl : one_live (run_commands cs (initial_world files))).
  { assert (H0 : one_live (initial_world files)) by (intros i t Ht; done).
    revert H0. generalize (initial_world files).
    induction cs as [|c cs IH]; intros w Hw; [done|].
    simpl. apply IH. by apply run_command_one_live. }
  split; [exact Hl|].
  by destruct (stop_and_wait_threads _ Hl) as (? & _ & ? & _).
Qed.

(** ** From the restart to the cache *)

Lemma rebuild_fs w : fs (_rebuild_filmstrip_and_thumbnails w) = fs w.
Proof.
  unfold _rebuild_filmstrip_and_thumbnails. cbv zeta.
  assert (Hs : fs (stop_and_wait w) = fs w).
  { unfold stop_and_wait. destruct (worker w) as [i|]; [|done].
    destruct (threads w !! i) as [t|]; [|done]. by destruct (wait _ _). }
  destruct (add_items_frame (image_files (stop_and_wait w))
              (set_filmstrip_item_map ∅ (set_filmstrip [] (stop_and_wait w))))
    as (_ & _ & _ & Ff & _).
  change (fs (set_filmstrip_item_map ∅ (set_filmstrip [] ?x))) with (fs x) in Ff.
  set (w2 := foldl add_item _ _) in *. clearbody w2.
  destruct (update_image_eq w2) as [z ->].
  destruct (image_files _); simpl; congruence.
Qed.

Lemma add_item_ok w p : items_ok w -> items_ok (add_item w p).
Proof.
  intros [Hlt Hinj]. unfold add_item, items_ok.
  change (filmstrip_item_map (set_filmstrip_item_map ?m ?x)) with m.
  change (items (set_filmstrip_item_map ?m (set_filmstrip ?r (set_items ?i ?x)))) with i.
  rewrite length_app. simpl length. split.
  - intros q r. destruct (decide (p = q)) as [<-|Hne].
    + rewrite lookup_insert_eq. intros [= <-]. lia.
    + rewrite lookup_insert_ne by done. intros H. apply Hlt in H. lia.
  - intros q1 q2 r.
    destruct (decide (p = q1)) as [<-|H1]; destruct (decide (p = q2)) as [<-|H2].
    + done.
    + rewrite lookup_insert_eq, lookup_insert_ne by done.
      intros [= <-] H. apply Hlt in H. lia.
    + rewrite lookup_insert_eq, lookup_insert_ne by done.
      intros H [= <-]. apply Hlt in H. lia.
    + rewrite !lookup_insert_ne by done. apply Hinj.
Qed.

Lemma add_items_ok paths w : items_ok w -> items_ok (foldl add_item w paths).
Proof.
  revert w. induction paths as [|p paths IH]; intros w Hw; [done|].
  simpl. apply IH. by apply add_item_ok.
Qed.

Lemma rebuild_items_ok w : items_ok (_rebuild_filmstrip_and_thumbnails w).
Proof.
  unfold _rebuild_filmstrip_and_thumbnails. cbv zeta.
  set (w0 := set_filmstrip_item_map ∅ (set_filmstrip [] (stop_and_wait w))).
  assert (H0 : items_ok w0).
  { split; [intros p r H|intros p q r H _];
      change (filmstrip_item_map w0) with (∅ : gmap Path nat) in H;
      by rewrite lookup_empty in H. }
  apply (add_items_ok (image_files (stop_and_wait w))) in H0.
  set (w2 := foldl add_item w0 _) in *. clearbody w2.
  destruct (update_image_eq w2) as [z ->].
  by destruct (image_files _).
Qed.

Lemma worker_turns i n w t :
  threads w !! i = Some t ->
  run_commands (replicate n (WorkerTurn i)) w
  = set_queue (queue w ++ (run_turns (fs w) t n).2)
      (set_threads (<[i := (run_turns (fs w) t n).1]> (threads w)) w).
Proof.
  revert w t. induction n as [|n IH]; intros w t Ht.
  - simpl. rewrite app_nil_r, list_insert_id by done. by destruct w.
  - change (run_commands (replicate (S n) (WorkerTurn i)) w)
      with (run_commands (replicate n (WorkerTurn i)) (thread_turn i w)).
    unfold thread_turn. rewrite Ht. simpl run_turns.
    destruct (worker_step (fs w) t) as [t1 ev].
    rewrite (IH _ t1) by (simpl; apply list_lookup_insert_eq; by eapply lookup_lt_Some).
    simpl. destruct (run_turns (fs w) t1 n) as [t2 evs]. simpl.
    by rewrite list_insert_insert_eq, app_assoc.
Qed.

Lemma deliver_empty m w : queue w = [] -> run_commands (replicate m Deliver) w = w.
Proof.
  intros Hq. induction m as [|m IH]; [done|].
  change (run_commands (replicate (S m) Deliver) w)
    with (run_commands (replicate m Deliver) (deliver w)).
  unfold deliver. by rewrite Hq.
Qed.

Lemma apply_thumbnail_hit p pix w :
  items_ok w -> is_Some (filmstrip_item_map w !! p) ->
  thumb_cache (_apply_thumbnail p pix w) !! p = Some pix /\
  icon_of (_apply_thumbnail p pix w) p = Some (Some pix).
Proof.
  intros [Hlt _] [r Hr]. unfold _apply_thumbnail, icon_of. rewrite Hr.
  change (thumb_cache (set_thumb_cache ?m ?x)) with m.
  change (filmstrip_item_map (set_thumb_cache ?m (setIcon ?a ?b w)))
    with (filmstrip_item_map w).
  change (items (set_thumb_cache ?m (setIcon ?a ?b w)))
    with (alter (fun it => {| user_data := user_data it; icon := Some b |}) a (items w)).
  rewrite lookup_insert_eq, Hr. split; [done|].
  destruct (lookup_lt_is_Some_2 (items w) r (Hlt _ _ Hr)) as [it Hit].
  rewrite list_lookup_alter, decide_True by done. by rewrite Hit.
Qed.

Lemma apply_thumbnail_miss p0 p pix w :
  items_ok w -> p0 <> p ->
  thumb_cache (_apply_thumbnail p0 pix w) !! p = thumb_cache w !! p /\
  icon_of (_apply_thumbnail p0 pix w) p = icon_of w p.
Proof.
  intros [_ Hinj] Hne. unfold _apply_thumbnail, icon_of.
  destruct (filmstrip_item_map w !! p0) as [r0|] eqn:E0; [|done].
  change (thumb_cache (set_thumb_cache ?m ?x)) with m.
  change (filmstrip_item_map (set_thumb_cache ?m (setIcon ?a ?b w)))
    with (filmstrip_item_map w).
  change (items (set_thumb_cache ?m (setIcon ?a ?b w)))
    with (alter (fun it => {| user_data := user_data it; icon := Some b |}) a (items w)).
  rewrite lookup_insert_ne by done. split; [done|].
  destruct (filmstrip_item_map w !! p) as [r|] eqn:E; [|done].
  rewrite list_lookup_alter_ne; [done|]. intros ->. apply Hne. by eapply Hinj.
Qed.

Lemma apply_thumbnail_items_ok p pix w : items_ok w -> items_ok (_apply_thumbnail p pix w).
Proof.
  intros [Hlt Hinj]. unfold _apply_thumbnail.
  destruct (filmstrip_item_map w !! p); [|done].
  split; [|exact Hinj]. intros q r Hq.
  change (items (set_thumb_cache ?m (setIcon ?a ?b w)))
    with (alter (fun it => {| user_data := user_data it; icon := Some b |}) a (items w)).
  rewrite length_alter. by eapply Hlt.
Qed.

Lemma deliveries_reach_the_cache p pix (q : list (Path * pixmap)) :
  forall m w,
    queue w = q -> (length q <= m)%nat ->
    items_ok w ->
    is_Some (filmstrip_item_map w !! p) ->
    ((exists q1 q2, q = q1 ++ (p, pix) :: q2 /\ forall pix', (p, pix') ∈ q2 -> pix' = pix) \/
     (thumb_cache w !! p = Some pix /\ icon_of w p = Some (Some pix) /\
      forall pix', (p, pix') ∈ q -> pix' = pix)) ->
    let w' := run_commands (replicate m Deliver) w in
    thumb_cache w' !! p = Some pix /\ icon_of w' p = Some (Some pix) /\
    queue w' = [].
Proof.
  induction q as [|[p0 x0] q IH]; intros m w Hq Hm Hok Hin Hcases; cbv zeta.
  - rewrite deliver_empty by done. destruct Hcases as [(q1 & q2 & E & _)|(? & ? & _)].
    + by destruct q1.
    + done.
  - destruct m as [|m]; [simpl in Hm; lia|].
    change (run_commands (replicate (S m) Deliver) w)
      with (run_commands (replicate m Deliver) (deliver w)).
    unfold deliver. rewrite Hq.
    set (w0 := set_queue q w).
    assert (Hok0 : items_ok w0) by exact Hok.
    assert (Hin0 : is_Some (filmstrip_item_map w0 !! p)) by exact Hin.
    set (w1 := _apply_thumbnail p0 x0 w0).
    assert (Hq1 : queue w1 = q).
    { subst w1. unfold _apply_thumbnail. by destruct (filmstrip_item_map w0 !! p0). }
    assert (Hin1 : is_Some (filmstrip_item_map w1 !! p)).
    { subst w1. unfold _apply_thumbnail. by destruct (filmstrip_item_map w0 !! p0). }
    apply (IH m w1 Hq1); [simpl in Hm; lia|by apply apply_thumbnail_items_ok|exact Hin1|].
    assert (Hhit : p0 = p -> x0 = pix ->
              thumb_cache w1 !! p = Some pix /\ icon_of w1 p = Some (Some pix)).
    { intros -> ->. by apply apply_thumbnail_hit. }
    assert (Hmiss : p0 <> p ->
              thumb_cache w1 !! p = thumb_cache w !! p /\ icon_of w1 p = icon_of w p).
    { intros Hne. by apply (apply_thumbnail_miss p0 p x0 w0). }
    destruct Hcases as [(q1 & q2 & E & Hlast)|(Hc & Hmap & Hall)].
    + destruct q1 as [|e q1]; simplify_eq/=.
      * right. destruct (Hhit eq_refl eq_refl) as [? ?]. done.
      * left. by exists q1, q2.
    + right. destruct (decide (p0 = p)) as [->|Hne].
      * assert (x0 = pix) as -> by (apply Hall; by left).
        destruct (Hhit eq_refl eq_refl) as [? ?].
        repeat split; [done|done|]. intros pix' Hp. apply Hall. by right.
      * destruct (Hmiss Hne) as [-> ->].
        repeat split; [done|done|]. intros pix' Hp. apply Hall. by right.
Qed.

Lemma elem_of_previews_of files paths p pix :
  (p, pix) ∈ previews_of files paths <-> p ∈ paths /\ read_scaled files p = Some pix.
Proof.
  unfold previews_of. rewrite list_elem_of_omap. split.
  - intros (q & Hq & H). destruct (read_scaled files q) eqn:E; [|done].
    simpl in H. by injection H as -> ->.
  - intros [Hp Hr]. exists p. by rewrite Hr.
Qed.

Lemma length_previews_of files paths : (length (previews_of files paths) <= length paths)%nat.
Proof.
  unfold previews_of. induction paths as [|p l IH]; [done|].
  change (omap ?f (p :: l)) with
    (match f p with Some y => y :: omap f l | None => omap f l end).
  cbv beta. destruct (read_scaled files p); simpl in *; lia.
Qed.

(** X10: after a restart, when the new worker has taken a turn per path and
    the queued signals have been delivered, every image of the view that
    decodes has its preview in the cache and as the icon of its
    filmstrip item, also when signals of the earlier worker were still
    queued. *)
Theorem previews_reach_the_cache (w : World) (p : Path) (pix : pixmap) :
  one_live w ->
  p ∈ image_files w ->
  read_scaled (fs w) p = Some pix ->
  let n := length (image_files w) in
  let ds := replicate n (WorkerTurn (length (threads w)))
            ++ replicate (length (queue w) + n) Deliver in
  let w' := run_commands ds (_rebuild_filmstrip_and_thumbnails w) in
  thumb_cache w' !! p = Some pix /\
  icon_of w' p = Some (Some pix) /\
  queue w' = [].
Proof.
  intros Hl Hp Hr. cbv zeta. rewrite run_commands_app.
  destruct (rebuild_pipeline w Hl) as (_ & Hq & _ & Hitems & Hnew & _).
  pose proof (rebuild_items_ok w) as Hok.
  assert (Hne : image_files w <> []) by (intros E; rewrite E in Hp; by apply elem_of_nil in Hp).
  destruct (Hnew Hne) as [_ Hthread].
  rewrite (worker_turns _ _ _ _ Hthread).
  rewrite rebuild_fs, Hq. unfold new_worker.
  rewrite run_turns_running by (simpl; lia). simpl fst. simpl snd.
  rewrite drop_0, firstn_all.
  set (wq := set_queue _ _).
  assert (Hsplit : exists e1 e2, previews_of (fs w) (image_files w) = e1 ++ (p, pix) :: e2).
  { apply list_elem_of_split, elem_of_previews_of. done. }
  destruct Hsplit as (e1 & e2 & He).
  apply (deliveries_reach_the_cache p pix (queue w ++ previews_of (fs w) (image_files w))).
  - done.
  - rewrite length_app. pose proof (length_previews_of (fs w) (image_files w)). lia.
  - exact Hok.
  - subst wq. change (filmstrip_item_map (set_queue ?a (set_threads ?b ?x)))
      with (filmstrip_item_map x). by apply Hitems.
  - left. exists (queue w ++ e1), e2. split; [by rewrite He, app_assoc|].
    intros pix' Hin.
    assert (Hin' : (p, pix') ∈ previews_of (fs w) (image_files w)).
    { rewrite He. apply elem_of_app. right. by right. }
    apply elem_of_previews_of in Hin' as [_ Hr']. congruence.
Qed.

Lemma previews_reach_the_cache_witness :
  let w := scenario_narrowed in
  let n := length (image_files w) in
  let ds := replicate n (WorkerTurn (length (threads w)))
            ++ replicate (length (queue w) + n) Deliver in
  let w' := run_commands ds (_rebuild_filmstrip_and_thumbnails w) in
  thumb_cache w' !! joinpath pics "a.png" = Some 1%nat /\
  icon_of w' (joinpath pics "a.png") = Some (Some 1%nat) /\
  queue w' = [].
Proof.
  apply (previews_reach_the_cache scenario_narrowed (joinpath pics "a.png") 1%nat).
  - apply one_live_check_sound. vm_compute. reflexivity.
  - compute_done.
  - compute_done.
Defined.

(** ** Search: what the filter keeps *)

Lemma startswith_spec s p :
  startswith s p = true <-> exists rest, s = (p ++ rest)%string.
Proof.
  revert s. induction p as [|a p IH]; intros s.
  - split; [intros _; by exists s|intros _; by destruct s].
  - destruct s as [|b s]; simpl.
    + split; [done|]. by intros [rest ?].
    + rewrite andb_true_iff, IH, Ascii.eqb_eq. split.
      * intros [-> [rest ->]]. by exists rest.
      * intros [rest H]. unfold String.app in H. simpl in H.
        injection H as -> ->. split; [done|by exists rest].
Qed.

Lemma str_in_spec needle hay :
  str_in needle hay = true <-> exists pre post, hay = (pre ++ needle ++ post)%string.
Proof.
  induction hay as [|b hay IH].
  - change (str_in needle "") with (startswith "" needle || false).
    rewrite orb_false_r, startswith_spec. split.
    + intros [rest H]. by exists "", rest.
    + intros (pre & post & H). destruct pre as [|c pre]; [by exists post|].
      unfold String.app in H. discriminate.
  - change (str_in needle (String b hay))
      with (startswith (String b hay) needle || str_in needle hay).
    rewrite orb_true_iff, startswith_spec, IH. split.
    + intros [[rest H]|(pre & post & H)].
      * by exists "", rest.
      * exists (String b pre), post. unfold String.app in *. simpl. by rewrite H.
    + intros (pre & post & H). destruct pre as [|c pre].
      * left. by exists post.
      * right. unfold String.app in H. simpl in H. injection H as -> ->.
        by exists pre, post.
Qed.

Lemma elem_of_matching text paths f :
  f ∈ matching text paths <->
  f ∈ paths /\ exists pre post, lower (name f) = (pre ++ lower text ++ post)%string.
Proof. unfold matching. rewrite list_elem_of_filter, str_in_spec. tauto. Qed.

(** X12: a search for a non-empty text keeps exactly the catalog's paths whose
    name contains the text, both in lower case, in the catalog's order,
    and puts the cursor on the first of them; when no name contains the
    text, the view, the cursor and the filter stay as they are. *)
Theorem search_keeps_the_names_containing_the_text (w : World) (raw : string) :
  mode w = SEARCH ->
  strip raw <> "" ->
  let w' := world_of (_process_text_input raw None w) in
  let found := matching (strip raw) (all_image_files w) in
  (forall f, f ∈ found <->
     f ∈ all_image_files w /\
     exists pre post, lower (name f) = (pre ++ lower (strip raw) ++ post)%string) /\
  sublist found (all_image_files w) /\
  all_image_files w' = all_image_files w /\
  fs w' = fs w /\
  (found <> [] ->
     image_files w' = found /\ current_index w' = 0%Z /\ is_search_filtered w' = true) /\
  (found = [] ->
     image_files w' = image_files w /\ current_index w' = current_index w /\
     is_search_filtered w' = is_search_filtered w /\
     last (notes w') = Some (Overlay "no matches found")).
Proof.
  intros Hm Ht. cbv zeta. unfold _process_text_input. cbv zeta. rewrite Hm.
  rewrite bool_decide_eq_false_2 by done. unfold world_of.
  split; [intros f; apply elem_of_matching|].
  split; [apply sublist_filter|].
  unfold apply_search.
  change (all_image_files (set_mode NORMAL w)) with (all_image_files w).
  destruct (matching (strip raw) (all_image_files w)) as [|m ms] eqn:E.
  - split; [done|]. split; [done|]. split; [done|]. intros _.
    split; [done|]. split; [done|]. split; [done|]. simpl. by rewrite last_snoc.
  - rewrite <- E. set (found := matching (strip raw) (all_image_files w)).
    assert (Hne : found <> []) by (subst found; by rewrite E).
    clearbody found. clear E.
    set (x := set_current_index 0 _).
    destruct (rebuild_view x) as (Hi & Ha & Hc).
    destruct (rebuild_search x) as (Hf & _).
    pose proof (rebuild_fs x) as Hfs.
    assert (Hu : current_index (_update_image x) = 0%Z).
    { apply (update_image_cursor_small x); [done|].
      intros _. subst x. simpl. destruct found; [done|]. simpl length. lia. }
    rewrite Hu in Hc.
    assert (Hx : image_files x = found /\ all_image_files x = all_image_files w /\
                 is_search_filtered x = true /\ fs x = fs w) by done.
    destruct Hx as (X1 & X2 & X3 & X4). clearbody x.
    set (msg := ("filtered: " ++ _)%string). clearbody msg.
    generalize dependent (_rebuild_filmstrip_and_thumbnails x). intros R Hi Ha Hc Hf Hfs.
    unfold show_animated_overlay.
    change (all_image_files (set_notes ?n ?y)) with (all_image_files y).
    change (image_files (set_notes ?n ?y)) with (image_files y).
    change (current_index (set_notes ?n ?y)) with (current_index y).
    change (is_search_filtered (set_notes ?n ?y)) with (is_search_filtered y).
    change (fs (set_notes ?n ?y)) with (fs y).
    rewrite Ha, Hfs, Hi, Hc, Hf, X1, X2, X3, X4.
    split; [done|]. split; [done|]. split; [|done]. by intros _.
Qed.

Lemma search_keeps_the_names_containing_the_text_witness :
  let w := world_of (_open_text_input SEARCH three_loaded) in
  let w' := world_of (_process_text_input " B.P " None w) in
  let found := matching (strip " B.P ") (all_image_files w) in
  (forall f, f ∈ found <->
     f ∈ all_image_files w /\
     exists pre post, lower (name f) = (pre ++ lower (strip " B.P ") ++ post)%string) /\
  sublist found (all_image_files w) /\
  all_image_files w' = all_image_files w /\
  fs w' = fs w /\
  (found <> [] ->
     image_files w' = found /\ current_index w' = 0%Z /\ is_search_filtered w' = true) /\
  (found = [] ->
     image_files w' = image_files w /\ current_index w' = current_index w /\
     is_search_filtered w' = is_search_filtered w /\
     last (notes w') = Some (Overlay "no matches found")).
Proof.
  apply (search_keeps_the_names_containing_the_text
           (world_of (_open_text_input SEARCH three_loaded)) " B.P ").
  - compute_done.
  - compute_done.
Defined.

(** ** Suggestions while typing *)

Lemma suggestion_fold_keeps (files : FS) (ps : list Path) (w : World) :
  let step := fun (w' : World) (f : Path) =>
    match thumb_cache w' !! f with
    | Some _ => w'
    | None =>
        match read_scaled (fs w') f with
        | Some pix => set_thumb_cache (<[f := pix]> (thumb_cache w')) w'
        | None => w'
        end
    end in
  let w' := foldl step w ps in
  fs w' = fs w /\ all_image_files w' = all_image_files w /\
  image_files w' = image_files w /\ current_index w' = current_index w /\
  undo_stack w' = undo_stack w /\ is_search_filtered w' = is_search_filtered w /\
  filmstrip_item_map w' = filmstrip_item_map w /\
  (forall p pix, thumb_cache w !! p = Some pix -> thumb_cache w' !! p = Some pix) /\
  (forall p pix, thumb_cache w' !! p = Some pix ->
     thumb_cache w !! p = Some pix \/ (p ∈ ps /\ read_scaled (fs w) p = Some pix)).
Proof.
  cbv zeta. revert w. induction ps as [|f ps IH]; intros w.
  - simpl. repeat split; auto.
  - simpl foldl.
    set (w1 := match thumb_cache w !! f with Some _ => w | None => _ end).
    assert (H1 : fs w1 = fs w /\ all_image_files w1 = all_image_files w /\
      image_files w1 = image_files w /\ current_index w1 = current_index w /\
      undo_stack w1 = undo_stack w /\ is_search_filtered w1 = is_search_filtered w /\
      filmstrip_item_map w1 = filmstrip_item_map w /\
      (forall p pix, thumb_cache w !! p = Some pix -> thumb_cache w1 !! p = Some pix) /\
      (forall p pix, thumb_cache w1 !! p = Some pix ->
         thumb_cache w !! p = Some pix \/ (p = f /\ read_scaled (fs w) p = Some pix))).
    { subst w1. destruct (thumb_cache w !! f) eqn:Ec; [repeat split; auto|].
      destruct (read_scaled (fs w) f) as [pix0|] eqn:Er; [|repeat split; auto].
      simpl. repeat split; try done.
      - intros p pix Hp. rewrite lookup_insert_ne; [done|congruence].
      - intros p pix Hp. destruct (decide (f = p)) as [<-|Hne].
        + rewrite lookup_insert_eq in Hp. right. split; congruence.
        + rewrite lookup_insert_ne in Hp by done. by left. }
    clearbody w1. destruct H1 as (A1 & A2 & A3 & A4 & A5 & A6 & A7 & A8 & A9).
    destruct (IH w1) as (B1 & B2 & B3 & B4 & B5 & B6 & B7 & B8 & B9).
    repeat split; try congruence.
    + intros p pix Hp. by apply B8, A8.
    + intros p pix Hp. destruct (B9 p pix Hp) as [Hc|[Hin Hr]].
      * destruct (A9 p pix Hc) as [?|[-> ?]]; [by left|right]. split; [by left|done].
      * right. split; [by right|congruence].
Qed.

(** X13: typing in the search field changes neither the filesystem nor the
    catalog, the view, the cursor or the undo stack.  At most six paths
    are suggested, all from the catalog, in its order, each with the
    text in its name; the cache keeps what it has and gains only decoded
    previews of suggested paths. *)
Theorem typing_a_search_only_fills_the_cache (w : World) (text : string) :
  let w' := _on_search_text_changed text w in
  let sug := suggestions text w in
  (length sug <= 6)%nat /\
  sublist sug (all_image_files w) /\
  (forall f, f ∈ sug ->
     exists pre post, lower (name f) = (pre ++ lower (strip text) ++ post)%string) /\
  fs w' = fs w /\ all_image_files w' = all_image_files w /\
  image_files w' = image_files w /\ current_index w' = current_index w /\
  undo_stack w' = undo_stack w /\ is_search_filtered w' = is_search_filtered w /\
  (forall p pix, thumb_cache w !! p = Some pix -> thumb_cache w' !! p = Some pix) /\
  (forall p pix, thumb_cache w' !! p = Some pix ->
     thumb_cache w !! p = Some pix \/ (p ∈ sug /\ read_scaled (fs w) p = Some pix)).
Proof.
  cbv zeta. split; [unfold suggestions; rewrite length_take; lia|].
  split.
  { unfold suggestions. etrans; [apply sublist_take|apply sublist_filter]. }
  split.
  { intros f Hf. unfold suggestions in Hf.
    apply (fun H => elem_of_sublist _ _ _ H (sublist_take _ _)) in Hf.
    apply list_elem_of_filter in Hf as [Hf _]. by apply str_in_spec. }
  unfold _on_search_text_changed.
  destruct (mode w); try (repeat split; by auto).
  destruct (bool_decide _); [repeat split; by auto|].
  destruct (suggestion_fold_keeps (fs w) (suggestions text w) w)
    as (B1 & B2 & B3 & B4 & B5 & B6 & B7 & B8 & B9).
  cbv zeta in *. repeat split; auto.
Qed.

(** ** Jumping to a suggestion and coming back *)

Lemma py_index_NoDup `{EqDecision A} (l : list A) x i :
  NoDup l -> l !! i = Some x -> py_index l x = Some i.
Proof.
  intros Hnd Hi. destruct (py_index_is_Some l x) as [j Hj].
  { by eapply list_elem_of_lookup_2. }
  rewrite Hj. f_equal. apply py_index_lookup in Hj.
  by eapply NoDup_lookup.
Qed.

Lemma jump_frame (w : World) (target : Path) :
  let w' := _jump_to_image target w in
  is_search_filtered w' = false /\
  image_files w' = (if is_search_filtered w then all_image_files w else image_files w) /\
  all_image_files w' = all_image_files w /\
  fs w' = fs w.
Proof.
  cbv zeta. unfold _jump_to_image.
  set (w1 := if is_search_filtered w then _ else w).
  assert (H1 : is_search_filtered w1 = false /\
               image_files w1
               = (if is_search_filtered w then all_image_files w else image_files w) /\
               all_image_files w1 = all_image_files w /\ fs w1 = fs w).
  { subst w1. destruct (is_search_filtered w) eqn:Ef; [|done].
    match goal with |- context [_rebuild_filmstrip_and_thumbnails ?x] =>
      destruct (rebuild_view x) as (Hi & Ha & _);
      destruct (rebuild_search x) as (Hf & _);
      pose proof (rebuild_fs x) as Hfs end.
    rewrite Hi, Ha, Hf, Hfs. done. }
  clearbody w1.
  destruct (py_in target (image_files w1)); [|exact H1].
  destruct (py_index (image_files w1) target) as [i|]; [|exact H1].
  destruct (update_image_eq (set_current_index (Z.of_nat i) w1)) as [z ->].
  exact H1.
Qed.

(** X14: a jump to a path of the catalog drops the filter, if there is one,
    and shows that path; a jump to a path that is not in the list shown
    leaves the cursor where it is. *)
Theorem jump_shows_the_target (w : World) (target : Path) :
  let w' := _jump_to_image target w in
  let shown := if is_search_filtered w then all_image_files w else image_files w in
  is_search_filtered w' = false /\
  image_files w' = shown /\
  all_image_files w' = all_image_files w /\
  fs w' = fs w /\
  (target ∈ shown ->
     current w' = Some target /\
     exists i, py_index shown target = Some i /\ current_index w' = Z.of_nat i) /\
  (target ∉ shown -> is_search_filtered w = false -> w' = w).
Proof.
  cbv zeta. unfold _jump_to_image.
  set (w1 := if is_search_filtered w then _ else w).
  set (shown := if is_search_filtered w then all_image_files w else image_files w).
  assert (H1 : is_search_filtered w1 = false /\ image_files w1 = shown /\
               all_image_files w1 = all_image_files w /\ fs w1 = fs w /\
               (is_search_filtered w = false -> w1 = w)).
  { subst w1 shown. destruct (is_search_filtered w) eqn:Ef; [|done].
    match goal with |- context [_rebuild_filmstrip_and_thumbnails ?x] =>
      destruct (rebuild_view x) as (Hi & Ha & _);
      destruct (rebuild_search x) as (Hf & _);
      pose proof (rebuild_fs x) as Hfs end.
    rewrite Hi, Ha, Hf, Hfs. done. }
  clearbody w1. destruct H1 as (Hf & Hi & Ha & Hfs & Hsame).
  destruct (py_in target (image_files w1)) eqn:Ein.
  - apply py_in_true in Ein. destruct (py_index_is_Some _ _ Ein) as [i Hidx].
    rewrite Hidx. pose proof (py_index_lt _ _ _ Hidx) as Hlt.
    pose proof (py_index_lookup _ _ _ Hidx) as Hlk.
    set (x := set_current_index (Z.of_nat i) w1).
    assert (Hx : image_files x = image_files w1 /\ is_search_filtered x = false /\
                 all_image_files x = all_image_files w /\ fs x = fs w /\
                 current_index x = Z.of_nat i) by done.
    destruct Hx as (X1 & X2 & X3 & X4 & X5). clearbody x.
    assert (Hu : _update_image x = x).
    { apply update_image_in_range. rewrite X5, X1. lia. }
    rewrite Hu. set (msg := ("jumped to:" ++ _)%string). clearbody msg.
    unfold current, show_animated_overlay.
    change (is_search_filtered (set_notes ?n ?y)) with (is_search_filtered y).
    change (all_image_files (set_notes ?n ?y)) with (all_image_files y).
    change (image_files (set_notes ?n ?y)) with (image_files y).
    change (fs (set_notes ?n ?y)) with (fs y).
    change (current_index (set_notes ?n ?y)) with (current_index y).
    rewrite X1, X2, X3, X4, X5, Hi in *.
    split; [done|]. split; [done|]. split; [done|]. split; [done|]. split.
    + intros _. split.
      * apply py_get_nonneg; [lia|]. by rewrite Nat2Z.id.
      * by exists i.
    + intros Hn. by destruct Hn.
  - apply py_in_false in Ein. rewrite Hi in Ein.
    split; [done|]. split; [done|]. split; [done|]. split; [done|]. split; [done|].
    intros _ Hnf. by apply Hsame.
Qed.


(** X15: picking a suggestion and then going back returns to the image that
    was shown before the search was opened. *)
Theorem pick_then_back_returns (w : World) (p target : Path) :
  is_search_filtered w = false ->
  NoDup (image_files w) ->
  (0 <= current_index w)%Z ->
  image_files w !! Z.to_nat (current_index w) = Some p ->
  target ∈ all_image_files w ->
  let w' := run_commands [PickSuggestion target; EscapeOrBack] w in
  image_files w' = image_files w /\
  all_image_files w' = all_image_files w /\
  current_index w' = current_index w /\
  current w' = Some p /\
  pre_search_path w' = None /\
  is_search_filtered w' = false /\
  fs w' = fs w.
Proof.
  intros Hf Hnd H0 Hp Ht. cbv zeta.
  change (run_commands [PickSuggestion target; EscapeOrBack] w)
    with (run_command EscapeOrBack (run_command (PickSuggestion target) w)).
  assert (Hne : image_files w <> []) by (intros E; by rewrite E in Hp).
  assert (Hpick : exists w1, run_command (PickSuggestion target) w = w1 /\
    image_files w1 = image_files w /\ all_image_files w1 = all_image_files w /\
    is_search_filtered w1 = false /\ pre_search_path w1 = Some p /\ fs w1 = fs w).
  { unfold run_command, _open_text_input.
    change (is_search_filtered (set_mode SEARCH w)) with (is_search_filtered w).
    change (image_files (set_mode SEARCH w)) with (image_files w).
    change (current_index (set_mode SEARCH w)) with (current_index w).
    rewrite Hf, (bool_decide_eq_false_2 _ Hne). simpl negb. simpl andb. cbv iota.
    rewrite (py_get_nonneg _ _ _ H0 Hp).
    change (all_image_files (set_pre_search_path (Some p) (set_mode SEARCH w)))
      with (all_image_files w).
    rewrite (proj2 (py_in_true target (all_image_files w)) Ht).
    unfold _process_text_input. cbv zeta.
    change (mode (set_pre_search_path (Some p) (set_mode SEARCH w))) with SEARCH.
    cbv iota. unfold world_of.
    set (w0 := set_mode NORMAL _).
    destruct (jump_frame w0 target) as (J1 & J2 & J3 & J4).
    eexists. split; [reflexivity|].
    assert (Hpre : pre_search_path (_jump_to_image target w0) = Some p).
    { unfold _jump_to_image. change (is_search_filtered w0) with (is_search_filtered w).
      rewrite Hf. destruct (py_in target (image_files w0)); [|done].
      destruct (py_index (image_files w0) target); [|done].
      match goal with |- context [_update_image ?x] =>
        destruct (update_image_eq x) as [z ->] end. done. }
    rewrite J2, J3, J4. change (is_search_filtered w0) with (is_search_filtered w).
    rewrite Hf. done. }
  destruct Hpick as (w1 & -> & P1 & P2 & P3 & P4 & P5).
  unfold run_command, _escape_or_back. rewrite P3, P4. simpl snd.
  assert (Hin : p ∈ image_files w1) by (rewrite P1; by eapply list_elem_of_lookup_2).
  rewrite (proj2 (py_in_true p (image_files w1)) Hin).
  assert (Hidx : py_index (image_files w1) p = Some (Z.to_nat (current_index w)))
    by (rewrite P1; by apply py_index_NoDup).
  rewrite Hidx, Z2Nat.id by done.
  set (x := set_pre_search_path None _).
  assert (Hx : image_files x = image_files w /\ all_image_files x = all_image_files w /\
               current_index x = current_index w /\ pre_search_path x = None /\
               is_search_filtered x = false /\ fs x = fs w) by done.
  destruct Hx as (X1 & X2 & X3 & X4 & X5 & X6). clearbody x.
  assert (Hu : _update_image x = x).
  { apply update_image_in_range. rewrite X1, X3. apply lookup_lt_Some in Hp. lia. }
  rewrite Hu. unfold current, show_animated_overlay.
  change (image_files (set_notes ?n ?y)) with (image_files y).
  change (all_image_files (set_notes ?n ?y)) with (all_image_files y).
  change (current_index (set_notes ?n ?y)) with (current_index y).
  change (pre_search_path (set_notes ?n ?y)) with (pre_search_path y).
  change (is_search_filtered (set_notes ?n ?y)) with (is_search_filtered y).
  change (fs (set_notes ?n ?y)) with (fs y).
  rewrite X1, X2, X3, X4, X5, X6.
  split; [done|]. split; [done|]. split; [done|]. split; [|done].
  by apply py_get_nonneg.
Qed.

Lemma pick_then_back_returns_witness :
  let w := three_loaded in
  let w' := run_commands [PickSuggestion (joinpath pics "c.png"); EscapeOrBack] w in
  image_files w' = image_files w /\
  all_image_files w' = all_image_files w /\
  current_index w' = current_index w /\
  current w' = Some (joinpath pics "b.png") /\
  pre_search_path w' = None /\
  is_search_filtered w' = false /\
  fs w' = fs w.
Proof.
  apply (pick_then_back_returns three_loaded (joinpath pics "b.png") (joinpath pics "c.png"));
    compute_done.
Defined.

(** ** Navigation *)

(** X16: next and previous move the cursor by one and stop at the ends of the
    view without wrapping around; they change nothing else of the
    catalog, and previous undoes next except at the last image. *)
Theorem navigation_stops_at_the_ends (w : World) :
  cursor_ok w ->
  let n := Z.of_nat (length (image_files w)) in
  let c := current_index w in
  current_index (key_next w) = (if (c + 1 <? n)%Z then c + 1 else c)%Z /\
  current_index (key_prev w) = (if (0 <? c)%Z then c - 1 else c)%Z /\
  ((c + 1 < n)%Z -> current_index (key_prev (key_next w)) = c) /\
  image_files (key_next w) = image_files w /\ image_files (key_prev w) = image_files w /\
  all_image_files (key_next w) = all_image_files w /\
  all_image_files (key_prev w) = all_image_files w /\
  fs (key_next w) = fs w /\ fs (key_prev w) = fs w.
Proof.
  intros Hc. cbv zeta. unfold cursor_ok in Hc.
  assert (Hn : current_index (key_next w)
               = (if (current_index w + 1 <? Z.of_nat (length (image_files w)))%Z
                  then current_index w + 1 else current_index w)%Z).
  { unfold key_next, _update_image. destruct (image_files w) as [|a l] eqn:E.
    - rewrite Hc. simpl. done.
    - simpl image_files. rewrite E.
      change (current_index (set_current_index ?z ?x)) with z.
      unfold clamp_index. change (current_index (set_current_index ?z ?x)) with z.
      destruct (current_index w + 1 <? Z.of_nat (length (a :: l)))%Z eqn:El;
        [apply Z.ltb_lt in El|apply Z.ltb_ge in El]; lia. }
  assert (Hp : forall w0, cursor_ok w0 -> current_index (key_prev w0)
               = (if (0 <? current_index w0)%Z then current_index w0 - 1
                  else current_index w0)%Z).
  { intros w0 H0. unfold cursor_ok in H0. unfold key_prev, _update_image.
    destruct (image_files w0) as [|a l] eqn:E.
    - rewrite H0. done.
    - simpl image_files. rewrite E.
      change (current_index (set_current_index ?z ?x)) with z.
      unfold clamp_index. change (current_index (set_current_index ?z ?x)) with z.
      destruct (0 <? current_index w0)%Z eqn:El;
        [apply Z.ltb_lt in El|apply Z.ltb_ge in El]; lia. }
  split; [exact Hn|]. split; [by apply Hp|]. split.
  { intros Hlt. rewrite Hp by (by apply key_next_cursor_ok). rewrite Hn.
    replace (current_index w + 1 <? Z.of_nat (length (image_files w)))%Z with true
      by (symmetry; apply Z.ltb_lt; lia).
    replace (0 <? current_index w + 1)%Z with true by (symmetry; apply Z.ltb_lt;
      destruct (image_files w); simpl in *; lia).
    lia. }
  assert (Hk : forall z, image_files (_update_image (set_current_index z w)) = image_files w /\
             all_image_files (_update_image (set_current_index z w)) = all_image_files w /\
             fs (_update_image (set_current_index z w)) = fs w).
  { intros z. by destruct (update_image_eq (set_current_index z w)) as [? ->]. }
  unfold key_next, key_prev.
  destruct (image_files w) as [|a l] eqn:E; cbv iota; [by rewrite E|].
  match goal with |- context [_update_image (set_current_index ?z w)] =>
    destruct (Hk z) as (-> & -> & ->) end.
  match goal with |- context [_update_image (set_current_index ?z w)] =>
    destruct (Hk z) as (-> & -> & ->) end.
  done.
Qed.

Lemma navigation_stops_at_the_ends_witness :
  let w := three_loaded in
  let n := Z.of_nat (length (image_files w)) in
  let c := current_index w in
  current_index (key_next w) = (if (c + 1 <? n)%Z then c + 1 else c)%Z /\
  current_index (key_prev w) = (if (0 <? c)%Z then c - 1 else c)%Z /\
  ((c + 1 < n)%Z -> current_index (key_prev (key_next w)) = c) /\
  image_files (key_next w) = image_files w /\ image_files (key_prev w) = image_files w /\
  all_image_files (key_next w) = all_image_files w /\
  all_image_files (key_prev w) = all_image_files w /\
  fs (key_next w) = fs w /\ fs (key_prev w) = fs w.
Proof.
  apply (navigation_stops_at_the_ends three_loaded).
  unfold cursor_ok. vm_compute. split; [discriminate|reflexivity].
Defined.

(** ** Previews for paths outside the view *)

Lemma mwv_same w w' : same_strip w w' -> map_within_view w -> map_within_view w'.
Proof. intros (Hi & Hf & Hm) [Hl Hk]. split; rewrite ?Hi, ?Hf, ?Hm; done. Qed.

Lemma update_image_strip w : same_strip w (_update_image w).
Proof. destruct (update_image_eq w) as [z ->]. by repeat split. Qed.

Lemma add_items_rows paths w :
  length (filmstrip (foldl add_item w paths)) = (length (filmstrip w) + length paths)%nat.
Proof.
  revert w. induction paths as [|p paths IH]; intros w; simpl; [lia|].
  rewrite IH. unfold add_item.
  change (filmstrip (set_filmstrip_item_map ?m (set_filmstrip ?r ?x))) with r.
  rewrite length_app. simpl. lia.
Qed.

Lemma rebuild_mwv w : map_within_view (_rebuild_filmstrip_and_thumbnails w).
Proof.
  unfold _rebuild_filmstrip_and_thumbnails. cbv zeta.
  set (w1 := stop_and_wait w).
  set (w0 := set_filmstrip_item_map ∅ (set_filmstrip [] w1)).
  destruct (add_items_frame (image_files w1) w0) as (Fi & _).
  pose proof (add_items_rows (image_files w1) w0) as Fr.
  pose proof (fun p => add_items_map (image_files w1) w0 p) as Fm.
  change (image_files w0) with (image_files w1) in Fi.
  change (filmstrip w0) with (@nil nat) in Fr. simpl in Fr.
  set (w2 := foldl add_item w0 (image_files w1)) in *. clearbody w2.
  assert (H2 : map_within_view w2).
  { split; [by rewrite Fr, Fi|]. intros p Hp. rewrite Fi.
    apply Fm in Hp as [Hp|[? Hp]]; [done|].
    change (filmstrip_item_map w0) with (∅ : gmap Path nat) in Hp.
    by rewrite lookup_empty in Hp. }
  apply (mwv_same w2); [|done].
  destruct (update_image_eq w2) as [z ->].
  by destruct (image_files _).
Qed.

Lemma cursor_row w img :
  cursor_ok w -> length (filmstrip w) = length (image_files w) ->
  py_get (image_files w) (current_index w) = Some img ->
  (0 <= current_index w)%Z /\
  image_files w !! Z.to_nat (current_index w) = Some img /\
  is_Some (filmstrip w !! Z.to_nat (current_index w)).
Proof.
  intros Hc Hl Hg. pose proof (cursor_ok_current w Hc) as Hcur.
  unfold current in Hcur. unfold cursor_ok in Hc.
  destruct (image_files w) as [|a l] eqn:E; [congruence|]. clear Hcur.
  unfold py_get in Hg. rewrite norm_index_nonneg in Hg by done.
  split; [lia|]. split; [done|].
  apply lookup_lt_is_Some. rewrite Hl. lia.
Qed.

Lemma replaced_within (view : list Path) (m : gmap Path nat) k img new item :
  view !! k = Some img ->
  (forall p, is_Some (m !! p) -> p ∈ view) ->
  forall p, is_Some (<[new := item]> (delete img m) !! p) -> p ∈ <[k := new]> view.
Proof.
  intros Hk Hm p Hp. destruct (decide (new = p)) as [<-|Hne].
  - apply list_elem_of_lookup. exists k. apply list_lookup_insert_eq.
    by eapply lookup_lt_Some.
  - rewrite lookup_insert_ne in Hp by done.
    destruct (decide (img = p)) as [<-|Hni]; [by rewrite lookup_delete_eq in Hp; destruct Hp|].
    rewrite lookup_delete_ne in Hp by done.
    apply Hm, list_elem_of_lookup in Hp as [j Hj].
    apply list_elem_of_lookup. exists j. rewrite list_lookup_insert_ne; [done|].
    intros ->. congruence.
Qed.

Lemma removed_within (view : list Path) (m : gmap Path nat) k img :
  view !! k = Some img ->
  (forall p, is_Some (m !! p) -> p ∈ view) ->
  forall p, is_Some (delete img m !! p) -> p ∈ delete k view.
Proof.
  intros Hk Hm p Hp.
  destruct (decide (img = p)) as [<-|Hni]; [by rewrite lookup_delete_eq in Hp; destruct Hp|].
  rewrite lookup_delete_ne in Hp by done.
  apply Hm, list_elem_of_lookup in Hp as [j Hj].
  assert (j <> k) by (intros ->; congruence).
  apply list_elem_of_lookup.
  destruct (decide (j < k)%nat) as [Hlt|Hge].
  - exists j. by rewrite list_lookup_delete_lt.
  - exists (j - 1)%nat. rewrite list_lookup_delete_ge by lia.
    by replace (S (j - 1)) with j by lia.
Qed.

Lemma rename_mwv new_name w :
  cursor_ok w -> map_within_view w ->
  map_within_view (world_of (_rename_current_file new_name w)).
Proof.
  intros Hc [Hl Hk]. unfold _rename_current_file.
  destruct (py_get (image_files w) (current_index w)) as [img|] eqn:Hg; [|by split].
  destruct (cursor_row w img Hc Hl Hg) as (Hi & Himg & [item Hrow]).
  cbv zeta. destruct (exists_ _ _); [by split|].
  destruct (os_rename _ _ _) as [e|files']; [by split|].
  change (image_files (set_fs files' w)) with (image_files w).
  change (current_index (set_fs files' w)) with (current_index w).
  rewrite (py_set_nonneg _ _ _ _ Hi Himg).
  set (new_path := rename_target new_name img).
  set (l := <[Z.to_nat (current_index w) := new_path]> (image_files w)).
  set (w3 := if py_in img _ then _ else _).
  assert (H3 : image_files w3 = l /\ filmstrip w3 = filmstrip w /\
               filmstrip_item_map w3 = filmstrip_item_map w /\
               current_index w3 = current_index w).
  { subst w3. destruct (py_in img _); [destruct (py_index _ img)|]; done. }
  destruct H3 as (H3i & H3f & H3m & H3c). clearbody w3.
  unfold filmstrip_item. rewrite H3c, H3f, (proj2 (Z.leb_le 0 (current_index w)) Hi), Hrow.
  unfold world_of.
  match goal with |- map_within_view (_update_image ?x) =>
    apply (mwv_same x); [apply update_image_strip|]; set (w6 := x) end.
  assert (H6 : image_files w6 = l /\ filmstrip w6 = filmstrip w /\
               filmstrip_item_map w6
               = <[new_path := item]> (delete img (filmstrip_item_map w))).
  { subst w6. rewrite <- H3i, <- H3f, <- H3m. by destruct (thumb_cache _ !! img). }
  destruct H6 as (H6i & H6f & H6m). clearbody w6.
  unfold map_within_view. rewrite H6i, H6f, H6m. subst l.
  split; [by rewrite length_insert|]. by apply replaced_within.
Qed.

Lemma remove_item_mwv w :
  cursor_ok w -> map_within_view w ->
  map_within_view (world_of (_remove_item_from_view (current_index w) w)).
Proof.
  intros Hc [Hl Hk]. unfold _remove_item_from_view.
  destruct (py_pop (image_files w) (current_index w)) as [[img rest]|] eqn:Hp; [|by split].
  assert (Hg : py_get (image_files w) (current_index w) = Some img).
  { unfold py_pop, py_get in *. destruct (norm_index _ _) as [k|]; [|done].
    destruct (image_files w !! k); [|done]. congruence. }
  destruct (cursor_row w img Hc Hl Hg) as (Hi & Himg & Hrow).
  rewrite (py_pop_nonneg _ _ _ Hi Himg) in Hp. injection Hp as <-.
  cbv zeta. unfold world_of.
  match goal with |- map_within_view (_update_image ?x) =>
    apply (mwv_same x); [apply update_image_strip|] end.
  set (w2 := if py_in img _ then _ else _).
  assert (H2 : image_files w2 = delete (Z.to_nat (current_index w)) (image_files w) /\
               filmstrip w2 = filmstrip w /\
               filmstrip_item_map w2 = filmstrip_item_map w).
  { subst w2. by destruct (py_in img _). }
  destruct H2 as (H2i & H2f & H2m). clearbody w2.
  unfold map_within_view, takeItem.
  change (image_files (set_filmstrip_item_map ?m (set_filmstrip ?r ?x))) with (image_files x).
  change (filmstrip (set_filmstrip_item_map ?m (set_filmstrip ?r ?x))) with r.
  change (filmstrip_item_map (set_filmstrip_item_map ?m ?x)) with m.
  change (filmstrip_item_map (set_filmstrip ?r ?x)) with (filmstrip_item_map x).
  rewrite H2i, H2f, H2m, (proj2 (Z.leb_le 0 (current_index w)) Hi). split.
  - rewrite !length_delete by (done || by eexists). by rewrite Hl.
  - by apply removed_within.
Qed.

Lemma move_and_record_mwv txt img dest entry w :
  cursor_ok w -> map_within_view w ->
  map_within_view (world_of (move_and_record txt img dest entry w)).
Proof.
  intros Hc Hm. unfold move_and_record.
  destruct (shutil_move _ _ _) as [e|files']; [exact Hm|]. cbv zeta.
  set (w1 := set_undo_stack _ _).
  pose proof (remove_item_mwv w1 Hc Hm) as Hr.
  change (current_index w1) with (current_index w) in *.
  by destruct (_remove_item_from_view (current_index w) w1).
Qed.

Lemma clear_search_filter_mwv w :
  map_within_view w -> map_within_view (_clear_search_filter w).
Proof.
  intros Hm. unfold _clear_search_filter.
  destruct (negb (is_search_filtered w)); [done|]. cbv zeta.
  match goal with |- map_within_view (show_animated_overlay _ ?x) =>
    apply (mwv_same x); [by repeat split|] end.
  apply rebuild_mwv.
Qed.

Lemma jump_mwv target w : map_within_view w -> map_within_view (_jump_to_image target w).
Proof.
  intros Hm. unfold _jump_to_image.
  set (w1 := if is_search_filtered w then _ else w).
  assert (H1 : map_within_view w1).
  { subst w1. destruct (is_search_filtered w); [apply rebuild_mwv|done]. }
  clearbody w1.
  destruct (py_in target (image_files w1)); [|done].
  destruct (py_index (image_files w1) target) as [i|]; [|done].
  destruct (update_image_eq (set_current_index (Z.of_nat i) w1)) as [z Hz].
  apply (mwv_same w1); [|done]. rewrite Hz. by repeat split.
Qed.

Lemma apply_search_mwv text w : map_within_view w -> map_within_view (apply_search text w).
Proof.
  intros Hm. unfold apply_search.
  destruct (matching text (all_image_files w)) as [|m ms]; [exact Hm|].
  match goal with |- map_within_view (show_animated_overlay _ ?x) =>
    apply (mwv_same x); [by repeat split|] end.
  apply rebuild_mwv.
Qed.

Lemma process_text_input_mwv raw sel w :
  cursor_ok w -> map_within_view w ->
  map_within_view (world_of (_process_text_input raw sel w)).
Proof.
  intros Hc Hm. unfold _process_text_input. cbv zeta.
  destruct (mode w); try exact Hm.
  - destruct (bool_decide _); [exact Hm|].
    pose proof (rename_mwv (strip raw) (set_mode NORMAL w) Hc Hm) as Hr.
    destruct (_rename_current_file _ _) as [w2|e w2]; exact Hr.
  - destruct sel as [t|]; unfold world_of.
    + by apply jump_mwv.
    + destruct (bool_decide _).
      * by apply clear_search_filter_mwv.
      * by apply apply_search_mwv.
Qed.

Lemma open_text_input_strip m w : same_strip w (world_of (_open_text_input m w)).
Proof.
  unfold _open_text_input. destruct m; simpl; try (by repeat split).
  - by destruct (py_get _ _).
  - destruct (negb (is_search_filtered w) && _); [|by repeat split].
    by destruct (py_get _ _).
Qed.

Lemma escape_or_back_mwv w : map_within_view w -> map_within_view (_escape_or_back w).2.
Proof.
  intros Hm. unfold _escape_or_back.
  destruct (is_search_filtered w); [by apply clear_search_filter_mwv|].
  destruct (pre_search_path w) as [p|]; [|done]. cbv zeta. simpl snd.
  match goal with |- context [_update_image ?x] =>
    destruct (update_image_eq x) as [z ->] end.
  apply (mwv_same w); [|done].
  destruct (py_in p (image_files w)); [|by repeat split].
  by destruct (py_index (image_files w) p).
Qed.

Lemma load_directory_mwv d i w :
  map_within_view w -> map_within_view (world_of (load_directory d i w)).
Proof.
  intros Hm. unfold load_directory. cbv zeta.
  destruct (mkdir _ _) as [e|files']; [exact Hm|].
  unfold world_of. apply rebuild_mwv.
Qed.

Lemma apply_thumbnail_strip p pix w : same_strip w (_apply_thumbnail p pix w).
Proof.
  unfold _apply_thumbnail. by destruct (filmstrip_item_map w !! p).
Qed.

Lemma run_command_mwv c w :
  c <> Undo -> cursor_ok w -> map_within_view w -> map_within_view (run_command c w).
Proof.
  intros Hu Hc Hm. destruct c; unfold run_command; try done.
  - by apply load_directory_mwv.
  - unfold key_prev. destruct (image_files w) eqn:E; [done|].
    match goal with |- context [_update_image ?x] =>
      destruct (update_image_eq x) as [z ->] end.
    apply (mwv_same w); [by repeat split|done].
  - unfold key_next. destruct (image_files w) eqn:E; [done|].
    match goal with |- context [_update_image ?x] =>
      destruct (update_image_eq x) as [z ->] end.
    apply (mwv_same w); [by repeat split|done].
  - destruct (row <? length (image_files w))%nat; [|done].
    unfold _on_filmstrip_selected. destruct (0 <=? Z.of_nat row)%Z; [|done].
    match goal with |- context [_update_image ?x] =>
      destruct (update_image_eq x) as [z ->] end.
    apply (mwv_same w); [by repeat split|done].
  - pose proof (open_text_input_strip SEARCH w) as Ho.
    pose proof (open_text_input_cursor_ok SEARCH w Hc) as Hoc.
    destruct (_open_text_input SEARCH w) as [w1|e w1]; simpl in Ho, Hoc.
    + apply process_text_input_mwv; [done|]. by apply (mwv_same w).
    + by apply (mwv_same w).
  - pose proof (open_text_input_strip SEARCH w) as Ho.
    pose proof (open_text_input_cursor_ok SEARCH w Hc) as Hoc.
    destruct (_open_text_input SEARCH w) as [w1|e w1]; simpl in Ho, Hoc.
    + destruct (py_in target (all_image_files w1)); [|by apply (mwv_same w)].
      apply process_text_input_mwv; [done|]. by apply (mwv_same w).
    + by apply (mwv_same w).
  - pose proof (open_text_input_strip SEARCH w) as Ho.
    destruct (_open_text_input SEARCH w) as [w1|e w1]; simpl in Ho.
    + apply (mwv_same w1); [by repeat split|]. by apply (mwv_same w).
    + by apply (mwv_same w).
  - by apply escape_or_back_mwv.
  - unfold guarded. destruct (image_files w) eqn:E; [done|].
    pose proof (open_text_input_strip RENAME w) as Ho.
    pose proof (open_text_input_cursor_ok RENAME w Hc) as Hoc.
    destruct (_open_text_input RENAME w) as [w1|e w1]; simpl in Ho, Hoc.
    + apply process_text_input_mwv; [done|]. by apply (mwv_same w).
    + by apply (mwv_same w).
  - unfold guarded. destruct (image_files w) eqn:E; [done|].
    unfold _move_to_target. destruct (py_get _ _) as [img|]; [|done].
    destruct (mkdir_parents _ _) as [e|files1]; [done|]. cbv zeta.
    by apply (move_and_record_mwv _ _ _ _ (set_fs files1 w)).
  - unfold guarded. destruct (image_files w) eqn:E; [done|].
    unfold _delete_current. destruct (py_get _ _) as [img|]; [|done].
    destruct (trash_dir w); [|done]. by apply move_and_record_mwv.
  - unfold thread_turn. destruct (threads w !! thread); [|done].
    by destruct (worker_step _ _).
  - unfold deliver. destruct (queue w) as [|[p pix] q]; [done|].
    apply (mwv_same (set_queue q w)); [apply apply_thumbnail_strip|done].
Qed.

(** X11: in a session without undo, a preview-ready signal for a path that is
    not in the view is ignored, whatever was loaded, filtered, renamed,
    moved or deleted before and however the workers were scheduled: no
    item is bound to the path, and applying the preview changes nothing,
    neither an icon nor the cache. *)
Theorem previews_outside_the_view_are_ignored
  (files : FS) (cs : list command) (p : Path) (pix : pixmap) :
  Undo ∉ cs ->
  let w := run_commands cs (initial_world files) in
  p ∉ image_files w ->
  filmstrip_item_map w !! p = None /\
  _apply_thumbnail p pix w = w.
Proof.
  intros Hu. cbv zeta.
  assert (Hinv : cursor_ok (run_commands cs (initial_world files)) /\
                 map_within_view (run_commands cs (initial_world files))).
  { assert (H0 : cursor_ok (initial_world files) /\ map_within_view (initial_world files)).
    { split; [done|]. split; [done|]. intros q [? Hq].
      change (filmstrip_item_map (initial_world files)) with (∅ : gmap Path nat) in Hq.
      by rewrite lookup_empty in Hq. }
    revert Hu H0. generalize (initial_world files).
    induction cs as [|c cs IH]; intros w Hu [Hc Hm]; [done|].
    apply not_elem_of_cons in Hu as [Hne Hu].
    simpl. apply IH; [done|]. split.
    - by apply run_command_cursor_ok.
    - by apply run_command_mwv. }
  destruct Hinv as [_ [_ Hk]]. intros Hp.
  assert (Hnone : filmstrip_item_map (run_commands cs (initial_world files)) !! p = None).
  { destruct (filmstrip_item_map _ !! p) eqn:E; [|done].
    exfalso. apply Hp, Hk. by eexists. }
  split; [exact Hnone|]. by apply apply_thumbnail_absent.
Qed.

Lemma previews_outside_the_view_are_ignored_witness :
  let cs := [Load pics 0; WorkerTurn 0; WorkerTurn 0; WorkerTurn 0;
             Rename "z"; Next; DeleteCurrent; Search "z"] in
  let w := run_commands cs (initial_world three_fs) in
  image_files w = [["home"; "pics"; "z.png"]] /\
  queue w = [(["home"; "pics"; "a.png"], 1%nat); (["home"; "pics"; "b.png"], 2%nat);
             (["home"; "pics"; "c.png"], 3%nat)] /\
  filmstrip_item_map w !! ["home"; "pics"; "c.png"] = None /\
  _apply_thumbnail ["home"; "pics"; "c.png"] 3%nat w = w.
Proof.
  cbv zeta. split; [compute_done|]. split; [compute_done|].
  apply (previews_outside_the_view_are_ignored three_fs
           [Load pics 0; WorkerTurn 0; WorkerTurn 0; WorkerTurn 0;
            Rename "z"; Next; DeleteCurrent; Search "z"]
           ["home"; "pics"; "c.png"] 3%nat).
  - compute_done.
  - compute_done.
Defined.
